(** * Portfolio risk/return engine: Monte Carlo simulator and risk-parity optimizer

    A shallow embedding of
      - [src/serverless/src/functions/monte_carlo/simulate.py]
      - [src/serverless/src/functions/optimization/risk_parity.py]
      - [src/serverless/src/lib/utils/response.py]
    and the properties the specification states about them.

    The numeric code is written once, over an interface [Num] of the
    arithmetic the Python code uses, and read at two instances:
      - [float_num]: IEEE-754 binary64 (the kernel's primitive floats), which is
        what Python and NumPy compute with; it evaluates, and every
        bit-level statement is made there;
      - [R_num]: the real numbers, for the algebraic identities the
        specification derives in exact arithmetic. *)

From Stdlib Require Import ZArith List String Floats Reals Lra Lia.
From stdpp Require Import base option list.
Import ListNotations.

Local Open Scope Z_scope.
Local Open Scope list_scope.

(** ** The arithmetic interface *)

Class Num (A : Type) := {
  zero  : A;
  one   : A;
  add   : A -> A -> A;
  sub   : A -> A -> A;
  mul   : A -> A -> A;
  div   : A -> A -> A;
  sqrt  : A -> A;
  leb   : A -> A -> bool;   (* Python's [<=] on two floats *)
  of_Z  : Z -> A;           (* Python's [float(int)] *)
  floor : A -> Z            (* [np.floor(x).astype(np.intp)] *)
}.

(** Python's [float(z)]: the binary64 value nearest to the integer [z]. *)
Definition float_of_Z (z : Z) : float :=
  SF2Prim (SpecFloat.binary_normalize FloatOps.prec FloatOps.emax z 0 false).

(** The integer part of a float, rounded down; 0 on NaN and the infinities,
    where NumPy's conversion to an index is unspecified. *)
Definition float_floor (x : float) : Z :=
  match Prim2SF x with
  | SpecFloat.S754_finite s m e =>
      let v := if 0 <=? e
               then Z.pos m * 2 ^ e
               else if s then (Z.pos m + 2 ^ (- e) - 1) / 2 ^ (- e)
                    else Z.pos m / 2 ^ (- e) in
      if s then - v else v
  | _ => 0
  end.

#[export] Instance float_num : Num float := {
  zero := 0%float;
  one  := 1%float;
  add  := PrimFloat.add;
  sub  := PrimFloat.sub;
  mul  := PrimFloat.mul;
  div  := PrimFloat.div;
  sqrt := PrimFloat.sqrt;
  leb  := PrimFloat.leb;
  of_Z := float_of_Z;
  floor := float_floor
}.

Definition Rleb (x y : R) : bool := if Rle_dec x y then true else false.

#[export] Instance R_num : Num R := {
  zero := 0%R;
  one  := 1%R;
  add  := Rplus;
  sub  := Rminus;
  mul  := Rmult;
  div  := Rdiv;
  sqrt := R_sqrt.sqrt;
  leb  := Rleb;
  of_Z := IZR;
  floor := Int_part
}.

(** ** Exceptions and fallible computations *)

Inductive exn : Type :=
  | ValueError (msg : string)
  | IndexError (msg : string)
  | AxisError  (msg : string)
  | TypeError  (msg : string)
  | ZeroDivisionError (msg : string).

(** Python's [str(e)]. *)
Definition str_exn (e : exn) : string :=
  match e with
  | ValueError m | IndexError m | AxisError m | TypeError m
  | ZeroDivisionError m => m
  end.

Inductive result (X : Type) : Type :=
  | Ok (x : X)
  | Raise (e : exn).
Arguments Ok {X} x.
Arguments Raise {X} e.

#[export] Instance result_ret : MRet result := fun _ x => Ok x.
#[export] Instance result_bind : MBind result := fun _ _ f r =>
  match r with Ok x => f x | Raise e => Raise e end.

(** [for t in ts: acc = body(acc, t)], stopping at the first exception. *)
Fixpoint for_range {S T : Type} (body : S -> T -> result S) (acc : S) (ts : list T)
  : result S :=
  match ts with
  | [] => Ok acc
  | t :: ts' => match body acc t with
                | Ok acc' => for_range body acc' ts'
                | Raise e => Raise e
                end
  end.

(** [a[i]] on a list or a NumPy axis, for an index [0 <= i]. *)
Definition getitem {X : Type} (l : list X) (i : nat) : result X :=
  match l !! i with
  | Some x => Ok x
  | None => Raise (IndexError "index out of range")
  end.

(** [a[i]] for any integer [i]: a negative index counts from the end. *)
Definition getitem_py {X : Type} (l : list X) (i : Z) : result X :=
  let j := if i <? 0 then i + Z.of_nat (length l) else i in
  if j <? 0 then Raise (IndexError "index out of range")
  else getitem l (Z.to_nat j).

(** ** Request values

    The request body is the value [json.loads] returns: [None], booleans,
    integers, floats, strings, lists and dictionaries. A dictionary is kept as
    the list of its items, in iteration order; its keys are distinct. *)

#[local] Set Warnings "-register-all".

Inductive pyval (A : Type) : Type :=
  | PNone
  | PBool  (b : bool)
  | PInt   (z : Z)
  | PFloat (x : A)
  | PStr   (s : string)
  | PList  (l : list (pyval A))
  | PDict  (d : list (string * pyval A)).
Arguments PNone {A}.
Arguments PBool {A} b.
Arguments PInt {A} z.
Arguments PFloat {A} x.
Arguments PStr {A} s.
Arguments PList {A} l.
Arguments PDict {A} d.

Section PythonValues.
Context {A : Type} `{Num A}.

(** [d.get(key)]: the value at [key], [None] when there is none. *)
Fixpoint dict_get (d : list (string * pyval A)) (key : string) : pyval A :=
  match d with
  | [] => PNone
  | (k, v) :: d' => if String.eqb k key then v else dict_get d' key
  end.

(** [d.get(key, default)]. *)
Fixpoint dict_get_default (d : list (string * pyval A)) (key : string)
    (default : pyval A) : pyval A :=
  match d with
  | [] => default
  | (k, v) :: d' => if String.eqb k key then v else dict_get_default d' key default
  end.

(** [key in d]. *)
Definition dict_contains (d : list (string * pyval A)) (key : string) : bool :=
  existsb (fun kv => String.eqb (fst kv) key) d.

(** [x == 0.0] on floats: false on NaN, true on both zeros. *)
Definition is_zero (x : A) : bool := leb x zero && leb zero x.

(** [x != x]: true on NaN only. *)
Definition is_nan (x : A) : bool := negb (leb x x).

(** [a < b] on floats. *)
Definition ltb (a b : A) : bool := leb a b && negb (leb b a).

(** [bool(v)], which [not v] negates. *)
Definition truthy (v : pyval A) : bool :=
  match v with
  | PNone => false
  | PBool b => b
  | PInt z => negb (z =? 0)
  | PFloat x => negb (is_zero x)
  | PStr s => negb (String.eqb s "")
  | PList l => match l with [] => false | _ => true end
  | PDict d => match d with [] => false | _ => true end
  end.

Definition is_none (v : pyval A) : bool :=
  match v with PNone => true | _ => false end.

(** [isinstance(v, dict)]. *)
Definition isinstance_dict (v : pyval A) : bool :=
  match v with PDict _ => true | _ => false end.

(** [isinstance(v, int)]: [bool] is a subclass of [int]. *)
Definition isinstance_int (v : pyval A) : bool :=
  match v with PBool _ | PInt _ => true | _ => false end.

(** [isinstance(v, (int, float))]. *)
Definition isinstance_int_float (v : pyval A) : bool :=
  match v with PBool _ | PInt _ | PFloat _ => true | _ => false end.

(** [v <= 0] on a value that passed [isinstance(v, (int, float))]; on any
    other value the test is not reached. *)
Definition le_zero (v : pyval A) : bool :=
  match v with
  | PBool b => (if b then 1 else 0) <=? 0
  | PInt z => z <=? 0
  | PFloat x => leb x zero
  | _ => false
  end.

(** The dimension NumPy reads off a value, as an entry of the shape given
    to [np.zeros] or as the [size] given to [np.random.normal]: an [int]
    stands for itself. A [bool] is refused with a [TypeError], although
    [isinstance] takes it for an [int]; so is every other value. (The
    wording of NumPy's message depends on the call; it is not modelled.) *)
Definition as_int (v : pyval A) : result Z :=
  match v with
  | PInt z => Ok z
  | _ => Raise (TypeError "object cannot be interpreted as an integer")
  end.

(** The float NumPy stores for a number: [True] is 1.0, [False] is 0.0, an
    integer is rounded to the nearest float (an integer beyond the range of
    binary64, on which Python raises [OverflowError], is outside the model). *)
Definition as_float (v : pyval A) : result A :=
  match v with
  | PBool b => Ok (of_Z (if b then 1 else 0))
  | PInt z => Ok (of_Z z)
  | PFloat x => Ok x
  | _ => Raise (TypeError "float() argument must be a string or a real number")
  end.

(** The items of a dictionary; no items for any other value. *)
Definition items (v : pyval A) : list (string * pyval A) :=
  match v with PDict d => d | _ => [] end.

(** The floats of a list of numbers, as [np.array] stores them. *)
Definition as_floats (v : pyval A) : result (list A) :=
  match v with
  | PList l => mapM as_float l
  | _ => Raise (TypeError "object is not a list")
  end.

(** The loop both [validate_request] functions run over [returns.items()]. *)
Fixpoint check_returns (returns : list (string * pyval A)) (errors : list string)
  : list string :=
  match returns with
  | [] => errors
  | (asset, asset_returns) :: rest =>
      check_returns rest
        match asset_returns with
        | PList l =>
            if forallb isinstance_int_float l then errors
            else errors ++ ["Returns for asset " ++ asset ++ " must be numeric"]%string
        | _ => errors ++ ["Returns for asset " ++ asset ++ " must be a list"]%string
        end
  end.

(** What the loop over [returns.items()] lets through: every series is a list
    and every entry of it an [int], a [bool] or a [float]. Neither the length
    of a series nor the value of an entry is looked at. *)
Definition series_well_typed (kv : string * pyval A) : bool :=
  match snd kv with
  | PList l => forallb isinstance_int_float l
  | _ => false
  end.

(** The lengths of the series of a request, in the order of [returns]. *)
Definition series_lengths (body : list (string * pyval A)) : list nat :=
  map (fun kv => match snd kv with PList l => length l | _ => 0%nat end)
      (items (dict_get body "returns")).

(** The checks on [portfolioId] and [returns] that open both
    [validate_request] functions. *)
Definition check_required (body : list (string * pyval A)) : list string :=
  let errors := [] in
  let errors :=
    if negb (truthy (dict_get body "portfolioId"))
    then errors ++ ["Portfolio ID is required"]%string else errors in
  let returns := dict_get body "returns" in
  if negb (truthy returns)
  then errors ++ ["Returns data is required"]%string
  else if negb (isinstance_dict returns)
  then errors ++ ["Returns data must be a dictionary"]%string
  else check_returns (items returns) errors.
End PythonValues.

(** ** [response.py] *)

Module response.
Record error_info : Type := {
  code : string;
  message : string;
  details : option (list string)
}.

Inductive body_t (P : Type) : Type :=
  | Data (data : P)
  | Error (e : error_info).
Arguments Data {P} data.
Arguments Error {P} e.

(** The API Gateway response; [body] is the value handed to [json.dumps]. *)
Record t (P : Type) : Type := {
  statusCode : Z;
  headers : list (string * string);
  body : body_t P
}.
Arguments statusCode {P} _.
Arguments headers {P} _.
Arguments body {P} _.

Definition default_headers : list (string * string) :=
  [ ("Content-Type", "application/json");
    ("Access-Control-Allow-Origin", "*");
    ("Access-Control-Allow-Methods", "GET, POST, PUT, DELETE, OPTIONS");
    ("Access-Control-Allow-Headers",
     "Content-Type,X-Amz-Date,Authorization,X-Api-Key,X-Amz-Security-Token") ]%string.

Definition success {P : Type} (data : P) : t P :=
  {| statusCode := 200; headers := default_headers; body := Data data |}.

(** [details] is written only when it is a non-empty list. *)
Definition error {P : Type} (status_code : Z) (error_code message : string)
    (details : list string) : t P :=
  {| statusCode := status_code;
     headers := default_headers;
     body := Error {| code := error_code;
                      message := message;
                      details := match details with
                                 | [] => None
                                 | _ => Some details
                                 end |} |}.

Definition not_found {P : Type} (resource_type resource_id : string) : t P :=
  error 404 "NOT_FOUND" (resource_type ++ " not found: " ++ resource_id)%string [].

Definition validation_error {P : Type} (message : string) (details : list string)
  : t P :=
  error 400 "VALIDATION_ERROR" message details.

(** The error code a response carries, if it is an error response. *)
Definition error_code {P : Type} (r : t P) : option string :=
  match body r with
  | Data _ => None
  | Error e => Some (code e)
  end.

(** The error codes the two handlers write. *)
Definition handler_error_codes : list string :=
  [ "VALIDATION_ERROR"; "NOT_FOUND"; "OPTIMIZATION_ERROR"; "INTERNAL_SERVER_ERROR" ]%string.
End response.

(** ** NumPy's element-wise operations and reductions

    NumPy is a library the repository calls; its functions are written here
    by what they compute. A vector is a list, a matrix the list of its rows;
    the handlers build every vector and matrix over one list of assets, so
    shapes that do not conform are not modelled. A reduction adds from left
    to right; NumPy's own order of additions (pairwise, or that of BLAS) can
    differ from it in the last bits of a binary64 result. *)

Section Numpy.
Context {A : Type} `{Num A}.

(** [np.sum(v)]. *)
Definition np_sum (v : list A) : A := foldl add zero v.

(** [a * b] and [np.multiply(a, b)] on two vectors of one length. *)
Definition np_multiply (a b : list A) : list A := zip_with mul a b.

(** [np.dot(a, b)] on two vectors. *)
Definition np_dot (a b : list A) : A := np_sum (np_multiply a b).

(** [np.dot(m, v)] on a matrix (a list of rows) and a vector. *)
Definition np_matvec (m : list (list A)) (v : list A) : list A :=
  map (fun row => np_dot row v) m.

(** [np.zeros((rows, cols))]. *)
Definition np_zeros (rows cols : Z) : result (list (list A)) :=
  if (rows <? 0) || (cols <? 0)
  then Raise (ValueError "negative dimensions are not allowed")
  else Ok (replicate (Z.to_nat rows) (replicate (Z.to_nat cols) zero)).

(** [m[:, j] = v] on a matrix with [cols] columns. *)
Definition set_column (m : list (list A)) (cols j : nat) (v : A)
  : result (list (list A)) :=
  if (j <? cols)%nat
  then Ok (map (fun row => <[j := v]> row) m)
  else Raise (IndexError "index is out of bounds for axis 1").

(** [m[i, t] = v]. *)
Definition setitem2 (m : list (list A)) (i t : nat) (v : A)
  : result (list (list A)) :=
  match m !! i with
  | Some row =>
      if (t <? length row)%nat
      then Ok (<[i := <[t := v]> row]> m)
      else Raise (IndexError "index is out of bounds for axis 1")
  | None => Raise (IndexError "index is out of bounds for axis 0")
  end.

(** [np.array(rows)] on a list of lists of numbers: the rows must be of one
    length (NumPy 1.24 and later refuse a ragged nesting). *)
Definition np_array (rows : list (list A)) : result (list (list A)) :=
  match rows with
  | [] => Ok []
  | r :: rs =>
      if forallb (fun r' => (length r' =? length r)%nat) rs
      then Ok rows
      else Raise (ValueError "setting an array element with a sequence. The requested array has an inhomogeneous shape")
  end.

(** [np.mean(v)]. *)
Definition np_mean (v : list A) : A :=
  div (np_sum v) (of_Z (Z.of_nat (length v))).

(** [np.mean(m, axis=1)]; an empty [np.array([])] has no axis 1. *)
Definition np_mean_axis1 (m : list (list A)) : result (list A) :=
  match m with
  | [] => Raise (AxisError "axis 1 is out of bounds for array of dimension 1")
  | _ => Ok (map np_mean m)
  end.

(** [np.cov(m)]: each row is a variable, each column an observation; the
    sample covariance, with [N - 1] as the divisor (zero when [N <= 1]). *)
Definition np_cov (m : list (list A)) : list (list A) :=
  let N := Z.of_nat (length (hd [] m)) in
  let fact := if N - 1 <=? 0 then zero else of_Z (N - 1) in
  let X := map (fun row => let avg := np_mean row in
                           map (fun x => sub x avg) row) m in
  map (fun xi => map (fun xj => mul (np_dot xi xj) (div one fact)) X) X.

(** The order in which NumPy sorts: NaN after every number. *)
Definition sort_le (a b : A) : bool := is_nan b || leb a b.

Fixpoint insert_sorted (x : A) (l : list A) : list A :=
  match l with
  | [] => [x]
  | y :: l' => if sort_le x y then x :: l else y :: insert_sorted x l'
  end.

(** [np.sort(v)]. *)
Definition np_sort (v : list A) : list A := foldr insert_sorted [] v.

(** [np.minimum(a, b)] and [np.maximum(a, b)]: a NaN wins. *)
Definition np_minimum (a b : A) : A :=
  if is_nan a then a else if is_nan b then b else if leb a b then a else b.
Definition np_maximum (a b : A) : A :=
  if is_nan a then a else if is_nan b then b else if leb a b then b else a.

(** [np.min(v)] and [np.max(v)]. *)
Definition np_min (v : list A) : result A :=
  match v with
  | [] => Raise (ValueError "zero-size array to reduction operation minimum which has no identity")
  | x :: v' => Ok (foldl np_minimum x v')
  end.
Definition np_max (v : list A) : result A :=
  match v with
  | [] => Raise (ValueError "zero-size array to reduction operation maximum which has no identity")
  | x :: v' => Ok (foldl np_maximum x v')
  end.

(** [np.median(v)]: the mean of the middle one or two order statistics; NaN
    when the data holds one. *)
Definition np_median (v : list A) : A :=
  let part := np_sort v in
  let n := length v in
  let index := (n / 2)%nat in
  let middle := if (n mod 2 =? 1)%nat
                then take 1 (drop index part)
                else take 2 (drop (index - 1) part) in
  match last part with
  | Some x => if is_nan x then x else np_mean middle
  | None => np_mean middle
  end.

(** [np.std(v)]: the population standard deviation. *)
Definition np_std (v : list A) : A :=
  let arrmean := np_mean v in
  sqrt (np_mean (map (fun x => let d := sub x arrmean in mul d d) v)).

(** NumPy's [_lerp(a, b, t)]. *)
Definition lerp (a b t : A) : A :=
  let diff_b_a := sub b a in
  if leb (div one (of_Z 2)) t
  then sub b (mul diff_b_a (sub one t))
  else add a (mul diff_b_a t).

(** Modelled from the spec: [np.percentile(v, q)] is NumPy's, not the
    repository's; this is its default method, the linear interpolation
    between order statistics that section 4.4 names. The virtual index is
    [(n - 1) * (q / 100)]; the result interpolates between the order
    statistics on either side of it. *)
Definition np_percentile (v : list A) (q : Z) : result A :=
  let quantile := div (of_Z q) (of_Z 100) in
  if negb (leb zero quantile && leb quantile one)
  then Raise (ValueError "Percentiles must be in the range [0, 100]")
  else
    let arr := np_sort v in
    let n := Z.of_nat (length v) in
    let virtual_index := mul (of_Z (n - 1)) quantile in
    let above := leb (of_Z (n - 1)) virtual_index in
    let below := ltb virtual_index zero in
    let previous_index :=
      if above then -1 else if below then 0 else floor virtual_index in
    let next_index :=
      if above then -1 else if below then 0 else floor virtual_index + 1 in
    previous ← getitem_py arr previous_index;
    next ← getitem_py arr next_index;
    let gamma := sub virtual_index (of_Z previous_index) in
    last_value ← getitem_py arr (-1);
    if is_nan last_value then Ok last_value
    else Ok (lerp previous next gamma).
End Numpy.

(** ** The draw source

    [simulate.py] draws from NumPy's process-wide generator:
    [np.random.normal(loc, scale, size)] returns [size] draws and advances the
    generator. The generator is a state [G] passed explicitly. (NumPy refuses
    a [scale] whose sign bit is set; a square root has it set at -0.0 only,
    which the sums here never produce.) *)

Class DrawSource (G A : Type) := {
  normal : A -> A -> nat -> G -> list A * G;
  normal_length : forall loc scale size g,
    length (fst (normal loc scale size g)) = size
}.

(** A scripted source: the draws are read off a fixed sequence, whatever
    [loc] and [scale] are; the state is the position in the sequence. *)
Record scripted (A : Type) : Type := { script : nat -> A; position : nat }.
Arguments script {A} _.
Arguments position {A} _.

#[export] Instance scripted_source {A : Type} : DrawSource (scripted A) A := {
  normal := fun _ _ size g =>
    (map (script g) (seq (position g) size),
     {| script := script g; position := (position g + size)%nat |});
  normal_length := fun _ _ size g =>
    eq_trans (length_map (script g) (seq (position g) size))
             (length_seq size (position g))
}.

(** A source that transforms as NumPy does: draw [k] is [loc + scale * z k],
    for a fixed sequence [z] of standard-normal draws. *)
Record gaussian (A : Type) : Type := { standard_normal : nat -> A; consumed : nat }.
Arguments standard_normal {A} _.
Arguments consumed {A} _.

#[export] Instance gaussian_source {A : Type} `{Num A} : DrawSource (gaussian A) A := {
  normal := fun loc scale size g =>
    (map (fun k => add loc (mul scale (standard_normal g k))) (seq (consumed g) size),
     {| standard_normal := standard_normal g; consumed := (consumed g + size)%nat |});
  normal_length := fun loc scale size g =>
    eq_trans (length_map (fun k => add loc (mul scale (standard_normal g k)))
                (seq (consumed g) size))
             (length_seq size (consumed g))
}.

(** ** [simulate.py]: [run_monte_carlo_simulation] *)

Module Simulate.
Section Simulator.
Context {A : Type} `{Num A} {G : Type} `{DrawSource G A}.

(** The body of the inner loop:
    [simulation_results[i, t] = simulation_results[i, t - 1] * (1 + random_returns[t - 1])]. *)
Definition compound_step (i : nat) (random_returns : list A)
    (simulation_results : list (list A)) (t : nat) : result (list (list A)) :=
  row ← getitem simulation_results i;
  prev ← getitem row (t - 1);
  r ← getitem random_returns (t - 1);
  setitem2 simulation_results i t (mul prev (add one r)).

(** The outer loop, over the path indices [paths]; each path draws its own
    returns from the generator, which it leaves advanced. *)
Fixpoint simulate_paths (loc scale : A) (num_periods : nat)
    (paths : list nat) (simulation_results : list (list A)) (g : G)
  : result (list (list A)) * G :=
  match paths with
  | [] => (Ok simulation_results, g)
  | i :: paths' =>
      let '(random_returns, g') := normal loc scale num_periods g in
      match for_range (compound_step i random_returns) simulation_results
              (seq 1 num_periods) with
      | Ok simulation_results' =>
          simulate_paths loc scale num_periods paths' simulation_results' g'
      | Raise e => (Raise e, g')
      end
  end.

(** [portfolio_mean = np.sum(mean_returns * weights)]. *)
Definition portfolio_mean (weights mean_returns : list A) : A :=
  np_sum (np_multiply mean_returns weights).

(** [portfolio_volatility = np.sqrt(np.dot(weights.T, np.dot(cov_matrix, weights)))]. *)
Definition portfolio_volatility (weights : list A) (cov_matrix : list (list A)) : A :=
  sqrt (np_dot weights (np_matvec cov_matrix weights)).

Definition run_monte_carlo_simulation
    (weights mean_returns : list A) (cov_matrix : list (list A))
    (initial_investment : A) (num_periods num_simulations : Z) (g : G)
  : result (list (list A)) * G :=
  let pm := portfolio_mean weights mean_returns in
  let pv := portfolio_volatility weights cov_matrix in
  match (zeros ← np_zeros num_simulations (num_periods + 1);
         set_column zeros (Z.to_nat (num_periods + 1)) 0 initial_investment) with
  | Raise e => (Raise e, g)
  | Ok simulation_results =>
      simulate_paths pm pv (Z.to_nat num_periods)
        (seq 0 (Z.to_nat num_simulations)) simulation_results g
  end.

(** The draws of [k] successive paths, and the generator after them. *)
Fixpoint draw_batches (loc scale : A) (size : nat) (k : nat) (g : G)
  : list (list A) * G :=
  match k with
  | O => ([], g)
  | S k' =>
      let '(random_returns, g') := normal loc scale size g in
      let '(rest, g'') := draw_batches loc scale size k' g' in
      (random_returns :: rest, g'')
  end.
End Simulator.

Section Handler.
Context {A : Type} `{Num A} {G : Type} `{DrawSource G A}.

Definition validate_request (body : list (string * pyval A)) : list string :=
  let errors := check_required body in
  let initial_investment := dict_get body "initialInvestment" in
  let errors :=
    if negb (is_none initial_investment)
       && (negb (isinstance_int_float initial_investment) || le_zero initial_investment)
    then errors ++ ["Initial investment must be a positive number"]%string
    else errors in
  let num_simulations := dict_get body "numSimulations" in
  let errors :=
    if negb (is_none num_simulations)
       && (negb (isinstance_int num_simulations) || le_zero num_simulations)
    then errors ++ ["Number of simulations must be a positive integer"]%string
    else errors in
  let num_periods := dict_get body "numPeriods" in
  let errors :=
    if negb (is_none num_periods)
       && (negb (isinstance_int num_periods) || le_zero num_periods)
    then errors ++ ["Number of periods must be a positive integer"]%string
    else errors in
  errors.

(** A stored portfolio: [portfolio.get("assets", {})], ticker to weight, in
    the order [assets.keys()] lists them. *)
Record portfolio : Type := { assets : list (string * A) }.

Record simulation_parameters : Type := {
  initialInvestment : pyval A;
  numSimulations : pyval A;
  numPeriods : pyval A
}.

Record statistics_summary : Type := {
  meanFinalValue : A;
  medianFinalValue : A;
  minFinalValue : A;
  maxFinalValue : A;
  standardDeviation : A;
  percentiles : list (string * A)
}.

(** The item the handler stores and returns; the keys of ["result"]
    ([trajectories], [statistics]) stand beside the others. *)
Record simulation_result : Type := {
  id : string;
  portfolioId : pyval A;
  parameters : simulation_parameters;
  trajectories : list (list A);
  statistics : statistics_summary;
  createdAt : string
}.

(** The collaborators of the handler: the portfolio table, the result table,
    [str()] of a request value, [uuid.uuid4()] and the clock. *)
Variable PORTFOLIO_TABLE SIMULATION_RESULT_TABLE : string.
Variable query_by_id : string -> pyval A -> result (option portfolio).
Variable put_item : string -> simulation_result -> result unit.
Variable str : pyval A -> string.
Variable uuid4 utcnow : string.

(** The statistics block of the handler, over the final column. *)
Definition summarize (final_values : list A) : result statistics_summary :=
  let mean_final_value := np_mean final_values in
  let median_final_value := np_median final_values in
  min_final_value ← np_min final_values;
  max_final_value ← np_max final_values;
  let std_dev := np_std final_values in
  p5 ← np_percentile final_values 5;
  p25 ← np_percentile final_values 25;
  p50 ← np_percentile final_values 50;
  p75 ← np_percentile final_values 75;
  p95 ← np_percentile final_values 95;
  Ok {| meanFinalValue := mean_final_value;
        medianFinalValue := median_final_value;
        minFinalValue := min_final_value;
        maxFinalValue := max_final_value;
        standardDeviation := std_dev;
        percentiles := [("5", p5); ("25", p25); ("50", p50); ("75", p75); ("95", p95)]%string |}.

(** What the [except Exception] clause of the handler answers. *)
Definition internal_server_error (e : exn) : response.t simulation_result :=
  response.error 500 "INTERNAL_SERVER_ERROR"
    ("Error running Monte Carlo simulation: " ++ str_exn e)%string [].

(** [lambda_handler], from the parsed request body on; the body is a
    dictionary. The generator is threaded through: a warm process keeps it
    from one request to the next. *)
Definition lambda_handler (body : list (string * pyval A)) (g : G)
  : response.t simulation_result * G :=
  match validate_request body with
  | (_ :: _) as validation_errors =>
      (response.validation_error "Invalid simulation request" validation_errors, g)
  | [] =>
      let portfolio_id := dict_get body "portfolioId" in
      match query_by_id PORTFOLIO_TABLE portfolio_id with
      | Raise e => (internal_server_error e, g)
      | Ok None => (response.not_found "Portfolio" (str portfolio_id), g)
      | Ok (Some portfolio) =>
          let initial_investment :=
            dict_get_default body "initialInvestment" (PInt 10000) in
          let num_simulations := dict_get_default body "numSimulations" (PInt 1000) in
          let num_periods := dict_get_default body "numPeriods" (PInt 252) in
          let returns_data := items (dict_get_default body "returns" (PDict [])) in
          let asset_list := map fst (assets portfolio) in
          let missing_returns :=
            filter (fun asset => negb (dict_contains returns_data asset)) asset_list in
          match missing_returns with
          | _ :: _ =>
              (response.validation_error "Missing returns data"
                 ["Returns data missing for assets: "
                  ++ String.concat ", " missing_returns]%string, g)
          | [] =>
              match
                (rows ← mapM (fun asset => as_floats (dict_get returns_data asset))
                             asset_list;
                 returns_matrix ← np_array rows;
                 mean_returns ← np_mean_axis1 returns_matrix;
                 let cov_matrix := np_cov returns_matrix in
                 let weights := map snd (assets portfolio) in
                 periods ← as_int num_periods;
                 simulations ← as_int num_simulations;
                 investment ← as_float initial_investment;
                 Ok (weights, mean_returns, cov_matrix, investment, periods, simulations))
              with
              | Raise e => (internal_server_error e, g)
              | Ok (weights, mean_returns, cov_matrix, investment, periods, simulations) =>
                  let '(simulated, g') :=
                    run_monte_carlo_simulation weights mean_returns cov_matrix
                      investment periods simulations g in
                  match
                    (simulation_results ← simulated;
                     final_values ← mapM (fun row => getitem_py row (-1))
                                         simulation_results;
                     summary ← summarize final_values;
                     let simulation_result :=
                       {| id := uuid4;
                          portfolioId := portfolio_id;
                          parameters := {| initialInvestment := initial_investment;
                                       numSimulations := num_simulations;
                                       numPeriods := num_periods |};
                          trajectories := simulation_results;
                          statistics := summary;
                          createdAt := utcnow |} in
                     _ ← put_item SIMULATION_RESULT_TABLE simulation_result;
                     Ok simulation_result)
                  with
                  | Raise e => (internal_server_error e, g')
                  | Ok simulation_result => (response.success simulation_result, g')
                  end
              end
          end
      end
  end.
End Handler.

Arguments portfolio : clear implicits.
Arguments simulation_parameters : clear implicits.
Arguments statistics_summary : clear implicits.
Arguments simulation_result : clear implicits.
End Simulate.

(** ** [risk_parity.py] *)

Module RiskParity.
Section Optimizer.
Context {A : Type} `{Num A}.

Definition validate_request (body : list (string * pyval A)) : list string :=
  check_required body.

Definition risk_parity_objective (weights : list A) (cov_matrix : list (list A)) : A :=
  let portfolio_variance := np_dot weights (np_matvec cov_matrix weights) in
  let portfolio_volatility := sqrt portfolio_variance in
  let marginal_contribution := np_matvec cov_matrix weights in
  let risk_contribution :=
    map (fun c => div c portfolio_volatility)
        (np_multiply marginal_contribution weights) in
  let risk_target := div portfolio_volatility (of_Z (Z.of_nat (length weights))) in
  let sum_sq_diff :=
    np_sum (map (fun rc => let d := sub rc risk_target in mul d d) risk_contribution) in
  sum_sq_diff.

(** What [scipy.optimize.minimize] returns: [result.success],
    [result.message] and [result.x]. *)
Record optimize_result : Type := {
  success : bool;
  message : string;
  x : list A
}.

Record portfolio : Type := { assets : list (string * A) }.

Record risk_metrics : Type := {
  portfolioVolatility : A;
  riskContribution : list (string * A)
}.

(** The item the handler stores and returns; the keys of ["parameters"]
    ([method], [maxIterations]) and of ["result"] ([weights], [metrics]) stand
    beside the others. *)
Record optimization_result : Type := {
  id : string;
  portfolioId : pyval A;
  type : string;
  method : string;
  maxIterations : Z;
  weights : list (string * A);
  metrics : risk_metrics;
  createdAt : string
}.

(** The post-processing of the handler, lines 110 to 117:
    [optimized_weights / np.sum(optimized_weights)], then the reported
    quantities from the normalized weights. *)
Definition normalize (optimized_weights : list A) : list A :=
  let total := np_sum optimized_weights in
  map (fun w => div w total) optimized_weights.

Definition portfolio_variance (cov_matrix : list (list A)) (optimized_weights : list A) : A :=
  np_dot optimized_weights (np_matvec cov_matrix optimized_weights).

Definition portfolio_volatility (cov_matrix : list (list A)) (optimized_weights : list A) : A :=
  sqrt (portfolio_variance cov_matrix optimized_weights).

Definition marginal_contribution (cov_matrix : list (list A)) (optimized_weights : list A)
  : list A :=
  np_matvec cov_matrix optimized_weights.

Definition risk_contribution (cov_matrix : list (list A)) (optimized_weights : list A)
  : list A :=
  map (fun c => div c (portfolio_volatility cov_matrix optimized_weights))
      (np_multiply (marginal_contribution cov_matrix optimized_weights) optimized_weights).

(** The collaborators of the handler: the tables, the solver, [str()],
    [uuid.uuid4()] and the clock. [minimize fun x0 bounds constraint maxiter]
    is [scipy.optimize.minimize] with [method="SLSQP"]. *)
Variable PORTFOLIO_TABLE OPTIMIZATION_RESULT_TABLE : string.
Variable query_by_id : string -> pyval A -> result (option portfolio).
Variable put_item : string -> optimization_result -> result unit.
Variable minimize :
  (list A -> A) -> list A -> list (A * A) -> (list A -> A) -> Z -> result optimize_result.
Variable str : pyval A -> string.
Variable uuid4 utcnow : string.

Definition internal_server_error (e : exn) : response.t optimization_result :=
  response.error 500 "INTERNAL_SERVER_ERROR"
    ("Error running risk parity optimization: " ++ str_exn e)%string [].

(** [lambda_handler], from the parsed request body on; the body is a
    dictionary. *)
Definition lambda_handler (body : list (string * pyval A))
  : response.t optimization_result :=
  match validate_request body with
  | (_ :: _) as validation_errors =>
      response.validation_error "Invalid optimization request" validation_errors
  | [] =>
      let portfolio_id := dict_get body "portfolioId" in
      match query_by_id PORTFOLIO_TABLE portfolio_id with
      | Raise e => internal_server_error e
      | Ok None => response.not_found "Portfolio" (str portfolio_id)
      | Ok (Some portfolio) =>
          let returns := items (dict_get_default body "returns" (PDict [])) in
          let asset_list := map fst (assets portfolio) in
          let missing_returns :=
            filter (fun asset => negb (dict_contains returns asset)) asset_list in
          match missing_returns with
          | _ :: _ =>
              response.validation_error "Missing returns data"
                ["Returns data missing for assets: "
                 ++ String.concat ", " missing_returns]%string
          | [] =>
              match
                (rows ← mapM (fun asset => as_floats (dict_get returns asset)) asset_list;
                 returns_matrix ← np_array rows;
                 let cov_matrix := np_cov returns_matrix in
                 let n := length asset_list in
                 initial_weight ←
                   (if (n =? 0)%nat then Raise (ZeroDivisionError "float division by zero")
                    else Ok (div one (of_Z (Z.of_nat n))));
                 let initial_weights := replicate n initial_weight in
                 let bounds := replicate n (zero, one) in
                 let constraint := fun x => sub (np_sum x) one in
                 result ← minimize (fun w => risk_parity_objective w cov_matrix)
                            initial_weights bounds constraint 1000;
                 Ok (cov_matrix, result))
              with
              | Raise e => internal_server_error e
              | Ok (cov_matrix, result) =>
                  if negb (success result)
                  then response.error 500 "OPTIMIZATION_ERROR"
                         ("Optimization failed: " ++ message result)%string []
                  else
                    let optimized_weights := normalize (x result) in
                    let optimization_result :=
                      {| id := uuid4;
                         portfolioId := portfolio_id;
                         type := "risk-parity";
                         method := "SLSQP";
                         maxIterations := 1000;
                         weights := zip asset_list optimized_weights;
                         metrics :=
                           {| portfolioVolatility :=
                                portfolio_volatility cov_matrix optimized_weights;
                              riskContribution :=
                                zip asset_list
                                    (risk_contribution cov_matrix optimized_weights) |};
                         createdAt := utcnow |} in
                    match put_item OPTIMIZATION_RESULT_TABLE optimization_result with
                    | Raise e => internal_server_error e
                    | Ok _ => response.success optimization_result
                    end
              end
          end
      end
  end.
End Optimizer.

Arguments optimize_result : clear implicits.
Arguments portfolio : clear implicits.
Arguments risk_metrics : clear implicits.
Arguments optimization_result : clear implicits.
End RiskParity.

(** ** Specification-level functions *)

Section Compounding.
Context {A : Type} `{Num A}.

(** The trajectory the recurrence of section 4.2 defines:
    [value[0] = v], [value[t] = value[t-1] * (1 + draw[t])]. *)
Fixpoint compound (v : A) (draws : list A) : list A :=
  v :: match draws with
       | [] => []
       | d :: ds => compound (mul v (add one d)) ds
       end.

(** Row [i] of the matrix after the inner loop has run for [t = 1 .. k]: the
    compounded values so far, then the zeros [np.zeros] left. *)
Definition partial_row (v : A) (draws : list A) (k : nat) : list A :=
  compound v (take k draws) ++ replicate (length draws - k) zero.
End Compounding.

Section OrderStatistics.
Local Open Scope R_scope.

(** [s] is in ascending order, in terms of its positions. *)
Definition ascending (s : list R) : Prop :=
  forall (i j : nat) (a b : R),
    (i <= j)%nat -> s !! i = Some a -> s !! j = Some b -> a <= b.

(** The virtual index of quantile [q / 100] among [n] values. *)
Definition virtual_index (n : nat) (q : Z) : R :=
  IZR (Z.of_nat n - 1) * (IZR q / IZR 100).
End OrderStatistics.

(** ** Concrete inputs *)

#[local] Set Warnings "-inexact-float".

Module Scenario.
Import Simulate.
Local Open Scope float_scope.

(** The simulator scenario of section 8: two assets, two periods, one path,
    and the per-step portfolio draws 0.01 and -0.005 injected. *)
Definition weights : list float := [0.5; 0.5].
Definition mean_returns : list float := [0.001; 0.002].
Definition cov_matrix : list (list float) := [[0.0004; 0]; [0; 0.0004]].
Definition draws : scripted float :=
  {| script := fun k => nth k [0.01; -0.005] 0; position := 0 |}.

(** The same draws, read from another position of another sequence. *)
Definition shifted_draws : scripted float :=
  {| script := fun k => nth k [0.25; 0.01; -0.005] 0; position := 1 |}.

(** Collaborators for the handlers: a table that holds one portfolio of two
    assets, a result table that accepts every item, fixed identifier and
    clock. *)
Definition portfolio_AB : Simulate.portfolio float :=
  {| Simulate.assets := [("A"%string, 0.5); ("B"%string, 0.5)] |}.

Definition str_of (v : pyval float) : string :=
  match v with PStr s => s | _ => ""%string end.

Definition simulate_handler {G : Type} `{DrawSource G float}
    (body : list (string * pyval float)) (g : G)
  : response.t (Simulate.simulation_result float) * G :=
  Simulate.lambda_handler "portfolios" "simulation-results"
    (fun _ _ => Ok (Some portfolio_AB)) (fun _ _ => Ok tt) str_of
    "result-1" "2024-01-01T00:00:00" body g.

Definition portfolio_AB' : RiskParity.portfolio float :=
  {| RiskParity.assets := [("A"%string, 0.5); ("B"%string, 0.5)] |}.

(** A solver that reports success at its starting point. *)
Definition minimize_at_start (objective : list float -> float) (x0 : list float)
    (bounds : list (float * float)) (constraint : list float -> float) (maxiter : Z)
  : result (RiskParity.optimize_result float) :=
  Ok {| RiskParity.success := true;
        RiskParity.message := "Optimization terminated successfully";
        RiskParity.x := x0 |}.

Definition optimize_handler (body : list (string * pyval float))
  : response.t (RiskParity.optimization_result float) :=
  RiskParity.lambda_handler "portfolios" "optimization-results"
    (fun _ _ => Ok (Some portfolio_AB')) (fun _ _ => Ok tt) minimize_at_start str_of
    "result-1" "2024-01-01T00:00:00" body.

(** A covariance matrix that is not one: a negative variance. *)
Definition negative_variance : list (list float) := [[-1]].

(** The covariance of two constant series. *)
Definition zero_covariance : list (list float) := [[0; 0]; [0; 0]].

(** Standard-normal draws for [gaussian_source]. *)
Definition standard_draws : gaussian float :=
  {| standard_normal := fun k => nth k [0.5; -0.3] 0; consumed := 0 |}.

(** A request whose two series differ in length. *)
Definition ragged_body : list (string * pyval float) :=
  [ ("portfolioId"%string, PStr "p1");
    ("returns"%string,
     PDict [ ("A"%string, PList [PFloat 0.01; PFloat 0.02]);
             ("B"%string, PList [PFloat 0.01]) ]) ].

(** A well-formed request: two series of two finite returns each. *)
Definition sound_body : list (string * pyval float) :=
  [ ("portfolioId"%string, PStr "p1");
    ("returns"%string,
     PDict [ ("A"%string, PList [PFloat 0.01; PFloat 0.03]);
             ("B"%string, PList [PFloat 0.02; PFloat (-0.01)]) ]);
    ("initialInvestment"%string, PInt 10000);
    ("numSimulations"%string, PInt 1);
    ("numPeriods"%string, PInt 2) ].

(** A request whose initial investment is the float [Infinity], which
    [json.loads] reads. *)
Definition infinite_body : list (string * pyval float) :=
  [ ("portfolioId"%string, PStr "p1");
    ("returns"%string,
     PDict [ ("A"%string, PList [PFloat 0.01; PFloat 0.03]);
             ("B"%string, PList [PFloat 0.02; PFloat (-0.01)]) ]);
    ("initialInvestment"%string, PFloat infinity);
    ("numSimulations"%string, PInt 1);
    ("numPeriods"%string, PInt 2) ].

(** A request with a series that holds a string. *)
Definition non_numeric_body : list (string * pyval float) :=
  [ ("portfolioId"%string, PStr "p1");
    ("returns"%string,
     PDict [ ("A"%string, PList [PFloat 0.01; PStr "n/a"]);
             ("B"%string, PList [PFloat 0.01; PFloat 0.02]) ]) ].

(** A request whose initial investment is the float [NaN], which
    [json.loads] reads. *)
Definition nan_body : list (string * pyval float) :=
  [ ("portfolioId"%string, PStr "p1");
    ("returns"%string,
     PDict [ ("A"%string, PList [PFloat 0.01; PFloat 0.03]);
             ("B"%string, PList [PFloat 0.02; PFloat (-0.01)]) ]);
    ("initialInvestment"%string, PFloat nan);
    ("numSimulations"%string, PInt 1);
    ("numPeriods"%string, PInt 2) ].

(** A request with booleans where numbers are expected. *)
Definition boolean_body : list (string * pyval float) :=
  [ ("portfolioId"%string, PStr "p1");
    ("returns"%string,
     PDict [ ("A"%string, PList [PBool true; PBool false]);
             ("B"%string, PList [PBool false; PFloat 0.5]) ]);
    ("numSimulations"%string, PBool true);
    ("numPeriods"%string, PBool true) ].

(** A request with booleans in the series only. *)
Definition boolean_series_body : list (string * pyval float) :=
  [ ("portfolioId"%string, PStr "p1");
    ("returns"%string,
     PDict [ ("A"%string, PList [PBool true; PBool false]);
             ("B"%string, PList [PBool false; PFloat 0.5]) ]);
    ("numSimulations"%string, PInt 1);
    ("numPeriods"%string, PInt 1) ].

(** A request in which [numPeriods] alone is a boolean. *)
Definition boolean_periods_body : list (string * pyval float) :=
  [ ("portfolioId"%string, PStr "p1");
    ("returns"%string,
     PDict [ ("A"%string, PList [PFloat 0.01; PFloat 0.03]);
             ("B"%string, PList [PFloat 0.02; PFloat (-0.01)]) ]);
    ("numSimulations"%string, PInt 1);
    ("numPeriods"%string, PBool true) ].
End Scenario.

(** The optimizer over the reals: a portfolio of two assets, integer
    returns, and a solver that reports success at its starting point. *)
Module RealScenario.
Local Open Scope R_scope.

Definition portfolio_AB : RiskParity.portfolio R :=
  {| RiskParity.assets := [("A"%string, 1 / 2); ("B"%string, 1 / 2)] |}.

Definition minimize_at_start (objective : list R -> R) (x0 : list R)
    (bounds : list (R * R)) (constraint : list R -> R) (maxiter : Z)
  : result (RiskParity.optimize_result R) :=
  Ok {| RiskParity.success := true;
        RiskParity.message := "Optimization terminated successfully";
        RiskParity.x := x0 |}.

Definition optimize_handler (body : list (string * pyval R))
  : response.t (RiskParity.optimization_result R) :=
  RiskParity.lambda_handler "portfolios" "optimization-results"
    (fun _ _ => Ok (Some portfolio_AB)) (fun _ _ => Ok tt) minimize_at_start
    (fun _ => "p1"%string) "result-1" "2024-01-01T00:00:00" body.

Definition body : list (string * pyval R) :=
  [ ("portfolioId"%string, PStr "p1");
    ("returns"%string,
     PDict [ ("A"%string, PList [PInt 1; PInt 3]);
             ("B"%string, PList [PInt 3; PInt 2]) ]) ].
End RealScenario.

(** ** Growth factors *)

Section Growth.
Context {A : Type} `{Num A}.

(** The factor by which a path has grown after the draws [draws]: the
    product of [1 + d] over them. *)
Definition growth (draws : list A) : A :=
  foldr (fun d acc => mul (add one d) acc) one draws.
End Growth.

(** Draws over the reals, for the simulator read in exact arithmetic. *)
Module RealDraws.
Local Open Scope R_scope.

Definition weights : list R := [1 / 2; 1 / 2].
Definition mean_returns : list R := [1 / 1000; 2 / 1000].
Definition cov_matrix : list (list R) := [[4 / 10000; 0]; [0; 4 / 10000]].
Definition draws : scripted R :=
  {| script := fun k => nth k [1 / 100; - (1 / 200)] 0; position := 0 |}.

Definition portfolio_AB : Simulate.portfolio R :=
  {| Simulate.assets := [("A"%string, 1 / 2); ("B"%string, 1 / 2)] |}.

Definition body : list (string * pyval R) :=
  [ ("portfolioId"%string, PStr "p1");
    ("returns"%string,
     PDict [ ("A"%string, PList [PInt 1; PInt 3]);
             ("B"%string, PList [PInt 3; PInt 2]) ]);
    ("initialInvestment"%string, PInt 10000);
    ("numSimulations"%string, PInt 2);
    ("numPeriods"%string, PInt 1) ].

Definition simulate_handler (body : list (string * pyval R)) (g : scripted R)
  : response.t (Simulate.simulation_result R) * scripted R :=
  Simulate.lambda_handler "portfolios" "simulation-results"
    (fun _ _ => Ok (Some portfolio_AB)) (fun _ _ => Ok tt)
    (fun _ => "p1"%string) "result-1" "2024-01-01T00:00:00" body g.
End RealDraws.

(** ** What validation accepts *)

Section AcceptedParameters.
Context {A : Type} `{Num A}.

(** A simulation parameter passes when it is absent (or [None]), or of the
    type asked for and not [<= 0]. *)
Definition parameter_accepted (of_type : pyval A -> bool) (v : pyval A) : Prop :=
  v = PNone \/ (of_type v = true /\ le_zero v = false).

(** [portfolioId] is truthy, and [returns] is a non-empty dictionary of
    lists of numbers. *)
Definition required_fields_accepted (body : list (string * pyval A)) : Prop :=
  truthy (dict_get body "portfolioId") = true
  /\ exists d, dict_get body "returns" = PDict d /\ d <> []
               /\ forallb series_well_typed d = true.
End AcceptedParameters.

(** The pairs of status code and error code the simulation handler and the
    optimization handler answer with; no error code stands for a success. *)
Definition simulation_outcomes : list (Z * option string) :=
  [ (200, None);
    (400, Some "VALIDATION_ERROR"%string);
    (404, Some "NOT_FOUND"%string);
    (500, Some "INTERNAL_SERVER_ERROR"%string) ].

Definition optimization_outcomes : list (Z * option string) :=
  simulation_outcomes ++ [ (500, Some "OPTIMIZATION_ERROR"%string) ].

(** ** Diagonal covariance matrices *)

Section Diagonal.
Context {A : Type} `{Num A}.

(** The covariance matrix of uncorrelated assets with the variances
    [variances]: these on the diagonal, zero elsewhere. *)
Definition diagonal (variances : list A) : list (list A) :=
  imap (fun i v => <[i := v]> (replicate (length variances) zero)) variances.
End Diagonal.

(** * Properties *)

(** ** Loops and indexing *)

Lemma for_range_app {S T : Type} (body : S -> T -> result S) (acc : S) (l1 l2 : list T) :
  for_range body acc (l1 ++ l2) =
  match for_range body acc l1 with
  | Ok acc' => for_range body acc' l2
  | Raise e => Raise e
  end.
Proof.
  revert acc. induction l1 as [|t l1 IH]; intros acc; simpl; [reflexivity|].
  destruct (body acc t); [apply IH | reflexivity].
Qed.

Lemma map_replicate {X Y : Type} (f : X -> Y) (n : nat) (x : X) :
  map f (replicate n x) = replicate n (f x).
Proof. induction n as [|n IH]; simpl; [reflexivity | rewrite IH; reflexivity]. Qed.

Lemma lookup_map {X Y : Type} (f : X -> Y) (l : list X) (i : nat) :
  map f l !! i = f <$> (l !! i).
Proof. exact (list_lookup_fmap f l i). Qed.

Lemma getitem_Some {X : Type} (l : list X) (i : nat) (x : X) :
  l !! i = Some x -> getitem l i = Ok x.
Proof. unfold getitem. intros ->. reflexivity. Qed.

Lemma getitem_py_nonneg {X : Type} (l : list X) (i : Z) (x : X) :
  0 <= i -> l !! Z.to_nat i = Some x -> getitem_py l i = Ok x.
Proof.
  intros Hi Hx. unfold getitem_py.
  destruct (Z.ltb_spec i 0); [lia|].
  destruct (Z.ltb_spec i 0); [lia|].
  apply getitem_Some, Hx.
Qed.

Lemma getitem_py_last {X : Type} (l : list X) (x : X) :
  l !! (length l - 1)%nat = Some x -> getitem_py l (-1) = Ok x.
Proof.
  intros Hx. unfold getitem_py.
  assert (0 < length l)%nat by (apply lookup_lt_Some in Hx; lia).
  change (-1 <? 0) with true. cbv iota.
  destruct (Z.ltb_spec (-1 + Z.of_nat (length l)) 0); [lia|].
  replace (Z.to_nat (-1 + Z.of_nat (length l))) with (length l - 1)%nat by lia.
  apply getitem_Some, Hx.
Qed.

Section CompoundFacts.
Context {A : Type} `{Num A}.

Lemma compound_length (v : A) (draws : list A) :
  length (compound v draws) = S (length draws).
Proof.
  revert v. induction draws as [|d ds IH]; intros v; simpl; [reflexivity|].
  rewrite IH. reflexivity.
Qed.

Lemma compound_lookup_0 (v : A) (draws : list A) : compound v draws !! 0%nat = Some v.
Proof. destruct draws; reflexivity. Qed.

Lemma compound_lookup_S (v : A) (draws : list A) (t : nat) (d : A) :
  draws !! t = Some d ->
  exists prev, compound v draws !! t = Some prev /\
               compound v draws !! S t = Some (mul prev (add one d)).
Proof.
  revert v t. induction draws as [|d0 ds IH]; intros v t Hd; [discriminate|].
  destruct t as [|t]; simpl in Hd.
  - injection Hd as ->. exists v. split; [reflexivity|].
    simpl. apply compound_lookup_0.
  - destruct (IH (mul v (add one d0)) t Hd) as (prev & Hp & Hn).
    exists prev. split; assumption.
Qed.

Lemma compound_snoc (v : A) (draws : list A) (d prev : A) :
  compound v draws !! length draws = Some prev ->
  compound v (draws ++ [d]) = compound v draws ++ [mul prev (add one d)].
Proof.
  revert v. induction draws as [|d0 ds IH]; intros v Hp; simpl in *.
  - injection Hp as ->. reflexivity.
  - f_equal. apply IH. exact Hp.
Qed.

Lemma compound_last (v : A) (draws : list A) :
  exists prev, compound v draws !! length draws = Some prev.
Proof.
  apply lookup_lt_is_Some. rewrite compound_length. lia.
Qed.
End CompoundFacts.

(** ** The simulation loops *)

Section SimulatorFacts.
Context {A : Type} `{Num A} {G : Type} `{DrawSource G A}.
Import Simulate.

Lemma partial_row_length (v : A) (draws : list A) (k : nat) :
  (k <= length draws)%nat -> length (partial_row v draws k) = S (length draws).
Proof.
  intros Hk. unfold partial_row.
  rewrite length_app, compound_length, length_take, length_replicate. lia.
Qed.

Lemma inner_loop (i : nat) (v : A) (draws : list A) (sim : list (list A)) (k : nat) :
  (k <= length draws)%nat ->
  sim !! i = Some (partial_row v draws 0) ->
  for_range (compound_step i draws) sim (seq 1 k)
  = Ok (<[i := partial_row v draws k]> sim).
Proof.
  intros Hk Hrow. induction k as [|k IH].
  - simpl. rewrite list_insert_id by exact Hrow. reflexivity.
  - rewrite seq_S, for_range_app, IH by lia. simpl.
    assert (Hi : (i < length sim)%nat) by (eapply lookup_lt_Some; exact Hrow).
    assert (Hlen : length (take k draws) = k) by (rewrite length_take; lia).
    destruct (compound_last v (take k draws)) as (prev & Hprev).
    rewrite Hlen in Hprev.
    destruct (lookup_lt_is_Some_2 draws k ltac:(lia)) as (d & Hd).
    unfold compound_step.
    rewrite (getitem_Some _ i (partial_row v draws k))
      by (apply list_lookup_insert_eq; exact Hi).
    simpl.
    replace (k - 0)%nat with k by lia.
    rewrite (getitem_Some (partial_row v draws k) k prev).
    2:{ unfold partial_row. rewrite lookup_app_l; [exact Hprev|].
        rewrite compound_length. lia. }
    simpl. rewrite (getitem_Some draws k d) by exact Hd. simpl.
    unfold setitem2. rewrite list_lookup_insert_eq by exact Hi.
    rewrite partial_row_length by lia.
    destruct (Nat.ltb_spec (S k) (S (length draws))) as [_|]; [|lia].
    rewrite list_insert_insert_eq. do 2 f_equal.
    unfold partial_row.
    rewrite (take_S_r draws k d Hd).
    rewrite (compound_snoc v (take k draws) d prev) by (rewrite Hlen; exact Hprev).
    replace (length draws - k)%nat with (S (length draws - S k)) by lia.
    simpl replicate.
    rewrite <- app_assoc. simpl.
    replace (S k) with (length (compound v (take k draws)) + 0)%nat
      by (rewrite compound_length; lia).
    rewrite insert_app_r. reflexivity.
Qed.

Lemma partial_row_full (v : A) (draws : list A) :
  partial_row v draws (length draws) = compound v draws.
Proof.
  unfold partial_row. rewrite firstn_all, Nat.sub_diag. simpl. apply app_nil_r.
Qed.

Lemma outer_loop (loc scale v : A) (P k : nat) :
  forall (done : list (list A)) (g : G),
    simulate_paths loc scale P (seq (length done) k)
      (done ++ replicate k (v :: replicate P zero)) g
    = (Ok (done ++ map (compound v) (fst (draw_batches loc scale P k g))),
       snd (draw_batches loc scale P k g)).
Proof.
  induction k as [|k IH]; intros done g; simpl.
  - reflexivity.
  - pose proof (normal_length loc scale P g) as Hlen.
    destruct (normal loc scale P g) as [draws g'] eqn:Hdraw. simpl in Hlen.
    assert (Hrow : (done ++ (v :: replicate P zero)
                           :: replicate k (v :: replicate P zero)) !! length done
                   = Some (partial_row v draws 0)).
    { rewrite list_lookup_middle by reflexivity.
      unfold partial_row. simpl. rewrite Nat.sub_0_r, Hlen. reflexivity. }
    rewrite (inner_loop (length done) v draws _ P ltac:(lia) Hrow).
    replace (partial_row v draws P) with (compound v draws)
      by (rewrite <- Hlen; symmetry; apply partial_row_full).
    rewrite insert_app_r_alt, Nat.sub_diag by lia. simpl.
    specialize (IH (done ++ [compound v draws]) g').
    rewrite length_app in IH. simpl in IH.
    replace (length done + 1)%nat with (S (length done)) in IH by lia.
    rewrite <- app_assoc in IH. simpl in IH. rewrite IH.
    destruct (draw_batches loc scale P k g') as [rest g'']. simpl.
    rewrite <- app_assoc. reflexivity.
Qed.

Lemma draw_batches_length (loc scale : A) (P k : nat) (g : G) :
  length (fst (draw_batches loc scale P k g)) = k.
Proof.
  revert g. induction k as [|k IH]; intros g; simpl; [reflexivity|].
  destruct (normal loc scale P g) as [draws g'].
  specialize (IH g'). destruct (draw_batches loc scale P k g'). simpl in *. lia.
Qed.

Lemma draw_batches_sizes (loc scale : A) (P k : nat) (g : G) (draws : list A) :
  draws ∈ fst (draw_batches loc scale P k g) -> length draws = P.
Proof.
  revert g. induction k as [|k IH]; intros g; simpl.
  - intros Hin. inversion Hin.
  - pose proof (normal_length loc scale P g) as Hlen.
    destruct (normal loc scale P g) as [d0 g']. simpl in Hlen.
    specialize (IH g'). destruct (draw_batches loc scale P k g'). simpl in *.
    intros Hin. apply elem_of_cons in Hin as [->|Hin]; [exact Hlen | auto].
Qed.

(** The simulator returns, and what it returns is the compounding of each
    path's draws. *)
Lemma run_monte_carlo_simulation_spec
    (weights mean_returns : list A) (cov_matrix : list (list A))
    (initial_investment : A) (num_periods num_simulations : Z) (g : G) :
  0 <= num_periods -> 0 <= num_simulations ->
  let batches :=
    draw_batches (portfolio_mean weights mean_returns)
      (portfolio_volatility weights cov_matrix)
      (Z.to_nat num_periods) (Z.to_nat num_simulations) g in
  run_monte_carlo_simulation weights mean_returns cov_matrix
    initial_investment num_periods num_simulations g
  = (Ok (map (compound initial_investment) (fst batches)), snd batches).
Proof.
  intros HP HN. unfold run_monte_carlo_simulation, np_zeros, set_column.
  destruct (Z.ltb_spec num_simulations 0) as [|_]; [lia|].
  destruct (Z.ltb_spec (num_periods + 1) 0) as [|_]; [lia|].
  simpl.
  destruct (Nat.ltb_spec 0 (Z.to_nat (num_periods + 1))) as [_|]; [|lia].
  replace (Z.to_nat (num_periods + 1)) with (S (Z.to_nat num_periods)) by lia.
  simpl. rewrite map_replicate. simpl.
  apply (outer_loop _ _ initial_investment (Z.to_nat num_periods)
           (Z.to_nat num_simulations) [] g).
Qed.
End SimulatorFacts.

(** ** The simulator: recurrence, shape, determinism *)

Section SimulatorProperties.
Context {A : Type} `{Num A}.
Import Simulate.

(** C1. For positive [num_periods] and [num_simulations], any weights, mean
    returns and covariance matrix, and any draw source, the simulator
    returns a matrix; row [i] of it starts with the initial investment, and
    with [draws] the returns drawn for path [i], its value at step [t + 1] is
    its value at step [t] times [1 + draws[t]], for every step [t] of the
    horizon. *)
Theorem C1_trajectory_recurrence {G : Type} `{DrawSource G A}
    (weights mean_returns : list A) (cov_matrix : list (list A))
    (initial_investment : A) (num_periods num_simulations : Z) (g : G) :
  0 < num_periods -> 0 < num_simulations ->
  exists (M batches : list (list A)) (g' : G),
    run_monte_carlo_simulation weights mean_returns cov_matrix
      initial_investment num_periods num_simulations g = (Ok M, g')
    /\ batches = fst (draw_batches (portfolio_mean weights mean_returns)
                        (portfolio_volatility weights cov_matrix)
                        (Z.to_nat num_periods) (Z.to_nat num_simulations) g)
    /\ length M = Z.to_nat num_simulations
    /\ forall (i : nat) (row : list A), M !! i = Some row ->
         exists draws : list A,
           batches !! i = Some draws
           /\ length draws = Z.to_nat num_periods
           /\ row !! 0%nat = Some initial_investment
           /\ forall (t : nat), (t < Z.to_nat num_periods)%nat ->
                exists prev d : A,
                  row !! t = Some prev /\ draws !! t = Some d
                  /\ row !! S t = Some (mul prev (add one d)).
Proof.
  intros HP HN.
  pose proof (run_monte_carlo_simulation_spec weights mean_returns cov_matrix
                initial_investment num_periods num_simulations g
                ltac:(lia) ltac:(lia)) as Hrun.
  simpl in Hrun. eexists _, _, _. split; [exact Hrun|]. split; [reflexivity|].
  split.
  - rewrite length_map. apply draw_batches_length.
  - intros i row Hrow.
    rewrite lookup_map in Hrow.
    destruct (_ !! i) as [draws|] eqn:Hdraws; [|discriminate].
    injection Hrow as <-. exists draws.
    assert (Hlen : length draws = Z.to_nat num_periods).
    { eapply draw_batches_sizes, list_elem_of_lookup_2, Hdraws. }
    repeat split; [exact Hlen | apply compound_lookup_0 |].
    intros t Ht.
    destruct (lookup_lt_is_Some_2 draws t ltac:(lia)) as (d & Hd).
    destruct (compound_lookup_S initial_investment draws t d Hd) as (prev & ? & ?).
    exists prev, d. auto.
Qed.

(** C6. For positive [num_simulations] and [num_periods], the simulator
    returns a matrix of [num_simulations] rows, each of [num_periods + 1]
    columns, and column 0 of every row is the initial investment itself. *)
Theorem C6_column_zero_and_shape {G : Type} `{DrawSource G A}
    (weights mean_returns : list A) (cov_matrix : list (list A))
    (initial_investment : A) (num_periods num_simulations : Z) (g : G) :
  0 < num_periods -> 0 < num_simulations ->
  exists (M : list (list A)) (g' : G),
    run_monte_carlo_simulation weights mean_returns cov_matrix
      initial_investment num_periods num_simulations g = (Ok M, g')
    /\ Z.of_nat (length M) = num_simulations
    /\ forall (i : nat) (row : list A), M !! i = Some row ->
         Z.of_nat (length row) = num_periods + 1
         /\ row !! 0%nat = Some initial_investment.
Proof.
  intros HP HN.
  pose proof (run_monte_carlo_simulation_spec weights mean_returns cov_matrix
                initial_investment num_periods num_simulations g
                ltac:(lia) ltac:(lia)) as Hrun.
  simpl in Hrun. eexists _, _. split; [exact Hrun|]. split.
  - rewrite length_map, draw_batches_length. lia.
  - intros i row Hrow. rewrite lookup_map in Hrow.
    destruct (_ !! i) as [draws|] eqn:Hdraws; [|discriminate].
    injection Hrow as <-.
    rewrite compound_length, compound_lookup_0.
    rewrite (draw_batches_sizes _ _ _ _ _ draws)
      by (eapply list_elem_of_lookup_2, Hdraws).
    split; [lia | reflexivity].
Qed.

(** C8. The trajectory matrix is a function of the inputs and of the draws
    alone: two calls with the same weights, mean returns, covariance,
    initial investment, periods and simulation count, on draw sources that
    hand out the same draws, return the same matrix (or raise the same
    exception), value for value. In particular two calls on the same
    source in the same state do. *)
Theorem C8_same_draws_same_trajectories
    {G1 : Type} {D1 : DrawSource G1 A} {G2 : Type} {D2 : DrawSource G2 A}
    (weights mean_returns : list A) (cov_matrix : list (list A))
    (initial_investment : A) (num_periods num_simulations : Z)
    (g1 : G1) (g2 : G2) :
  fst (draw_batches (portfolio_mean weights mean_returns)
         (portfolio_volatility weights cov_matrix)
         (Z.to_nat num_periods) (Z.to_nat num_simulations) g1)
  = fst (draw_batches (portfolio_mean weights mean_returns)
           (portfolio_volatility weights cov_matrix)
           (Z.to_nat num_periods) (Z.to_nat num_simulations) g2) ->
  fst (run_monte_carlo_simulation weights mean_returns cov_matrix
         initial_investment num_periods num_simulations g1)
  = fst (run_monte_carlo_simulation weights mean_returns cov_matrix
           initial_investment num_periods num_simulations g2).
Proof.
  intros Hdraws.
  destruct (Z_lt_le_dec num_periods 0) as [HP|HP];
    [|destruct (Z_lt_le_dec num_simulations 0) as [HN|HN]].
  - unfold run_monte_carlo_simulation.
    destruct (mbind _ _) as [M|e] eqn:Hinit; [|reflexivity].
    exfalso. revert Hinit. unfold np_zeros, set_column.
    destruct (_ || _); [discriminate|]. simpl.
    destruct (Nat.ltb_spec 0 (Z.to_nat (num_periods + 1))); [lia | discriminate].
  - unfold run_monte_carlo_simulation, np_zeros.
    destruct (Z.ltb_spec num_simulations 0) as [_|]; [reflexivity | lia].
  - rewrite !run_monte_carlo_simulation_spec by assumption.
    simpl. rewrite Hdraws. reflexivity.
Qed.
End SimulatorProperties.

Lemma C1_trajectory_recurrence_witness :
  0 < 2 /\ 0 < 1 /\
  exists (M : list (list float)) (g' : scripted float),
    Simulate.run_monte_carlo_simulation Scenario.weights Scenario.mean_returns
      Scenario.cov_matrix 10000%float 2 1 Scenario.draws = (Ok M, g')
    /\ M = [[10000; 10100; 10049.5]]%float.
Proof.
  split; [lia|]. split; [lia|].
  destruct (C1_trajectory_recurrence Scenario.weights Scenario.mean_returns
              Scenario.cov_matrix 10000%float 2 1 Scenario.draws
              ltac:(lia) ltac:(lia)) as (M & batches & g' & Hrun & _).
  exists M, g'. split; [exact Hrun|].
  vm_compute in Hrun. injection Hrun as <- _. reflexivity.
Defined.

(** The scenario of section 8, evaluated: binary64 arithmetic gives the three
    values to the last bit. *)
Example scenario_trajectory :
  fst (Simulate.run_monte_carlo_simulation Scenario.weights Scenario.mean_returns
         Scenario.cov_matrix 10000%float 2 1 Scenario.draws)
  = Ok [[10000; 10100; 10049.5]]%float.
Proof. vm_compute. reflexivity. Qed.

Lemma C6_column_zero_and_shape_witness :
  0 < 2 /\ 0 < 1 /\
  exists (M : list (list float)) (g' : scripted float),
    Simulate.run_monte_carlo_simulation Scenario.weights Scenario.mean_returns
      Scenario.cov_matrix 10000%float 2 1 Scenario.draws = (Ok M, g')
    /\ Z.of_nat (length M) = 1
    /\ forall (i : nat) (row : list float), M !! i = Some row ->
         Z.of_nat (length row) = 2 + 1 /\ row !! 0%nat = Some 10000%float.
Proof.
  split; [lia|]. split; [lia|].
  apply (C6_column_zero_and_shape Scenario.weights Scenario.mean_returns
           Scenario.cov_matrix 10000%float 2 1 Scenario.draws); lia.
Defined.

Lemma C8_same_draws_same_trajectories_witness :
  fst (Simulate.draw_batches
         (Simulate.portfolio_mean Scenario.weights Scenario.mean_returns)
         (Simulate.portfolio_volatility Scenario.weights Scenario.cov_matrix)
         (Z.to_nat 2) (Z.to_nat 1) Scenario.draws)
  = fst (Simulate.draw_batches
           (Simulate.portfolio_mean Scenario.weights Scenario.mean_returns)
           (Simulate.portfolio_volatility Scenario.weights Scenario.cov_matrix)
           (Z.to_nat 2) (Z.to_nat 1) Scenario.shifted_draws)
  /\ fst (Simulate.run_monte_carlo_simulation Scenario.weights Scenario.mean_returns
            Scenario.cov_matrix 10000%float 2 1 Scenario.draws)
     = fst (Simulate.run_monte_carlo_simulation Scenario.weights Scenario.mean_returns
              Scenario.cov_matrix 10000%float 2 1 Scenario.shifted_draws).
Proof.
  assert (Hdraws :
    fst (Simulate.draw_batches
           (Simulate.portfolio_mean Scenario.weights Scenario.mean_returns)
           (Simulate.portfolio_volatility Scenario.weights Scenario.cov_matrix)
           (Z.to_nat 2) (Z.to_nat 1) Scenario.draws)
    = fst (Simulate.draw_batches
             (Simulate.portfolio_mean Scenario.weights Scenario.mean_returns)
             (Simulate.portfolio_volatility Scenario.weights Scenario.cov_matrix)
             (Z.to_nat 2) (Z.to_nat 1) Scenario.shifted_draws))
    by (vm_compute; reflexivity).
  split; [exact Hdraws|].
  exact (C8_same_draws_same_trajectories Scenario.weights Scenario.mean_returns
           Scenario.cov_matrix 10000%float 2 1 Scenario.draws Scenario.shifted_draws
           Hdraws).
Defined.

(** ** Request validation *)

Section ValidationFacts.
Context {A : Type} `{Num A}.

Lemma simulate_errors_extend (body : list (string * pyval A)) :
  exists more, Simulate.validate_request body = check_required body ++ more.
Proof.
  unfold Simulate.validate_request.
  repeat match goal with
         | |- context [if ?c then _ else _] => destruct c
         end;
    rewrite <- ?app_assoc; eexists; try reflexivity.
  symmetry; apply app_nil_r.
Qed.

Lemma simulate_errors_of_required (body : list (string * pyval A)) :
  check_required body <> [] -> Simulate.validate_request body <> [].
Proof.
  intros Hreq. destruct (simulate_errors_extend body) as (more & ->).
  destruct (check_required body); [congruence | discriminate].
Qed.

Lemma check_returns_app (returns : list (string * pyval A)) (errors : list string) :
  exists more, check_returns returns errors = errors ++ more
               /\ (more = [] <-> forallb series_well_typed returns = true).
Proof.
  revert errors. induction returns as [|[asset v] rest IH]; intros errors;
    cbn [check_returns forallb].
  - exists []. rewrite app_nil_r. tauto.
  - unfold series_well_typed at 1. cbn [snd].
    destruct v as [| | | | |l|].
    6:{ destruct (forallb isinstance_int_float l).
        - destruct (IH errors) as (more & -> & Hmore). exists more. simpl. tauto.
        - destruct (IH (errors ++ ["Returns for asset " ++ asset ++ " must be numeric"]%string))
            as (more & -> & _).
          rewrite <- app_assoc. eexists. split; [reflexivity|].
          simpl. split; discriminate. }
    all: destruct (IH (errors ++ ["Returns for asset " ++ asset ++ " must be a list"]%string))
           as (more & -> & _);
         rewrite <- app_assoc; eexists; (split; [reflexivity|]);
         simpl; split; discriminate.
Qed.

(** The requests the shared checks accept. *)
Lemma check_required_nil_iff (body : list (string * pyval A)) :
  check_required body = [] <->
  truthy (dict_get body "portfolioId") = true
  /\ exists d, dict_get body "returns" = PDict d /\ d <> []
               /\ forallb series_well_typed d = true.
Proof.
  unfold check_required.
  destruct (truthy (dict_get body "portfolioId")) eqn:Hid;
    destruct (truthy (dict_get body "returns")) eqn:Htr;
    destruct (isinstance_dict (dict_get body "returns")) eqn:Hdict;
    cbn [negb].
  1:{ destruct (dict_get body "returns") as [| | | | | |d]; try discriminate Hdict.
      cbn [items].
      destruct (check_returns_app d []) as (more & Heq & Hmore).
      rewrite Heq. cbn [app]. split.
      - intros ->. split; [reflexivity|]. exists d. split; [reflexivity|].
        split; [destruct d; [discriminate Htr | discriminate] | apply Hmore; reflexivity].
      - intros (_ & d' & Hd' & _ & Hall). injection Hd' as <-. apply Hmore, Hall. }
  4:{ destruct (check_returns_app (items (dict_get body "returns"))
                  ([] ++ ["Portfolio ID is required"%string])) as (more & -> & _).
      split; [discriminate | intros (? & _); discriminate]. }
  all: split; [discriminate|].
  all: intros (Hp & d & Hd & Hne & _); try discriminate Hp.
  all: rewrite Hd in *; destruct d; [congruence | discriminate].
Qed.
End ValidationFacts.

(** ** The handlers *)

Lemma bind_Ok {X Y : Type} (r : result X) (f : X -> result Y) (y : Y) :
  r ≫= f = Ok y -> exists x, r = Ok x /\ f x = Ok y.
Proof. destruct r as [x|e]; [intros Hf; exists x; auto | discriminate]. Qed.

Ltac invert_binds :=
  repeat match goal with
         | E : _ ≫= _ = Ok _ |- _ =>
             let x := fresh "x" in
             let E1 := fresh "E" in
             let E2 := fresh "E" in
             apply bind_Ok in E; destruct E as (x & E1 & E2)
         | E : Ok _ = Ok _ |- _ => injection E as E
         end.

Section SimulateHandlerFacts.
Context {A : Type} `{Num A} {G : Type} `{DrawSource G A}.
Variable PORTFOLIO_TABLE SIMULATION_RESULT_TABLE : string.
Variable query_by_id : string -> pyval A -> result (option (Simulate.portfolio A)).
Variable put_item : string -> Simulate.simulation_result A -> result unit.
Variable str : pyval A -> string.
Variable uuid4 utcnow : string.

Let handler := Simulate.lambda_handler PORTFOLIO_TABLE SIMULATION_RESULT_TABLE
                 query_by_id put_item str uuid4 utcnow.

(** A run that returns a matrix was given dimensions that are not negative. *)
Lemma run_Ok_dimensions (weights mean_returns : list A) (cov_matrix : list (list A))
    (initial_investment : A) (num_periods num_simulations : Z) (g g' : G)
    (M : list (list A)) :
  Simulate.run_monte_carlo_simulation weights mean_returns cov_matrix
    initial_investment num_periods num_simulations g = (Ok M, g') ->
  0 <= num_periods /\ 0 <= num_simulations.
Proof.
  unfold Simulate.run_monte_carlo_simulation, np_zeros, set_column.
  destruct (Z.ltb_spec num_simulations 0); [discriminate|].
  destruct (Z.ltb_spec (num_periods + 1) 0); [discriminate|].
  simpl.
  destruct (Nat.ltb_spec 0 (Z.to_nat (num_periods + 1))); [|discriminate].
  intros _. lia.
Qed.

(** What stands behind a success response of the simulation handler. *)
Lemma simulate_success_inv (body : list (string * pyval A)) (g g' : G)
    (res : Simulate.simulation_result A) :
  handler body g = (response.success res, g') ->
  exists (weights mean_returns : list A) (cov_matrix : list (list A))
         (investment : A) (periods simulations : Z) (final_values : list A),
    Simulate.validate_request body = []
    /\ as_float (dict_get_default body "initialInvestment" (PInt 10000)) = Ok investment
    /\ as_int (dict_get_default body "numPeriods" (PInt 252)) = Ok periods
    /\ as_int (dict_get_default body "numSimulations" (PInt 1000)) = Ok simulations
    /\ Simulate.run_monte_carlo_simulation weights mean_returns cov_matrix
         investment periods simulations g = (Ok (Simulate.trajectories res), g')
    /\ mapM (fun row => getitem_py row (-1)) (Simulate.trajectories res) = Ok final_values
    /\ Simulate.summarize final_values = Ok (Simulate.statistics res).
Proof.
  unfold handler, Simulate.lambda_handler.
  destruct (Simulate.validate_request body) eqn:Hval; [|discriminate].
  destruct (query_by_id _ _) as [[portfolio|]|e]; [|discriminate|discriminate].
  destruct (filter _ _); [|discriminate].
  destruct (mbind _ _) as [[[[[[weights mean_returns] cov_matrix] investment] periods]
                             simulations]|e] eqn:Hprep; [|discriminate].
  destruct (Simulate.run_monte_carlo_simulation _ _ _ _ _ _ g) as [simulated g1] eqn:Hrun.
  destruct (mbind _ simulated) as [r|e] eqn:Hpost; [|discriminate].
  intros Hres. injection Hres as Hr ->. subst r.
  invert_binds. subst. simpl.
  do 7 eexists. repeat split; eassumption.
Qed.

(** C5 (amended). A success response of the simulation handler carries the
    values the engine computed, as they are: with [investment] the request's
    initial investment as a float, each row of [trajectories] is the
    compounding of that path's draws from [investment], and starts with
    [investment] itself; the statistics are the reductions of the last
    column. No value is tested for finiteness on the way. *)
Theorem C5_trajectories_serialized_as_computed (body : list (string * pyval A))
    (g g' : G) (res : Simulate.simulation_result A) :
  handler body g = (response.success res, g') ->
  exists (investment : A) (batches : list (list A)) (final_values : list A),
    as_float (dict_get_default body "initialInvestment" (PInt 10000)) = Ok investment
    /\ Simulate.trajectories res = map (compound investment) batches
    /\ mapM (fun row => getitem_py row (-1)) (Simulate.trajectories res) = Ok final_values
    /\ Simulate.summarize final_values = Ok (Simulate.statistics res)
    /\ forall row, row ∈ Simulate.trajectories res -> row !! 0%nat = Some investment.
Proof.
  intros Hres.
  destruct (simulate_success_inv body g g' res Hres)
    as (weights & mean_returns & cov_matrix & investment & periods & simulations
        & final_values & _ & Hinv & _ & _ & Hrun & Hfinal & Hstats).
  destruct (run_Ok_dimensions _ _ _ _ _ _ _ _ _ Hrun) as [HP HN].
  rewrite run_monte_carlo_simulation_spec in Hrun by assumption.
  simpl in Hrun. injection Hrun as Htraj _.
  exists investment. eexists. exists final_values.
  split; [exact Hinv|]. split; [symmetry; exact Htraj|].
  split; [exact Hfinal|]. split; [exact Hstats|].
  intros row Hrow. rewrite <- Htraj in Hrow.
  apply list_elem_of_In, in_map_iff in Hrow as (draws & <- & _).
  apply compound_lookup_0.
Qed.
End SimulateHandlerFacts.

Lemma C5_trajectories_serialized_as_computed_witness :
  exists (res : Simulate.simulation_result float) (g' : scripted float),
    Scenario.simulate_handler Scenario.sound_body Scenario.draws = (response.success res, g')
    /\ exists (investment : float) (batches : list (list float))
              (final_values : list float),
         as_float (dict_get_default Scenario.sound_body "initialInvestment" (PInt 10000))
         = Ok investment
         /\ Simulate.trajectories res = map (compound investment) batches
         /\ mapM (fun row => getitem_py row (-1)) (Simulate.trajectories res)
            = Ok final_values
         /\ Simulate.summarize final_values = Ok (Simulate.statistics res)
         /\ forall row, row ∈ Simulate.trajectories res -> row !! 0%nat = Some investment.
Proof.
  assert (Hsuccess : exists res g',
             Scenario.simulate_handler Scenario.sound_body Scenario.draws
             = (response.success res, g'))
    by (eexists _, _; vm_compute; reflexivity).
  destruct Hsuccess as (res & g' & Hsuccess).
  exists res, g'. split; [exact Hsuccess|].
  exact (C5_trajectories_serialized_as_computed _ _ _ _ _ _ _
           Scenario.sound_body Scenario.draws g' res Hsuccess).
Defined.

(** C5 as stated fails: a request with [initialInvestment] set to the float
    [Infinity] passes validation, and the success response carries a
    trajectory of infinities and NaN statistics. *)
Lemma C5_non_finite_values_serialized :
  Simulate.validate_request Scenario.infinite_body = []
  /\ exists (res : Simulate.simulation_result float) (g' : scripted float),
       Scenario.simulate_handler Scenario.infinite_body Scenario.draws
       = (response.success res, g')
       /\ Simulate.trajectories res = [[infinity; infinity; infinity]]%float
       /\ Exists (fun x => PrimFloat.is_finite x = false)
            (concat (Simulate.trajectories res))
       /\ PrimFloat.is_nan (Simulate.standardDeviation (Simulate.statistics res)) = true.
Proof.
  split; [vm_compute; reflexivity|].
  eexists _, _. split; [vm_compute; reflexivity|]. simpl.
  split; [reflexivity|]. split; [|vm_compute; reflexivity].
  apply Exists_cons_hd. vm_compute. reflexivity.
Qed.

(** C3 (amended). A request that fails the checks [validate_request] makes
    (no [portfolioId]; [returns] missing, empty or not a dictionary; a series
    that is not a list, or that holds an entry that is not a number) is
    answered with a validation error that lists the errors found, by both
    handlers, whatever the portfolio table, the solver and the draw source
    are, and with the draw source left as it was: nothing is looked up or
    computed. [check_required_nil_iff] states what passes these checks: the
    lengths of the series and the values in them play no part. *)
Theorem C3_rejected_requests_fail_fast {A : Type} `{Num A}
    (body : list (string * pyval A)) :
  check_required body <> [] ->
  (forall (G : Type) (D : DrawSource G A) portfolio_table result_table
          query_by_id put_item str uuid4 utcnow (g : G),
      Simulate.lambda_handler portfolio_table result_table query_by_id put_item
        str uuid4 utcnow body g
      = (response.validation_error "Invalid simulation request"
           (Simulate.validate_request body), g))
  /\ (forall portfolio_table result_table query_by_id put_item minimize
             str uuid4 utcnow,
         RiskParity.lambda_handler portfolio_table result_table query_by_id put_item
           minimize str uuid4 utcnow body
         = response.validation_error "Invalid optimization request"
             (RiskParity.validate_request body)).
Proof.
  intros Hreq. split; intros.
  - pose proof (simulate_errors_of_required body Hreq) as Hsim.
    unfold Simulate.lambda_handler.
    destruct (Simulate.validate_request body); [congruence | reflexivity].
  - unfold RiskParity.lambda_handler, RiskParity.validate_request.
    destruct (check_required body); [congruence | reflexivity].
Qed.

Lemma C3_rejected_requests_fail_fast_witness :
  check_required Scenario.non_numeric_body <> []
  /\ Scenario.simulate_handler Scenario.non_numeric_body Scenario.draws
     = (response.validation_error "Invalid simulation request"
          ["Returns for asset A must be numeric"%string], Scenario.draws)
  /\ Scenario.optimize_handler Scenario.non_numeric_body
     = response.validation_error "Invalid optimization request"
         ["Returns for asset A must be numeric"%string].
Proof.
  assert (Hreq : check_required Scenario.non_numeric_body <> [])
    by (vm_compute; discriminate).
  split; [exact Hreq|].
  destruct (C3_rejected_requests_fail_fast Scenario.non_numeric_body Hreq)
    as [Hsim Hopt].
  split.
  - unfold Scenario.simulate_handler. rewrite Hsim. reflexivity.
  - unfold Scenario.optimize_handler. rewrite Hopt. reflexivity.
Defined.

(** C3 as stated fails: a request whose two series have lengths 2 and 1
    passes [validate_request] in both handlers; the data reaches [np.array],
    and what the handlers answer is the 500 of their [except] clause, not a
    validation error. *)
Lemma C3_mismatched_lengths_not_rejected :
  series_lengths Scenario.ragged_body = [2; 1]%nat
  /\ Simulate.validate_request Scenario.ragged_body = []
  /\ RiskParity.validate_request Scenario.ragged_body = []
  /\ response.statusCode
       (fst (Scenario.simulate_handler Scenario.ragged_body Scenario.draws)) = 500
  /\ response.error_code
       (fst (Scenario.simulate_handler Scenario.ragged_body Scenario.draws))
     = Some "INTERNAL_SERVER_ERROR"%string
  /\ response.statusCode (Scenario.optimize_handler Scenario.ragged_body) = 500
  /\ response.error_code (Scenario.optimize_handler Scenario.ragged_body)
     = Some "INTERNAL_SERVER_ERROR"%string.
Proof. repeat split; vm_compute; reflexivity. Qed.

Lemma dict_get_default_spec {A : Type} (d : list (string * pyval A)) (key : string)
    (default : pyval A) :
  dict_get_default d key default = dict_get d key
  \/ (dict_get d key = PNone /\ dict_get_default d key default = default).
Proof.
  induction d as [|[k v] d IH]; simpl; [right; auto|].
  destruct (String.eqb k key); [left; reflexivity | exact IH].
Qed.

(** A count that is a boolean never leads to a result: whatever else the
    request holds, the simulation handler does not answer it with a 200, and
    the draw source is left as it was. *)
Lemma boolean_count_refused {A : Type} `{Num A} {G : Type} `{DrawSource G A}
    portfolio_table result_table query_by_id put_item str uuid4 utcnow
    (body : list (string * pyval A)) (g : G) (b : bool) :
  dict_get body "numSimulations" = PBool b \/ dict_get body "numPeriods" = PBool b ->
  response.statusCode
    (fst (Simulate.lambda_handler portfolio_table result_table query_by_id put_item
            str uuid4 utcnow body g)) <> 200
  /\ snd (Simulate.lambda_handler portfolio_table result_table query_by_id put_item
            str uuid4 utcnow body g) = g.
Proof.
  intros Hcount. unfold Simulate.lambda_handler.
  destruct (Simulate.validate_request body); [|simpl; split; [discriminate|reflexivity]].
  destruct (query_by_id _ _) as [[portfolio|]|e];
    [|simpl; split; [discriminate|reflexivity]..].
  destruct (filter _ _); [|simpl; split; [discriminate|reflexivity]].
  destruct (mbind _ _) as [[[[[[weights mean_returns] cov_matrix] investment] periods]
                             simulations]|e] eqn:Hprep;
    [|simpl; split; [discriminate|reflexivity]].
  exfalso. invert_binds.
  destruct Hcount as [Hcount|Hcount].
  - destruct (dict_get_default_spec body "numSimulations" (PInt 1000)) as [Heq|[Heq _]];
      rewrite Hcount in Heq; [|discriminate Heq].
    match goal with
    | E : as_int (dict_get_default body "numSimulations" _) = Ok _ |- _ =>
        rewrite Heq in E; discriminate E
    end.
  - destruct (dict_get_default_spec body "numPeriods" (PInt 252)) as [Heq|[Heq _]];
      rewrite Hcount in Heq; [|discriminate Heq].
    match goal with
    | E : as_int (dict_get_default body "numPeriods" _) = Ok _ |- _ =>
        rewrite Heq in E; discriminate E
    end.
Qed.

(** C10 (amended). Booleans pass validation wherever a number is required:
    [isinstance] takes [True] and [False] for an [int]. In a return series
    they count as 1.0 and 0.0: the request [Scenario.boolean_series_body],
    whose series hold [True] and [False], passes both [validate_request]
    functions, and both handlers answer it with a result computed from the
    series read as 1.0 and 0.0. As [numSimulations] or [numPeriods] a boolean
    passes validation too ([Scenario.boolean_body] does), but it is not
    computed with as 1: NumPy refuses a boolean as a dimension, so the
    simulation handler never answers such a request with a result, and
    draws nothing for it. The optimization handler, which reads neither
    count, answers [Scenario.boolean_body] with a result. *)
Theorem C10_booleans_accepted_as_numbers :
  (forall (A : Type) (N : Num A) (b : bool),
      isinstance_int (PBool b : pyval A) = true
      /\ isinstance_int_float (PBool b : pyval A) = true
      /\ as_float (PBool b : pyval A) = Ok (of_Z (if b then 1 else 0))
      /\ exists e, as_int (PBool b : pyval A) = Raise e)
  /\ Simulate.validate_request Scenario.boolean_series_body = []
  /\ RiskParity.validate_request Scenario.boolean_series_body = []
  /\ mapM as_floats (map snd (items (dict_get Scenario.boolean_series_body "returns")))
     = Ok [[1; 0]; [0; 0.5]]%float
  /\ (exists (res : Simulate.simulation_result float) (g' : scripted float),
        Scenario.simulate_handler Scenario.boolean_series_body Scenario.draws
        = (response.success res, g')
        /\ Simulate.trajectories res = [[10000; 10100]]%float)
  /\ (exists res : RiskParity.optimization_result float,
        Scenario.optimize_handler Scenario.boolean_series_body = response.success res
        /\ RiskParity.weights res = [("A"%string, 0.5); ("B"%string, 0.5)]%float)
  /\ dict_get Scenario.boolean_body "numSimulations" = PBool true
  /\ dict_get Scenario.boolean_body "numPeriods" = PBool true
  /\ Simulate.validate_request Scenario.boolean_body = []
  /\ RiskParity.validate_request Scenario.boolean_body = []
  /\ (exists res : RiskParity.optimization_result float,
        Scenario.optimize_handler Scenario.boolean_body = response.success res
        /\ RiskParity.weights res = [("A"%string, 0.5); ("B"%string, 0.5)]%float)
  /\ (forall (A : Type) (N : Num A) (G : Type) (D : DrawSource G A)
             portfolio_table result_table query_by_id put_item str uuid4 utcnow
             (body : list (string * pyval A)) (g : G) (b : bool),
         dict_get body "numSimulations" = PBool b
         \/ dict_get body "numPeriods" = PBool b ->
         response.statusCode
           (fst (Simulate.lambda_handler portfolio_table result_table query_by_id
                   put_item str uuid4 utcnow body g)) <> 200
         /\ snd (Simulate.lambda_handler portfolio_table result_table query_by_id
                   put_item str uuid4 utcnow body g) = g).
Proof.
  split; [intros A N b; repeat split; eexists; reflexivity|].
  repeat match goal with
         | |- _ /\ _ => split
         end; try (vm_compute; reflexivity).
  - eexists _, _. split; [vm_compute; reflexivity | reflexivity].
  - eexists. split; [vm_compute; reflexivity | reflexivity].
  - eexists. split; [vm_compute; reflexivity | reflexivity].
  - intros A N G D portfolio_table result_table query_by_id put_item str uuid4 utcnow
      body g b Hcount.
    apply (boolean_count_refused _ _ _ _ _ _ _ body g b Hcount).
Qed.

(** C10 as stated fails for the counts: the request [Scenario.boolean_body],
    in which [numSimulations] and [numPeriods] are [True], passes
    [validate_request], and so does [Scenario.boolean_periods_body], in which
    [numPeriods] alone is; neither is computed with [True] as 1. The
    simulation handler answers both with the 500 of its [except] clause, and
    the draw source is where it was. *)
Lemma C10_boolean_count_not_computed_as_one :
  dict_get Scenario.boolean_body "numSimulations" = PBool true
  /\ dict_get Scenario.boolean_body "numPeriods" = PBool true
  /\ Simulate.validate_request Scenario.boolean_body = []
  /\ response.statusCode
       (fst (Scenario.simulate_handler Scenario.boolean_body Scenario.draws)) = 500
  /\ response.error_code
       (fst (Scenario.simulate_handler Scenario.boolean_body Scenario.draws))
     = Some "INTERNAL_SERVER_ERROR"%string
  /\ snd (Scenario.simulate_handler Scenario.boolean_body Scenario.draws)
     = Scenario.draws
  /\ dict_get Scenario.boolean_periods_body "numSimulations" = PInt 1
  /\ dict_get Scenario.boolean_periods_body "numPeriods" = PBool true
  /\ Simulate.validate_request Scenario.boolean_periods_body = []
  /\ response.statusCode
       (fst (Scenario.simulate_handler Scenario.boolean_periods_body Scenario.draws))
     = 500
  /\ response.error_code
       (fst (Scenario.simulate_handler Scenario.boolean_periods_body Scenario.draws))
     = Some "INTERNAL_SERVER_ERROR"%string
  /\ snd (Scenario.simulate_handler Scenario.boolean_periods_body Scenario.draws)
     = Scenario.draws.
Proof. repeat split; vm_compute; reflexivity. Qed.

(** C4 as stated fails: with a covariance matrix of negative variance the
    volatility the simulator computes is NaN, and the simulator returns a
    matrix all the same, NaN from step 1 on; at a point of zero volatility
    the optimizer's objective returns NaN and raises nothing. *)
Lemma C4_degenerate_volatility_not_refused :
  PrimFloat.is_nan (Simulate.portfolio_volatility [1%float] Scenario.negative_variance)
  = true
  /\ fst (Simulate.run_monte_carlo_simulation [1%float] [0.001%float]
            Scenario.negative_variance 10000%float 2 1 Scenario.standard_draws)
     = Ok [[10000; nan; nan]]%float
  /\ RiskParity.portfolio_volatility Scenario.zero_covariance [0.5; 0.5]%float = 0%float
  /\ PrimFloat.is_nan
       (RiskParity.risk_parity_objective [0.5; 0.5]%float Scenario.zero_covariance)
     = true.
Proof. repeat split; vm_compute; reflexivity. Qed.

Ltac case_handler :=
  repeat match goal with
         | |- context [match ?x with _ => _ end] => destruct x
         end.

Section NoDegenerateError.
Context {A : Type} `{Num A} {G : Type} `{DrawSource G A}.

(** A response of the simulation handler is a success or carries one of the
    handlers' four error codes. *)
Lemma simulate_error_codes portfolio_table result_table query_by_id put_item
    str uuid4 utcnow (body : list (string * pyval A)) (g : G) (c : string) :
  response.error_code
    (fst (Simulate.lambda_handler portfolio_table result_table query_by_id put_item
            str uuid4 utcnow body g)) = Some c ->
  In c response.handler_error_codes.
Proof.
  unfold Simulate.lambda_handler. case_handler; simpl;
    intros Hc; try discriminate Hc; injection Hc as <-; tauto.
Qed.

Lemma optimize_error_codes portfolio_table result_table query_by_id put_item
    minimize str uuid4 utcnow (body : list (string * pyval A)) (c : string) :
  response.error_code
    (RiskParity.lambda_handler portfolio_table result_table query_by_id put_item
       minimize str uuid4 utcnow body) = Some c ->
  In c response.handler_error_codes.
Proof.
  unfold RiskParity.lambda_handler. case_handler; simpl;
    intros Hc; try discriminate Hc; injection Hc as <-; tauto.
Qed.

(** C4 (amended). Neither the simulator nor the optimizer has a failure for
    degenerate input. For positive [num_periods] and [num_simulations] and
    any weights and covariance matrix, valid or not, the simulator asks the
    draw source for draws at scale [sqrt(w' Cov w)] as computed and returns
    the compounded matrix; and an error response of either handler carries
    one of the codes VALIDATION_ERROR, NOT_FOUND, OPTIMIZATION_ERROR and
    INTERNAL_SERVER_ERROR. *)
Theorem C4_no_degenerate_input_failure
    (weights mean_returns : list A) (cov_matrix : list (list A))
    (initial_investment : A) (num_periods num_simulations : Z) (g : G) :
  0 < num_periods -> 0 < num_simulations ->
  (let batches :=
     Simulate.draw_batches (Simulate.portfolio_mean weights mean_returns)
       (sqrt (np_dot weights (np_matvec cov_matrix weights)))
       (Z.to_nat num_periods) (Z.to_nat num_simulations) g in
   Simulate.run_monte_carlo_simulation weights mean_returns cov_matrix
     initial_investment num_periods num_simulations g
   = (Ok (map (compound initial_investment) (fst batches)), snd batches))
  /\ (forall portfolio_table result_table query_by_id put_item str uuid4 utcnow
             body g0 c,
         response.error_code
           (fst (Simulate.lambda_handler portfolio_table result_table query_by_id
                   put_item str uuid4 utcnow body g0)) = Some c ->
         In c response.handler_error_codes)
  /\ (forall portfolio_table result_table query_by_id put_item minimize
             str uuid4 utcnow body c,
         response.error_code
           (RiskParity.lambda_handler (A:=A) portfolio_table result_table query_by_id
              put_item minimize str uuid4 utcnow body) = Some c ->
         In c response.handler_error_codes).
Proof.
  intros HP HN. split; [|split].
  - apply run_monte_carlo_simulation_spec; lia.
  - intros. eapply simulate_error_codes; eassumption.
  - intros. eapply optimize_error_codes; eassumption.
Qed.
End NoDegenerateError.

Lemma C4_no_degenerate_input_failure_witness :
  0 < 2 /\ 0 < 1
  /\ fst (Simulate.run_monte_carlo_simulation [1%float] [0.001%float]
            Scenario.negative_variance 10000%float 2 1 Scenario.standard_draws)
     = Ok [[10000; nan; nan]]%float.
Proof.
  split; [lia|]. split; [lia|].
  destruct (C4_no_degenerate_input_failure [1%float] [0.001%float]
              Scenario.negative_variance 10000%float 2 1 Scenario.standard_draws
              ltac:(lia) ltac:(lia)) as [Hrun _].
  cbv zeta in Hrun. rewrite Hrun. vm_compute. reflexivity.
Defined.

(** ** Sums over the reals *)

Section RealSums.
Local Open Scope R_scope.

Lemma foldl_Rplus (a : R) (l : list R) : foldl Rplus a l = a + np_sum l.
Proof.
  unfold np_sum. simpl. revert a.
  induction l as [|x l IH]; intros a; simpl; [lra|].
  rewrite (IH (a + x)), (IH (0 + x)). lra.
Qed.

Lemma np_sum_cons (x : R) (l : list R) : np_sum (x :: l) = x + np_sum l.
Proof. unfold np_sum at 1. simpl. rewrite foldl_Rplus. lra. Qed.

Lemma np_sum_nil : np_sum (@nil R) = 0.
Proof. reflexivity. Qed.

Lemma np_sum_scaled (t : R) (l : list R) :
  np_sum (map (fun w => w / t) l) = np_sum l / t.
Proof.
  induction l as [|x l IH]; simpl.
  - rewrite np_sum_nil. unfold Rdiv. lra.
  - rewrite !np_sum_cons, IH. unfold Rdiv. lra.
Qed.

Lemma np_sum_nonneg (l : list R) : Forall (fun v => 0 <= v) l -> 0 <= np_sum l.
Proof.
  induction 1 as [|x l Hx _ IH]; [rewrite np_sum_nil; lra|].
  rewrite np_sum_cons. lra.
Qed.

Lemma np_sum_bounds_element (l : list R) (v : R) :
  Forall (fun v => 0 <= v) l -> In v l -> v <= np_sum l.
Proof.
  induction 1 as [|x l Hx Hl IH]; intros Hin; [destruct Hin|].
  rewrite np_sum_cons. pose proof (np_sum_nonneg l Hl).
  destruct Hin as [->|Hin]; [lra | specialize (IH Hin); lra].
Qed.

Lemma np_multiply_comm (a b : list R) : np_multiply a b = np_multiply b a.
Proof.
  unfold np_multiply. revert b.
  induction a as [|x a IH]; intros [|y b]; simpl; try reflexivity.
  rewrite IH. f_equal. apply Rmult_comm.
Qed.
End RealSums.

(** ** The optimizer's report *)

Section NormalizedWeights.
Local Open Scope R_scope.

(** Normalized weights sum to one and stay in the unit interval, when the
    solver's weights are non-negative and not all zero. *)
Lemma normalize_sum (x : list R) :
  np_sum x <> 0 -> np_sum (RiskParity.normalize x) = 1.
Proof.
  intros Hs. unfold RiskParity.normalize. simpl.
  rewrite (np_sum_scaled (np_sum x) x). field. exact Hs.
Qed.

Lemma normalize_bounds (x : list R) :
  Forall (fun v => 0 <= v) x -> 0 < np_sum x ->
  Forall (fun v => 0 <= v <= 1) (RiskParity.normalize x).
Proof.
  intros Hx Hs. unfold RiskParity.normalize. simpl.
  apply Forall_forall. intros w Hw.
  apply list_elem_of_In, in_map_iff in Hw as (v & <- & Hv).
  pose proof (np_sum_bounds_element x v Hx Hv) as Hle.
  assert (0 <= v) by (rewrite Forall_forall in Hx; apply Hx, list_elem_of_In, Hv).
  split.
  - apply Rmult_le_pos; [assumption | left; apply Rinv_0_lt_compat; exact Hs].
  - apply (Rmult_le_reg_r (np_sum x)); [exact Hs|].
    unfold Rdiv. rewrite Rmult_assoc, Rinv_l by lra. lra.
Qed.

(** Euler's decomposition: the risk contributions sum to the volatility. *)
Lemma risk_contribution_sum (cov_matrix : list (list R)) (w : list R) :
  0 < RiskParity.portfolio_volatility cov_matrix w ->
  np_sum (RiskParity.risk_contribution cov_matrix w)
  = RiskParity.portfolio_volatility cov_matrix w.
Proof.
  intros Hvol. unfold RiskParity.risk_contribution.
  set (vol := RiskParity.portfolio_volatility cov_matrix w) in *.
  simpl. rewrite (np_sum_scaled vol).
  rewrite np_multiply_comm.
  change (np_sum (np_multiply w (RiskParity.marginal_contribution cov_matrix w)))
    with (RiskParity.portfolio_variance cov_matrix w).
  assert (Hvar : RiskParity.portfolio_variance cov_matrix w = vol * vol).
  { unfold vol, RiskParity.portfolio_volatility in *. simpl in *.
    destruct (Rle_or_lt 0 (RiskParity.portfolio_variance cov_matrix w)) as [Hpos|Hneg].
    - symmetry. apply sqrt_sqrt. exact Hpos.
    - rewrite sqrt_neg_0 in Hvol by lra. lra. }
  rewrite Hvar. field. lra.
Qed.
End NormalizedWeights.

Lemma mapM_result_length {X Y : Type} (f : X -> result Y) (l : list X) (k : list Y) :
  mapM f l = Ok k -> length k = length l.
Proof.
  revert k. induction l as [|x l IH]; intros k; simpl.
  - intros Hk. injection Hk as <-. reflexivity.
  - intros Hk. invert_binds.
    match goal with E : mret _ = Ok k |- _ => injection E as <- end.
    simpl. f_equal. apply IH. assumption.
Qed.

Lemma np_array_Ok {A : Type} (rows m : list (list A)) : np_array rows = Ok m -> m = rows.
Proof.
  unfold np_array. destruct rows as [|r rs]; [congruence|].
  destruct (forallb _ rs); [congruence | discriminate].
Qed.

Lemma np_cov_length {A : Type} `{Num A} (m : list (list A)) :
  length (np_cov m) = length m.
Proof. unfold np_cov. rewrite !length_map. reflexivity. Qed.

Lemma snd_zip_short {X Y : Type} (a : list X) (b : list Y) :
  (length b <= length a)%nat -> map snd (zip a b) = b.
Proof.
  revert b. induction a as [|x a IH]; intros [|y b] Hlen; simpl in *;
    try reflexivity; try lia.
  f_equal. apply IH. lia.
Qed.

Section OptimizeHandlerFacts.
Context {A : Type} `{Num A}.
Variable PORTFOLIO_TABLE OPTIMIZATION_RESULT_TABLE : string.
Variable query_by_id : string -> pyval A -> result (option (RiskParity.portfolio A)).
Variable put_item : string -> RiskParity.optimization_result A -> result unit.
Variable minimize :
  (list A -> A) -> list A -> list (A * A) -> (list A -> A) -> Z
  -> result (RiskParity.optimize_result A).
Variable str : pyval A -> string.
Variable uuid4 utcnow : string.

(** What stands behind a success response of the optimization handler: the
    solver was called on the covariance of the series, from equal weights,
    within the unit box and under the sum-to-one constraint; it reported
    success; and the response is built from its weights, normalized. *)
Lemma optimize_success_inv (body : list (string * pyval A))
    (res : RiskParity.optimization_result A) :
  RiskParity.lambda_handler PORTFOLIO_TABLE OPTIMIZATION_RESULT_TABLE
    query_by_id put_item minimize str uuid4 utcnow body = response.success res ->
  exists (portfolio : RiskParity.portfolio A) (cov_matrix : list (list A))
         (r : RiskParity.optimize_result A),
    let asset_list := map fst (RiskParity.assets portfolio) in
    let n := length asset_list in
    let w := RiskParity.normalize (RiskParity.x r) in
    query_by_id PORTFOLIO_TABLE (dict_get body "portfolioId") = Ok (Some portfolio)
    /\ length cov_matrix = n
    /\ minimize (fun w => RiskParity.risk_parity_objective w cov_matrix)
         (replicate n (div one (of_Z (Z.of_nat n)))) (replicate n (zero, one))
         (fun x => sub (np_sum x) one) 1000 = Ok r
    /\ RiskParity.success r = true
    /\ RiskParity.weights res = zip asset_list w
    /\ RiskParity.portfolioVolatility (RiskParity.metrics res)
       = RiskParity.portfolio_volatility cov_matrix w
    /\ RiskParity.riskContribution (RiskParity.metrics res)
       = zip asset_list (RiskParity.risk_contribution cov_matrix w).
Proof.
  unfold RiskParity.lambda_handler.
  destruct (RiskParity.validate_request body); [|discriminate].
  destruct (query_by_id _ _) as [[portfolio|]|e] eqn:Hquery; [|discriminate|discriminate].
  destruct (filter _ _); [|discriminate].
  destruct (mbind _ _) as [[cov_matrix r]|e] eqn:Hprep; [|discriminate].
  destruct (RiskParity.success r) eqn:Hsuccess; [|discriminate]. simpl.
  destruct (put_item _ _); [|discriminate].
  intros Hres. injection Hres as <-. simpl.
  invert_binds.
  destruct (length (map fst (RiskParity.assets portfolio)) =? 0)%nat; [discriminate|].
  invert_binds. subst.
  exists portfolio. eexists. exists r.
  repeat split; try eassumption.
  rewrite np_cov_length.
  match goal with
  | Harr : np_array _ = Ok _ |- _ => apply np_array_Ok in Harr; subst
  end.
  eapply mapM_result_length. eassumption.
Qed.
End OptimizeHandlerFacts.

Section OptimizerProperties.
Local Open Scope R_scope.
Variable PORTFOLIO_TABLE OPTIMIZATION_RESULT_TABLE : string.
Variable query_by_id : string -> pyval R -> result (option (RiskParity.portfolio R)).
Variable put_item : string -> RiskParity.optimization_result R -> result unit.
Variable minimize :
  (list R -> R) -> list R -> list (R * R) -> (list R -> R) -> Z
  -> result (RiskParity.optimize_result R).
Variable str : pyval R -> string.
Variable uuid4 utcnow : string.

Let handler := RiskParity.lambda_handler PORTFOLIO_TABLE OPTIMIZATION_RESULT_TABLE
                 query_by_id put_item minimize str uuid4 utcnow.

(** C2. Behind every success response of the optimization handler there is a
    solver result [r] that reported success, and with [w] the solver's
    weights divided by their sum: the returned weights are [w], asset by
    asset; the reported volatility is [sqrt(w' Cov w)] and the reported risk
    contributions are [(Cov w)_i * w_i / volatility], all three computed from
    [w]. When the solver's weights are as many as the assets, lie in the box
    [0, 1] it was given and are not all zero, the returned weights sum to 1
    (exactly, over the reals, hence within 1e-6) and each lies in [0, 1]. *)
Theorem C2_final_weights_normalized (body : list (string * pyval R))
    (res : RiskParity.optimization_result R) :
  handler body = response.success res ->
  exists (portfolio : RiskParity.portfolio R) (cov_matrix : list (list R))
         (r : RiskParity.optimize_result R),
    let asset_list := map fst (RiskParity.assets portfolio) in
    let n := length asset_list in
    let w := map (fun v => v / np_sum (RiskParity.x r)) (RiskParity.x r) in
    let volatility := R_sqrt.sqrt (np_dot w (np_matvec cov_matrix w)) in
    query_by_id PORTFOLIO_TABLE (dict_get body "portfolioId") = Ok (Some portfolio)
    /\ minimize (fun w => RiskParity.risk_parity_objective w cov_matrix)
      (replicate n (1 / IZR (Z.of_nat n))) (replicate n (0, 1))
      (fun x => np_sum x - 1) 1000%Z = Ok r
    /\ RiskParity.success r = true
    /\ RiskParity.weights res = zip asset_list w
    /\ RiskParity.portfolioVolatility (RiskParity.metrics res) = volatility
    /\ RiskParity.riskContribution (RiskParity.metrics res)
       = zip asset_list
           (map (fun c => c / volatility) (np_multiply (np_matvec cov_matrix w) w))
    /\ (length (RiskParity.x r) = n ->
        Forall (fun v => 0 <= v <= 1) (RiskParity.x r) ->
        0 < np_sum (RiskParity.x r) ->
        map snd (RiskParity.weights res) = w
        /\ np_sum (map snd (RiskParity.weights res)) = 1
        /\ Rabs (np_sum (map snd (RiskParity.weights res)) - 1) <= 1 / 1000000
        /\ Forall (fun v => 0 <= v <= 1) (map snd (RiskParity.weights res))).
Proof.
  intros Hres.
  destruct (optimize_success_inv _ _ _ _ _ _ _ _ body res Hres)
    as (portfolio & cov_matrix & r & Hquery & Hcov & Hcall & Hsuccess & Hw & Hvol & Hrc).
  exists portfolio, cov_matrix, r. cbv zeta.
  split; [exact Hquery|].
  split; [exact Hcall|]. split; [exact Hsuccess|]. split; [exact Hw|].
  split; [exact Hvol|]. split; [exact Hrc|].
  intros Hlen Hbox Hsum.
  assert (Hsnd : map snd (RiskParity.weights res) = RiskParity.normalize (RiskParity.x r)).
  { rewrite Hw. apply snd_zip_short.
    unfold RiskParity.normalize. rewrite length_map. lia. }
  rewrite Hsnd.
  assert (Hone : np_sum (RiskParity.normalize (RiskParity.x r)) = 1)
    by (apply normalize_sum; lra).
  split; [reflexivity|]. split; [exact Hone|]. split.
  - rewrite Hone. replace (1 - 1) with 0 by lra. rewrite Rabs_R0. lra.
  - apply normalize_bounds; [|exact Hsum].
    eapply Forall_impl; [exact Hbox|]. simpl. intros v Hv. lra.
Qed.

(** C9. In every success response of the optimization handler whose reported
    volatility is strictly positive, the reported risk contributions sum to
    the reported volatility (over the reals). *)
Theorem C9_risk_contributions_sum_to_volatility (body : list (string * pyval R))
    (res : RiskParity.optimization_result R) :
  handler body = response.success res ->
  0 < RiskParity.portfolioVolatility (RiskParity.metrics res) ->
  np_sum (map snd (RiskParity.riskContribution (RiskParity.metrics res)))
  = RiskParity.portfolioVolatility (RiskParity.metrics res).
Proof.
  intros Hres Hpos.
  destruct (optimize_success_inv _ _ _ _ _ _ _ _ body res Hres)
    as (portfolio & cov_matrix & r & _ & Hcov & _ & _ & _ & Hvol & Hrc).
  cbv zeta in *. rewrite Hrc, Hvol in *.
  rewrite snd_zip_short.
  - apply risk_contribution_sum. exact Hpos.
  - unfold RiskParity.risk_contribution, RiskParity.marginal_contribution,
      np_multiply, np_matvec.
    rewrite length_map, length_zip_with, length_map. lia.
Qed.
End OptimizerProperties.

Lemma C2_final_weights_normalized_witness :
  exists res : RiskParity.optimization_result R,
    RealScenario.optimize_handler RealScenario.body = response.success res
    /\ map snd (RiskParity.weights res) = [1 / 2; 1 / 2]%R
    /\ np_sum (map snd (RiskParity.weights res)) = 1%R
    /\ Forall (fun v => (0 <= v <= 1)%R) (map snd (RiskParity.weights res)).
Proof.
  assert (Hsuccess : exists res,
             RealScenario.optimize_handler RealScenario.body = response.success res)
    by (eexists; reflexivity).
  destruct Hsuccess as (res & Hsuccess). exists res. split; [exact Hsuccess|].
  destruct (C2_final_weights_normalized _ _ _ _ _ _ _ _ RealScenario.body res Hsuccess)
    as (portfolio & cov_matrix & r & Hquery & Hcall & _ & _ & _ & _ & Hnorm).
  injection Hquery as <-. injection Hcall as <-.
  cbn [RiskParity.x RiskParity.assets RealScenario.portfolio_AB map fst length
       replicate] in Hnorm.
  change (Z.of_nat 2) with 2%Z in Hnorm.
  assert (Hhalf : (1 / 2 / np_sum [1 / 2; 1 / 2] = 1 / 2)%R).
  { rewrite !np_sum_cons, np_sum_nil. lra. }
  destruct Hnorm as (Hw & Hone & _ & Hbox).
  - reflexivity.
  - repeat constructor; lra.
  - rewrite !np_sum_cons, np_sum_nil. lra.
  - rewrite Hhalf in Hw. auto.
Defined.

Lemma C9_risk_contributions_sum_to_volatility_witness :
  exists res : RiskParity.optimization_result R,
    RealScenario.optimize_handler RealScenario.body = response.success res
    /\ (0 < RiskParity.portfolioVolatility (RiskParity.metrics res))%R
    /\ np_sum (map snd (RiskParity.riskContribution (RiskParity.metrics res)))
       = RiskParity.portfolioVolatility (RiskParity.metrics res).
Proof.
  eexists.
  refine ((fun Hsuccess Hpos =>
             conj Hsuccess
               (conj Hpos
                  (C9_risk_contributions_sum_to_volatility _ _ _ _ _ _ _ _
                     RealScenario.body _ Hsuccess Hpos))) _ _).
  - reflexivity.
  - cbn [RiskParity.portfolioVolatility RiskParity.metrics].
    unfold RiskParity.portfolio_volatility. apply sqrt_lt_R0.
    cbv - [Rplus Rminus Rmult Rdiv Rinv Ropp IZR Rlt]. lra.
Defined.

(** ** Percentiles over the reals *)

Section RealOrder.
Local Open Scope R_scope.

Lemma Rleb_le (x y : R) : Rleb x y = true <-> x <= y.
Proof. unfold Rleb. destruct (Rle_dec x y); split; intros; auto; discriminate. Qed.

Lemma Rleb_gt (x y : R) : Rleb x y = false <-> y < x.
Proof.
  unfold Rleb. destruct (Rle_dec x y); split; intros; auto; try discriminate; lra.
Qed.

Lemma is_nan_real (x : R) : is_nan x = false.
Proof. unfold is_nan. simpl. rewrite (proj2 (Rleb_le x x)) by lra. reflexivity. Qed.

Lemma sort_le_real (a b : R) : sort_le a b = Rleb a b.
Proof. unfold sort_le. rewrite is_nan_real. reflexivity. Qed.

Lemma ascending_cons (x : R) (s : list R) :
  Forall (fun y => x <= y) s -> ascending s -> ascending (x :: s).
Proof.
  intros Hx Hs i j a b Hij Ha Hb.
  destruct i as [|i], j as [|j]; simpl in *; try lia.
  - injection Ha as <-. injection Hb as <-. lra.
  - injection Ha as <-. rewrite Forall_forall in Hx.
    apply Hx. eapply list_elem_of_lookup_2. exact Hb.
  - eapply Hs; [|exact Ha|exact Hb]. lia.
Qed.

Lemma ascending_tail (x : R) (s : list R) : ascending (x :: s) -> ascending s.
Proof.
  intros Hs i j a b Hij Ha Hb. apply (Hs (S i) (S j)); [lia | exact Ha | exact Hb].
Qed.

Lemma ascending_head (x : R) (s : list R) :
  ascending (x :: s) -> Forall (fun y => x <= y) s.
Proof.
  intros Hs. apply Forall_forall. intros y Hy.
  apply list_elem_of_lookup_1 in Hy as (j & Hj).
  apply (Hs 0%nat (S j)); [lia | reflexivity | exact Hj].
Qed.

Lemma insert_sorted_Forall (P : R -> Prop) (x : R) (s : list R) :
  P x -> Forall P s -> Forall P (insert_sorted x s).
Proof.
  intros Hx Hs. induction Hs as [|y s Hy Hs IH]; simpl.
  - constructor; [exact Hx | constructor].
  - destruct (sort_le x y); repeat constructor; assumption.
Qed.

Lemma insert_sorted_ascending (x : R) (s : list R) :
  ascending s -> ascending (insert_sorted x s).
Proof.
  induction s as [|y s IH]; intros Hs; simpl.
  - apply ascending_cons; [constructor | exact Hs].
  - rewrite sort_le_real. destruct (Rleb x y) eqn:Hxy.
    + apply Rleb_le in Hxy. apply ascending_cons; [|exact Hs].
      constructor; [exact Hxy|].
      eapply Forall_impl; [apply ascending_head, Hs|]. simpl. intros z Hz. lra.
    + apply Rleb_gt in Hxy. apply ascending_cons.
      * apply insert_sorted_Forall; [lra | apply ascending_head, Hs].
      * apply IH. eapply ascending_tail, Hs.
Qed.

Lemma np_sort_ascending (v : list R) : ascending (np_sort v).
Proof.
  induction v as [|x v IH]; simpl.
  - intros i j a b _ Ha. destruct i; discriminate Ha.
  - apply insert_sorted_ascending, IH.
Qed.

Lemma insert_sorted_length {A : Type} `{Num A} (x : A) (s : list A) :
  length (insert_sorted x s) = S (length s).
Proof.
  induction s as [|y s IH]; simpl; [reflexivity|].
  destruct (sort_le x y); simpl; [reflexivity | rewrite IH; reflexivity].
Qed.

Lemma np_sort_length {A : Type} `{Num A} (v : list A) : length (np_sort v) = length v.
Proof.
  induction v as [|x v IH]; simpl; [reflexivity|].
  rewrite insert_sorted_length, IH. reflexivity.
Qed.
End RealOrder.

Section RealPercentiles.
Local Open Scope R_scope.

Lemma lerp_real (a b t : R) : lerp a b t = a + (b - a) * t.
Proof. unfold lerp. simpl. destruct (Rleb _ t); lra. Qed.

Lemma Int_part_bounds (h : R) (m : Z) :
  0 <= h -> h < IZR m -> (0 <= Int_part h < m)%Z.
Proof.
  intros H0 Hm. destruct (base_Int_part h) as [Hle Hgt]. split.
  - apply Z.lt_succ_r. apply lt_IZR. rewrite succ_IZR. lra.
  - apply lt_IZR. lra.
Qed.

Lemma virtual_index_range (n : nat) (q : Z) :
  (0 < n)%nat -> (0 <= q <= 100)%Z ->
  0 <= virtual_index n q <= IZR (Z.of_nat n - 1).
Proof.
  intros Hn [Hq0 Hq1]. unfold virtual_index.
  assert (0 <= IZR (Z.of_nat n - 1)) by (apply IZR_le; lia).
  assert (0 <= IZR q / IZR 100 <= 1).
  { apply IZR_le in Hq0, Hq1. lra. }
  split; [apply Rmult_le_pos; lra | nra].
Qed.

Lemma virtual_index_mono (n : nat) (q1 q2 : Z) :
  (0 < n)%nat -> (q1 <= q2)%Z -> virtual_index n q1 <= virtual_index n q2.
Proof.
  intros Hn Hq. unfold virtual_index.
  assert (0 <= IZR (Z.of_nat n - 1)) by (apply IZR_le; lia).
  apply IZR_le in Hq. apply Rmult_le_compat_l; lra.
Qed.

(** What [np_percentile] computes over the reals: at or beyond the last
    position the last order statistic, below it the interpolation between
    the order statistics at the floor of the virtual index and after. *)
Lemma np_percentile_real (v : list R) (q : Z) :
  v <> [] -> (0 <= q <= 100)%Z ->
  let s := np_sort v in
  let n := length v in
  let h := virtual_index n q in
  (IZR (Z.of_nat n - 1) <= h
   /\ exists l, s !! (n - 1)%nat = Some l /\ np_percentile v q = Ok l)
  \/ (h < IZR (Z.of_nat n - 1)
      /\ exists (k : nat) (a b : R),
           Int_part h = Z.of_nat k
           /\ s !! k = Some a /\ s !! S k = Some b
           /\ np_percentile v q = Ok (a + (b - a) * (h - IZR (Z.of_nat k)))).
Proof.
  intros Hv Hq. cbv zeta.
  assert (Hn : (0 < length v)%nat) by (destruct v; [congruence | simpl; lia]).
  pose proof (virtual_index_range (length v) q Hn Hq) as [Hh0 Hh1].
  assert (Hlast : exists l, np_sort v !! (length v - 1)%nat = Some l).
  { apply lookup_lt_is_Some. rewrite np_sort_length. lia. }
  destruct Hlast as (l & Hl).
  assert (Hget_last : getitem_py (np_sort v) (-1) = Ok l).
  { apply getitem_py_last. rewrite np_sort_length. exact Hl. }
  unfold np_percentile.
  change (mul (of_Z (Z.of_nat (length v) - 1)) (div (of_Z q) (of_Z 100)))
    with (virtual_index (length v) q).
  set (h := virtual_index (length v) q) in *.
  assert (Hvalid : negb (leb zero (div (of_Z q) (of_Z 100))
                         && leb (div (of_Z q) (of_Z 100)) one) = false).
  { simpl. destruct Hq as [Hq0 Hq1]. apply IZR_le in Hq0, Hq1.
    rewrite (proj2 (Rleb_le _ _)), (proj2 (Rleb_le _ _)) by lra. reflexivity. }
  rewrite Hvalid.
  assert (Hbelow : ltb h zero = false).
  { unfold ltb. simpl. rewrite (proj2 (Rleb_le 0 h)) by lra.
    rewrite andb_false_r. reflexivity. }
  rewrite Hbelow.
  change (leb (of_Z (Z.of_nat (length v) - 1)) h)
    with (Rleb (IZR (Z.of_nat (length v) - 1)) h).
  destruct (Rleb (IZR (Z.of_nat (length v) - 1)) h) eqn:Habove.
  - left. apply Rleb_le in Habove. split; [exact Habove|].
    exists l. split; [exact Hl|].
    rewrite Hget_last. simpl. rewrite is_nan_real, lerp_real. f_equal. lra.
  - right. apply Rleb_gt in Habove. split; [exact Habove|].
    destruct (Int_part_bounds h _ Hh0 Habove) as [Hk0 Hk1].
    change (floor h) with (Int_part h).
    destruct (lookup_lt_is_Some_2 (np_sort v) (Z.to_nat (Int_part h))) as (a & Ha);
      [rewrite np_sort_length; lia|].
    destruct (lookup_lt_is_Some_2 (np_sort v) (S (Z.to_nat (Int_part h)))) as (b & Hb);
      [rewrite np_sort_length; lia|].
    exists (Z.to_nat (Int_part h)), a, b.
    split; [lia|]. split; [exact Ha|]. split; [exact Hb|].
    rewrite (getitem_py_nonneg _ (Int_part h) a) by (lia || exact Ha). simpl.
    rewrite (getitem_py_nonneg _ (Int_part h + 1) b).
    2: lia.
    2:{ replace (Z.to_nat (Int_part h + 1)) with (S (Z.to_nat (Int_part h))) by lia.
        exact Hb. }
    simpl. rewrite Hget_last. simpl. rewrite is_nan_real, lerp_real.
    rewrite Z2Nat.id by lia. reflexivity.
Qed.
End RealPercentiles.

Section PercentileOrder.
Local Open Scope R_scope.

(** Percentiles do not decrease with their index. *)
Lemma np_percentile_monotone (v : list R) (q1 q2 : Z) :
  v <> [] -> (0 <= q1)%Z -> (q1 <= q2)%Z -> (q2 <= 100)%Z ->
  exists p1 p2 : R,
    np_percentile v q1 = Ok p1 /\ np_percentile v q2 = Ok p2 /\ p1 <= p2.
Proof.
  intros Hv H0 H12 H100.
  assert (Hn : (0 < length v)%nat) by (destruct v; [congruence | simpl; lia]).
  pose proof (np_sort_ascending v) as Hasc.
  pose proof (virtual_index_mono (length v) q1 q2 Hn H12) as Hmono.
  destruct (np_percentile_real v q1 Hv ltac:(lia))
    as [(Hab1 & l1 & Hl1 & ->)|(Hin1 & k1 & a1 & b1 & Hk1 & Ha1 & Hb1 & ->)];
    destruct (np_percentile_real v q2 Hv ltac:(lia))
      as [(Hab2 & l2 & Hl2 & ->)|(Hin2 & k2 & a2 & b2 & Hk2 & Ha2 & Hb2 & ->)];
    eexists _, _; (split; [reflexivity|]); (split; [reflexivity|]).
  - rewrite Hl1 in Hl2. injection Hl2 as <-. lra.
  - lra.
  - (* interior, then the last order statistic *)
    set (h1 := virtual_index (length v) q1) in *.
    destruct (base_Int_part h1) as [Hle1 Hgt1]. rewrite Hk1 in Hle1, Hgt1.
    assert (a1 <= b1) by (apply (Hasc k1 (S k1)); [lia | exact Ha1 | exact Hb1]).
    assert (b1 <= l2).
    { apply (Hasc (S k1) (length v - 1)%nat); [|exact Hb1|exact Hl2].
      apply lookup_lt_Some in Hb1. rewrite np_sort_length in Hb1. lia. }
    nra.
  - (* both interior *)
    set (h1 := virtual_index (length v) q1) in *.
    set (h2 := virtual_index (length v) q2) in *.
    destruct (base_Int_part h1) as [Hle1 Hgt1]. rewrite Hk1 in Hle1, Hgt1.
    destruct (base_Int_part h2) as [Hle2 Hgt2]. rewrite Hk2 in Hle2, Hgt2.
    assert (a1 <= b1) by (apply (Hasc k1 (S k1)); [lia | exact Ha1 | exact Hb1]).
    assert (a2 <= b2) by (apply (Hasc k2 (S k2)); [lia | exact Ha2 | exact Hb2]).
    assert (Hk : (k1 <= k2)%nat).
    { apply Nat2Z.inj_le, Z.lt_succ_r, lt_IZR. rewrite succ_IZR. lra. }
    destruct (Nat.eq_dec k1 k2) as [<-|Hne].
    + rewrite Ha1 in Ha2. injection Ha2 as <-.
      rewrite Hb1 in Hb2. injection Hb2 as <-. nra.
    + assert (b1 <= a2) by (apply (Hasc (S k1) k2); [lia | exact Hb1 | exact Ha2]).
      nra.
Qed.

(** C7 (amended). For every non-empty vector of final values that are real
    numbers, in exact arithmetic, the statistics block returns, and the
    percentiles it reports, each the linear interpolation between the two
    order statistics around its virtual index, satisfy
    p5 <= p25 <= p50 <= p75 <= p95. *)
Theorem C7_percentiles_non_decreasing (final_values : list R) :
  final_values <> [] ->
  exists (stats : Simulate.statistics_summary R) (p5 p25 p50 p75 p95 : R),
    Simulate.summarize final_values = Ok stats
    /\ Simulate.percentiles stats
       = [("5", p5); ("25", p25); ("50", p50); ("75", p75); ("95", p95)]%string
    /\ np_percentile final_values 5 = Ok p5
    /\ np_percentile final_values 25 = Ok p25
    /\ np_percentile final_values 50 = Ok p50
    /\ np_percentile final_values 75 = Ok p75
    /\ np_percentile final_values 95 = Ok p95
    /\ p5 <= p25 /\ p25 <= p50 /\ p50 <= p75 /\ p75 <= p95.
Proof.
  intros Hv.
  destruct (np_percentile_monotone final_values 5 25 Hv) as (p5 & p25 & H5 & H25 & ?);
    try lia.
  destruct (np_percentile_monotone final_values 25 50 Hv) as (? & p50 & H25' & H50 & ?);
    try lia.
  destruct (np_percentile_monotone final_values 50 75 Hv) as (? & p75 & H50' & H75 & ?);
    try lia.
  destruct (np_percentile_monotone final_values 75 95 Hv) as (? & p95 & H75' & H95 & ?);
    try lia.
  rewrite H25 in H25'. injection H25' as <-.
  rewrite H50 in H50'. injection H50' as <-.
  rewrite H75 in H75'. injection H75' as <-.
  unfold Simulate.summarize.
  destruct final_values as [|x final_values]; [congruence|].
  rewrite H5, H25, H50, H75, H95. simpl.
  eexists _, p5, p25, p50, p75, p95. repeat split; assumption || reflexivity.
Qed.
End PercentileOrder.

Lemma C7_percentiles_non_decreasing_witness :
  [90; 95; 100; 105; 110]%R <> []
  /\ exists (stats : Simulate.statistics_summary R) (p5 p25 p50 p75 p95 : R),
       Simulate.summarize [90; 95; 100; 105; 110]%R = Ok stats
       /\ Simulate.percentiles stats
          = [("5", p5); ("25", p25); ("50", p50); ("75", p75); ("95", p95)]%string
       /\ (p5 <= p25 /\ p25 <= p50 /\ p50 <= p75 /\ p75 <= p95)%R.
Proof.
  assert (Hne : [90; 95; 100; 105; 110]%R <> []) by discriminate.
  split; [exact Hne|].
  destruct (C7_percentiles_non_decreasing [90; 95; 100; 105; 110]%R Hne)
    as (stats & p5 & p25 & p50 & p75 & p95 & Hs & Hp & _ & _ & _ & _ & _ & Horder).
  exists stats, p5, p25, p50, p75, p95. auto.
Defined.

(** C7 as stated fails in binary64: the one final value NaN is a non-empty
    vector, every percentile of it is NaN, and [NaN <= NaN] is false. A
    request whose initial investment is NaN passes validation and is answered
    with such percentiles. *)
Lemma C7_nan_breaks_percentile_order :
  [nan] <> []
  /\ (exists stats : Simulate.statistics_summary float,
        Simulate.summarize [nan] = Ok stats
        /\ Simulate.percentiles stats
           = [("5", nan); ("25", nan); ("50", nan); ("75", nan); ("95", nan)]%string)
  /\ PrimFloat.leb nan nan = false
  /\ Simulate.validate_request Scenario.nan_body = []
  /\ (exists (res : Simulate.simulation_result float) (g' : scripted float),
        Scenario.simulate_handler Scenario.nan_body Scenario.draws
        = (response.success res, g')
        /\ Simulate.percentiles (Simulate.statistics res)
           = [("5", nan); ("25", nan); ("50", nan); ("75", nan); ("95", nan)]%string).
Proof.
  split; [discriminate|].
  split; [eexists; split; vm_compute; reflexivity|].
  split; [reflexivity|]. split; [vm_compute; reflexivity|].
  eexists _, _. split; vm_compute; reflexivity.
Qed.

(** ** More on the simulator *)

Section SimulatorOverReals.
Local Open Scope R_scope.
Context {G : Type} `{DrawSource G R}.
Import Simulate.

Lemma compound_positive (v : R) (draws : list R) :
  0 < v -> Forall (fun d => -1 < d) draws -> Forall (fun x => 0 < x) (compound v draws).
Proof.
  intros Hv Hd. revert v Hv.
  induction Hd as [|d ds Hd _ IH]; intros v Hv; simpl.
  - repeat constructor. exact Hv.
  - constructor; [exact Hv|]. apply IH. simpl. nra.
Qed.

Lemma compound_scaled (c v : R) (draws : list R) :
  compound (c * v) draws = map (Rmult c) (compound v draws).
Proof.
  revert v. induction draws as [|d ds IH]; intros v; simpl; [reflexivity|].
  f_equal. rewrite <- IH. f_equal. lra.
Qed.

Lemma compound_growth (v : R) (draws : list R) (t : nat) :
  (t <= length draws)%nat ->
  compound v draws !! t = Some (v * growth (take t draws)).
Proof.
  revert v t. induction draws as [|d ds IH]; intros v t Ht.
  - simpl in Ht. replace t with 0%nat by lia. simpl. f_equal. lra.
  - destruct t as [|t]; simpl.
    + f_equal. lra.
    + simpl in Ht. rewrite IH by lia. f_equal. simpl. lra.
Qed.

(** X1. Over the reals: with a positive initial investment and every draw
    above -1 (no period loses the whole value), every value of every
    trajectory is positive. *)
Theorem X1_trajectories_stay_positive
    (weights mean_returns : list R) (cov_matrix : list (list R))
    (initial_investment : R) (num_periods num_simulations : Z) (g : G) :
  (0 <= num_periods)%Z -> (0 <= num_simulations)%Z ->
  0 < initial_investment ->
  (forall draws d,
      draws ∈ fst (draw_batches (portfolio_mean weights mean_returns)
                     (portfolio_volatility weights cov_matrix)
                     (Z.to_nat num_periods) (Z.to_nat num_simulations) g) ->
      d ∈ draws -> -1 < d) ->
  exists (M : list (list R)) (g' : G),
    run_monte_carlo_simulation weights mean_returns cov_matrix
      initial_investment num_periods num_simulations g = (Ok M, g')
    /\ forall row v, row ∈ M -> v ∈ row -> 0 < v.
Proof.
  intros HP HN HI Hdraws.
  pose proof (run_monte_carlo_simulation_spec weights mean_returns cov_matrix
                initial_investment num_periods num_simulations g HP HN) as Hrun.
  simpl in Hrun. eexists _, _. split; [exact Hrun|].
  intros row v Hrow Hv.
  apply list_elem_of_In, in_map_iff in Hrow as (draws & <- & Hin).
  assert (Hd : Forall (fun d => -1 < d) draws).
  { apply Forall_forall. intros d Hd. eapply Hdraws; [|exact Hd].
    apply list_elem_of_In. exact Hin. }
  pose proof (compound_positive initial_investment draws HI Hd) as Hpos.
  rewrite Forall_forall in Hpos. apply Hpos, Hv.
Qed.

(** X2. Over the reals: the trajectories are linear in the initial
    investment. On the same draws, an investment [c] times as large gives
    every value [c] times as large. *)
Theorem X2_trajectories_scale_with_investment
    (weights mean_returns : list R) (cov_matrix : list (list R))
    (initial_investment c : R) (num_periods num_simulations : Z) (g : G) :
  (0 <= num_periods)%Z -> (0 <= num_simulations)%Z ->
  exists (M : list (list R)) (g' : G),
    run_monte_carlo_simulation weights mean_returns cov_matrix
      initial_investment num_periods num_simulations g = (Ok M, g')
    /\ run_monte_carlo_simulation weights mean_returns cov_matrix
         (c * initial_investment) num_periods num_simulations g
       = (Ok (map (map (Rmult c)) M), g').
Proof.
  intros HP HN.
  rewrite !run_monte_carlo_simulation_spec by assumption. simpl.
  eexists _, _. split; [reflexivity|]. f_equal. f_equal.
  rewrite map_map. apply map_ext. intros draws. apply compound_scaled.
Qed.

(** X3. Over the reals: the value of path [i] at step [t] is the initial
    investment times the product of [1 + d] over the first [t] draws of the
    path; its final value, which the statistics are taken of, is the initial
    investment times the growth over all its draws. *)
Theorem X3_values_are_compounded_growth
    (weights mean_returns : list R) (cov_matrix : list (list R))
    (initial_investment : R) (num_periods num_simulations : Z) (g : G) :
  (0 <= num_periods)%Z -> (0 <= num_simulations)%Z ->
  exists (M : list (list R)) (g' : G),
    run_monte_carlo_simulation weights mean_returns cov_matrix
      initial_investment num_periods num_simulations g = (Ok M, g')
    /\ forall (i : nat) (draws : list R),
         fst (draw_batches (portfolio_mean weights mean_returns)
                (portfolio_volatility weights cov_matrix)
                (Z.to_nat num_periods) (Z.to_nat num_simulations) g) !! i = Some draws ->
         exists row,
           M !! i = Some row
           /\ (forall t, (t <= Z.to_nat num_periods)%nat ->
                 row !! t = Some (initial_investment * growth (take t draws)))
           /\ getitem_py row (-1) = Ok (initial_investment * growth draws).
Proof.
  intros HP HN.
  rewrite run_monte_carlo_simulation_spec by assumption. simpl.
  eexists _, _. split; [reflexivity|].
  intros i draws Hdraws.
  assert (Hlen : length draws = Z.to_nat num_periods).
  { eapply draw_batches_sizes, list_elem_of_lookup_2, Hdraws. }
  exists (compound initial_investment draws). split; [|split].
  - rewrite lookup_map, Hdraws. reflexivity.
  - intros t Ht. apply compound_growth. lia.
  - apply getitem_py_last. rewrite compound_length. simpl.
    rewrite Nat.sub_0_r, compound_growth, firstn_all by lia. reflexivity.
Qed.
End SimulatorOverReals.

Ltac split_elem_of :=
  repeat match goal with
         | H : _ ∈ _ :: _ |- _ => apply elem_of_cons in H as [->|H]
         | H : _ ∈ [] |- _ => inversion H
         end.

Lemma X1_trajectories_stay_positive_witness :
  exists (M : list (list R)) (g' : scripted R),
    Simulate.run_monte_carlo_simulation RealDraws.weights RealDraws.mean_returns
      RealDraws.cov_matrix 10000%R 2 1 RealDraws.draws = (Ok M, g')
    /\ forall row v, row ∈ M -> v ∈ row -> (0 < v)%R.
Proof.
  apply (X1_trajectories_stay_positive RealDraws.weights RealDraws.mean_returns
           RealDraws.cov_matrix 10000%R 2 1 RealDraws.draws); try lia; try lra.
  intros draws d Hdraws Hd.
  change (Z.to_nat 2) with 2%nat in Hdraws. change (Z.to_nat 1) with 1%nat in Hdraws.
  cbn in Hdraws. split_elem_of; cbn; lra.
Defined.

Lemma X2_trajectories_scale_with_investment_witness :
  exists (M : list (list R)) (g' : scripted R),
    Simulate.run_monte_carlo_simulation RealDraws.weights RealDraws.mean_returns
      RealDraws.cov_matrix 10000%R 2 1 RealDraws.draws = (Ok M, g')
    /\ Simulate.run_monte_carlo_simulation RealDraws.weights RealDraws.mean_returns
         RealDraws.cov_matrix (3 * 10000)%R 2 1 RealDraws.draws
       = (Ok (map (map (Rmult 3)) M), g').
Proof.
  apply (X2_trajectories_scale_with_investment RealDraws.weights RealDraws.mean_returns
           RealDraws.cov_matrix 10000%R 3%R 2 1 RealDraws.draws); lia.
Defined.

Lemma X3_values_are_compounded_growth_witness :
  exists (M : list (list R)) (g' : scripted R),
    Simulate.run_monte_carlo_simulation RealDraws.weights RealDraws.mean_returns
      RealDraws.cov_matrix 10000%R 2 1 RealDraws.draws = (Ok M, g')
    /\ exists row,
         M !! 0%nat = Some row
         /\ getitem_py row (-1)
            = Ok (10000 * ((1 + 1 / 100) * ((1 + - (1 / 200)) * 1)))%R.
Proof.
  destruct (X3_values_are_compounded_growth RealDraws.weights RealDraws.mean_returns
              RealDraws.cov_matrix 10000%R 2 1 RealDraws.draws
              ltac:(lia) ltac:(lia)) as (M & g' & Hrun & Hrows).
  exists M, g'. split; [exact Hrun|].
  destruct (Hrows 0%nat [1 / 100; - (1 / 200)]%R) as (row & Hrow & _ & Hlast).
  { change (Z.to_nat 2) with 2%nat. change (Z.to_nat 1) with 1%nat. reflexivity. }
  exists row. split; [exact Hrow | exact Hlast].
Defined.

Section SimulatorComposition.
Context {A : Type} `{Num A} {G : Type} `{DrawSource G A}.
Import Simulate.

Lemma draw_batches_app (loc scale : A) (P k1 k2 : nat) (g : G) :
  draw_batches loc scale P (k1 + k2) g
  = (fst (draw_batches loc scale P k1 g)
       ++ fst (draw_batches loc scale P k2 (snd (draw_batches loc scale P k1 g))),
     snd (draw_batches loc scale P k2 (snd (draw_batches loc scale P k1 g)))).
Proof.
  revert g. induction k1 as [|k1 IH]; intros g; simpl.
  - destruct (draw_batches loc scale P k2 g). reflexivity.
  - destruct (normal loc scale P g) as [draws g1].
    rewrite IH.
    destruct (draw_batches loc scale P k1 g1) as [rest g2]. simpl.
    reflexivity.
Qed.

(** X4. The paths of one call can be split over two: simulating
    [n1 + n2] paths gives the matrix of [n1] paths followed by the matrix of
    [n2] paths simulated on the generator the first call left. *)
Theorem X4_simulations_concatenate
    (weights mean_returns : list A) (cov_matrix : list (list A))
    (initial_investment : A) (num_periods n1 n2 : Z) (g : G) :
  0 <= num_periods -> 0 <= n1 -> 0 <= n2 ->
  exists (M1 M2 : list (list A)) (g1 g2 : G),
    run_monte_carlo_simulation weights mean_returns cov_matrix
      initial_investment num_periods n1 g = (Ok M1, g1)
    /\ run_monte_carlo_simulation weights mean_returns cov_matrix
         initial_investment num_periods n2 g1 = (Ok M2, g2)
    /\ run_monte_carlo_simulation weights mean_returns cov_matrix
         initial_investment num_periods (n1 + n2) g = (Ok (M1 ++ M2), g2).
Proof.
  intros HP H1 H2.
  eexists _, _, _, _.
  split; [apply run_monte_carlo_simulation_spec; lia|].
  split; [apply run_monte_carlo_simulation_spec; lia|].
  rewrite run_monte_carlo_simulation_spec by lia. simpl.
  rewrite Z2Nat.inj_add by lia. rewrite draw_batches_app. simpl.
  rewrite map_app. reflexivity.
Qed.

(** X5. The simulator returns a matrix exactly when neither dimension is
    negative; otherwise it raises before it draws, and hands the generator
    back as it was. *)
Theorem X5_simulator_fails_on_negative_dimensions_only
    (weights mean_returns : list A) (cov_matrix : list (list A))
    (initial_investment : A) (num_periods num_simulations : Z) (g : G) :
  ((0 <= num_periods /\ 0 <= num_simulations) <->
   exists M g', run_monte_carlo_simulation weights mean_returns cov_matrix
                  initial_investment num_periods num_simulations g = (Ok M, g'))
  /\ ((num_periods < 0 \/ num_simulations < 0) <->
      exists e, run_monte_carlo_simulation weights mean_returns cov_matrix
                  initial_investment num_periods num_simulations g = (Raise e, g)).
Proof.
  assert (Hbad : num_periods < 0 \/ num_simulations < 0 ->
                 exists e, run_monte_carlo_simulation weights mean_returns cov_matrix
                             initial_investment num_periods num_simulations g
                           = (Raise e, g)).
  { intros Hneg. unfold run_monte_carlo_simulation, np_zeros, set_column.
    destruct (Z.ltb_spec num_simulations 0); simpl; [eexists; reflexivity|].
    destruct (Z.ltb_spec (num_periods + 1) 0); simpl; [eexists; reflexivity|].
    destruct (Nat.ltb_spec 0 (Z.to_nat (num_periods + 1))); [lia|].
    eexists; reflexivity. }
  split; split.
  - intros [HP HN]. rewrite run_monte_carlo_simulation_spec by assumption.
    simpl. eexists _, _. reflexivity.
  - intros (M & g' & Hrun).
    destruct (Z_lt_le_dec num_periods 0) as [HP|HP];
      [|destruct (Z_lt_le_dec num_simulations 0) as [HN|HN]; [|lia]].
    + destruct (Hbad (or_introl HP)) as (e & He). congruence.
    + destruct (Hbad (or_intror HN)) as (e & He). congruence.
  - exact Hbad.
  - intros (e & He).
    destruct (Z_lt_le_dec num_periods 0) as [HP|HP]; [lia|].
    destruct (Z_lt_le_dec num_simulations 0) as [HN|HN]; [lia|].
    rewrite run_monte_carlo_simulation_spec in He by assumption. discriminate.
Qed.
End SimulatorComposition.

Lemma X4_simulations_concatenate_witness :
  exists (M1 M2 : list (list float)) (g1 g2 : scripted float),
    Simulate.run_monte_carlo_simulation Scenario.weights Scenario.mean_returns
      Scenario.cov_matrix 10000%float 1 1 Scenario.draws = (Ok M1, g1)
    /\ Simulate.run_monte_carlo_simulation Scenario.weights Scenario.mean_returns
         Scenario.cov_matrix 10000%float 1 1 g1 = (Ok M2, g2)
    /\ Simulate.run_monte_carlo_simulation Scenario.weights Scenario.mean_returns
         Scenario.cov_matrix 10000%float 1 (1 + 1) Scenario.draws = (Ok (M1 ++ M2), g2).
Proof.
  apply (X4_simulations_concatenate Scenario.weights Scenario.mean_returns
           Scenario.cov_matrix 10000%float 1 1 1 Scenario.draws); lia.
Defined.

(** ** More on validation and on the handlers *)

Section ValidationAcceptance.
Context {A : Type} `{Num A}.

Lemma parameter_check (of_type : pyval A -> bool) (v : pyval A) :
  negb (is_none v) && (negb (of_type v) || le_zero v) = false
  <-> parameter_accepted of_type v.
Proof.
  unfold parameter_accepted. split.
  - intros Hcheck. destruct (is_none v) eqn:Hnone.
    + left. destruct v; try discriminate. reflexivity.
    + right. simpl in Hcheck. apply orb_false_elim in Hcheck as [Htype Hle].
      apply negb_false_iff in Htype. auto.
  - intros [->|[-> ->]]; [reflexivity|].
    rewrite andb_false_r. reflexivity.
Qed.

Lemma simulate_request_accepted (body : list (string * pyval A)) :
  Simulate.validate_request body = [] <->
  required_fields_accepted body
  /\ parameter_accepted isinstance_int_float (dict_get body "initialInvestment")
  /\ parameter_accepted isinstance_int (dict_get body "numSimulations")
  /\ parameter_accepted isinstance_int (dict_get body "numPeriods").
Proof.
  unfold required_fields_accepted.
  rewrite <- check_required_nil_iff, <- !parameter_check.
  unfold Simulate.validate_request.
  destruct (check_required body) as [|e errors].
  - repeat match goal with
           | |- context [if ?c then _ else _] => destruct c
           end; simpl; split; try discriminate; intuition discriminate.
  - split; [|intros [Habs _]; discriminate].
    repeat match goal with
           | |- context [if ?c then _ else _] => destruct c
           end; simpl; discriminate.
Qed.

(** X6. [validate_request] of the simulation handler returns no error
    exactly for the bodies in which [portfolioId] is truthy, [returns] is a
    non-empty dictionary whose values are lists of numbers, and each of
    [initialInvestment], [numSimulations] and [numPeriods] is absent, [None],
    or of its type (a number; an integer) and not [<= 0]. *)
Theorem X6_simulation_request_accepted_iff (body : list (string * pyval A)) :
  Simulate.validate_request body = [] <->
  (truthy (dict_get body "portfolioId") = true
   /\ exists d, dict_get body "returns" = PDict d /\ d <> []
                /\ forallb series_well_typed d = true)
  /\ parameter_accepted isinstance_int_float (dict_get body "initialInvestment")
  /\ parameter_accepted isinstance_int (dict_get body "numSimulations")
  /\ parameter_accepted isinstance_int (dict_get body "numPeriods").
Proof. exact (simulate_request_accepted body). Qed.

(** X7. [validate_request] of the optimization handler returns no error
    exactly for the bodies in which [portfolioId] is truthy and [returns] is
    a non-empty dictionary whose values are lists of numbers; every body the
    simulation handler accepts, the optimization handler accepts. *)
Theorem X7_optimization_request_accepted_iff (body : list (string * pyval A)) :
  (RiskParity.validate_request body = [] <-> required_fields_accepted body)
  /\ (Simulate.validate_request body = [] -> RiskParity.validate_request body = []).
Proof.
  split; [apply check_required_nil_iff|].
  unfold RiskParity.validate_request. intros Hsim.
  destruct (check_required body) eqn:Hreq; [reflexivity|].
  exfalso. apply (simulate_errors_of_required body); [rewrite Hreq; discriminate|].
  exact Hsim.
Qed.
End ValidationAcceptance.

Lemma accepted_int_positive {A : Type} `{Num A} (body : list (string * pyval A))
    (key : string) (default n : Z) :
  parameter_accepted isinstance_int (dict_get body key) ->
  0 < default ->
  as_int (dict_get_default body key (PInt default)) = Ok n ->
  0 < n.
Proof.
  intros Hacc Hdefault Hn.
  destruct (dict_get_default_spec body key (PInt default)) as [Heq|[_ Heq]];
    rewrite Heq in Hn.
  - destruct Hacc as [Hnone|[Htype Hle]]; [rewrite Hnone in Hn; discriminate|].
    destruct (dict_get body key) as [|b|z| | | |]; try discriminate Hn;
      simpl in Hn, Hle; injection Hn as <-.
    apply Z.leb_gt in Hle. exact Hle.
  - injection Hn as <-. exact Hdefault.
Qed.

Lemma np_array_one_length {A : Type} (rows m : list (list A)) :
  np_array rows = Ok m ->
  exists L : nat, Forall (fun row => length row = L) rows.
Proof.
  unfold np_array. destruct rows as [|r rs]; [exists 0%nat; constructor|].
  destruct (forallb _ rs) eqn:Hall; [|discriminate]. intros _.
  exists (length r). constructor; [reflexivity|].
  apply Forall_forall. intros row Hrow.
  rewrite forallb_forall in Hall.
  apply Nat.eqb_eq, Hall, list_elem_of_In, Hrow.
Qed.

Lemma mapM_result_Forall2 {X Y : Type} (f : X -> result Y) (l : list X) (k : list Y) :
  mapM f l = Ok k -> Forall2 (fun x y => f x = Ok y) l k.
Proof.
  revert k. induction l as [|x l IH]; intros k; simpl.
  - intros Hk. injection Hk as <-. constructor.
  - intros Hk. invert_binds.
    match goal with E : mret _ = Ok k |- _ => injection E as <- end.
    constructor; [assumption | apply IH; assumption].
Qed.

Section SimulationResponses.
Context {A : Type} `{Num A} {G : Type} `{DrawSource G A}.
Variable PORTFOLIO_TABLE SIMULATION_RESULT_TABLE : string.
Variable query_by_id : string -> pyval A -> result (option (Simulate.portfolio A)).
Variable put_item : string -> Simulate.simulation_result A -> result unit.
Variable str : pyval A -> string.
Variable uuid4 utcnow : string.

Let handler := Simulate.lambda_handler PORTFOLIO_TABLE SIMULATION_RESULT_TABLE
                 query_by_id put_item str uuid4 utcnow.

(** What a success response of the simulation handler says of the request,
    of the stored portfolio and of the item that was stored. *)
Lemma simulate_success_request (body : list (string * pyval A)) (g g' : G)
    (res : Simulate.simulation_result A) :
  handler body g = (response.success res, g') ->
  exists (portfolio : Simulate.portfolio A) (rows : list (list A)),
    Simulate.validate_request body = []
    /\ query_by_id PORTFOLIO_TABLE (dict_get body "portfolioId") = Ok (Some portfolio)
    /\ filter (fun asset =>
                 negb (dict_contains
                         (items (dict_get_default body "returns" (PDict []))) asset))
         (map fst (Simulate.assets portfolio)) = []
    /\ mapM (fun asset =>
               as_floats (dict_get (items (dict_get_default body "returns" (PDict [])))
                            asset))
         (map fst (Simulate.assets portfolio)) = Ok rows
    /\ np_array rows = Ok rows
    /\ rows <> []
    /\ put_item SIMULATION_RESULT_TABLE res = Ok tt
    /\ Simulate.id res = uuid4
    /\ Simulate.createdAt res = utcnow
    /\ Simulate.portfolioId res = dict_get body "portfolioId"
    /\ Simulate.parameters res
       = {| Simulate.initialInvestment :=
              dict_get_default body "initialInvestment" (PInt 10000);
            Simulate.numSimulations := dict_get_default body "numSimulations" (PInt 1000);
            Simulate.numPeriods := dict_get_default body "numPeriods" (PInt 252) |}.
Proof.
  unfold handler, Simulate.lambda_handler.
  destruct (Simulate.validate_request body) eqn:Hval; [|discriminate].
  destruct (query_by_id _ _) as [[portfolio|]|e] eqn:Hquery; [|discriminate|discriminate].
  destruct (filter _ _) eqn:Hmissing; [|discriminate].
  destruct (mbind _ _) as [[[[[[weights mean_returns] cov_matrix] investment] periods]
                             simulations]|e] eqn:Hprep; [|discriminate].
  destruct (Simulate.run_monte_carlo_simulation _ _ _ _ _ _ g) as [simulated g1] eqn:Hrun.
  destruct (mbind _ simulated) as [r|e] eqn:Hpost; [|discriminate].
  intros Hres. injection Hres as Hr ->. subst r.
  invert_binds. subst.
  match goal with
  | Harr : np_array ?rows = Ok ?m |- _ =>
      pose proof (np_array_Ok _ _ Harr); subst m
  end.
  exists portfolio. eexists. repeat split; try eassumption; try reflexivity.
  - intros ->.
    match goal with Hm : np_mean_axis1 [] = Ok _ |- _ => discriminate Hm end.
  - match goal with Hp : put_item _ _ = Ok ?u |- _ => destruct u; exact Hp end.
Qed.

(** X8. A success response of the simulation handler has the shape the
    request asks for: with [n] and [p] the request's [numSimulations] and
    [numPeriods], 1000 and 252 where the request has none, both are positive,
    the response echoes them, and [trajectories] has [n] rows of [p + 1]
    columns. *)
Theorem X8_success_shape_follows_request (body : list (string * pyval A)) (g g' : G)
    (res : Simulate.simulation_result A) :
  handler body g = (response.success res, g') ->
  exists n p : Z,
    Simulate.numSimulations (Simulate.parameters res)
    = dict_get_default body "numSimulations" (PInt 1000)
    /\ Simulate.numPeriods (Simulate.parameters res)
       = dict_get_default body "numPeriods" (PInt 252)
    /\ as_int (Simulate.numSimulations (Simulate.parameters res)) = Ok n
    /\ as_int (Simulate.numPeriods (Simulate.parameters res)) = Ok p
    /\ 0 < n /\ 0 < p
    /\ Z.of_nat (length (Simulate.trajectories res)) = n
    /\ forall row, row ∈ Simulate.trajectories res -> Z.of_nat (length row) = p + 1.
Proof.
  intros Hres.
  destruct (simulate_success_request body g g' res Hres)
    as (portfolio & rows & Hval & _ & _ & _ & _ & _ & _ & _ & _ & _ & Hparams).
  destruct (simulate_success_inv _ _ _ _ _ _ _ body g g' res Hres)
    as (weights & mean_returns & cov_matrix & investment & p & n & final_values
        & _ & _ & Hp & Hn & Hrun & _).
  apply simulate_request_accepted in Hval as (_ & _ & Hsims & Hperiods).
  pose proof (accepted_int_positive body _ 1000 n Hsims ltac:(lia) Hn) as Hnpos.
  pose proof (accepted_int_positive body _ 252 p Hperiods ltac:(lia) Hp) as Hppos.
  exists n, p. rewrite Hparams. simpl.
  repeat split; try assumption; try reflexivity.
  - rewrite run_monte_carlo_simulation_spec in Hrun by lia. simpl in Hrun.
    injection Hrun as <- _. rewrite length_map, draw_batches_length. lia.
  - rewrite run_monte_carlo_simulation_spec in Hrun by lia. simpl in Hrun.
    injection Hrun as <- _. intros row Hrow.
    apply list_elem_of_In, in_map_iff in Hrow as (draws & <- & Hin).
    rewrite compound_length.
    rewrite (draw_batches_sizes _ _ _ _ _ draws) by (apply list_elem_of_In, Hin). lia.
Qed.

(** X9. A success response of the simulation handler is possible only when
    the stored portfolio holds at least one asset and the request gives, for
    every asset of the portfolio, a list of returns, all these lists of one
    length: series of different lengths never end in a success. *)
Theorem X9_success_needs_aligned_series (body : list (string * pyval A)) (g g' : G)
    (res : Simulate.simulation_result A) :
  handler body g = (response.success res, g') ->
  exists (portfolio : Simulate.portfolio A) (L : nat),
    query_by_id PORTFOLIO_TABLE (dict_get body "portfolioId") = Ok (Some portfolio)
    /\ Simulate.assets portfolio <> []
    /\ forall asset, asset ∈ map fst (Simulate.assets portfolio) ->
         exists series : list (pyval A),
           dict_get (items (dict_get body "returns")) asset = PList series
           /\ length series = L.
Proof.
  intros Hres.
  destruct (simulate_success_request body g g' res Hres)
    as (portfolio & rows & Hval & Hquery & _ & Hrows & Harr & Hne & _).
  destruct (np_array_one_length rows rows Harr) as (L & Hlen).
  exists portfolio, L. split; [exact Hquery|]. split.
  - intros Hassets. rewrite Hassets in Hrows. simpl in Hrows.
    injection Hrows as <-. congruence.
  - apply simulate_request_accepted in Hval as ((_ & d & Hd & _) & _).
    assert (Hreturns : dict_get_default body "returns" (PDict []) = dict_get body "returns").
    { destruct (dict_get_default_spec body "returns" (PDict [])) as [Heq|[Hnone _]];
        [exact Heq | congruence]. }
    rewrite Hreturns in Hrows.
    apply mapM_result_Forall2 in Hrows.
    intros asset Hasset.
    apply list_elem_of_lookup_1 in Hasset as (i & Hi).
    destruct (Forall2_lookup_l _ _ _ _ _ Hrows Hi) as (row & Hrow & Hfloats).
    unfold as_floats in Hfloats.
    destruct (dict_get (items (dict_get body "returns")) asset) as [| | | | |series|];
      try discriminate.
    exists series. split; [reflexivity|].
    apply mapM_result_length in Hfloats. rewrite <- Hfloats.
    rewrite Forall_forall in Hlen. eapply Hlen, list_elem_of_lookup_2, Hrow.
Qed.
End SimulationResponses.

Lemma X8_success_shape_follows_request_witness :
  exists (res : Simulate.simulation_result float) (g' : scripted float),
    Scenario.simulate_handler Scenario.sound_body Scenario.draws = (response.success res, g')
    /\ Z.of_nat (length (Simulate.trajectories res)) = 1
    /\ forall row, row ∈ Simulate.trajectories res -> Z.of_nat (length row) = 2 + 1.
Proof.
  assert (Hsuccess : exists res g',
             Scenario.simulate_handler Scenario.sound_body Scenario.draws
             = (response.success res, g'))
    by (eexists _, _; vm_compute; reflexivity).
  destruct Hsuccess as (res & g' & Hsuccess).
  exists res, g'. split; [exact Hsuccess|].
  destruct (X8_success_shape_follows_request _ _ _ _ _ _ _
              Scenario.sound_body Scenario.draws g' res Hsuccess)
    as (n & p & Hn & Hp & Hn' & Hp' & _ & _ & Hrows & Hcols).
  rewrite Hn in Hn'. rewrite Hp in Hp'.
  injection Hn' as <-. injection Hp' as <-. split; assumption.
Defined.

Lemma X9_success_needs_aligned_series_witness :
  exists (res : Simulate.simulation_result float) (g' : scripted float),
    Scenario.simulate_handler Scenario.sound_body Scenario.draws = (response.success res, g')
    /\ exists L : nat,
         forall asset, asset ∈ ["A"; "B"]%string ->
           exists series : list (pyval float),
             dict_get (items (dict_get Scenario.sound_body "returns")) asset = PList series
             /\ length series = L.
Proof.
  assert (Hsuccess : exists res g',
             Scenario.simulate_handler Scenario.sound_body Scenario.draws
             = (response.success res, g'))
    by (eexists _, _; vm_compute; reflexivity).
  destruct Hsuccess as (res & g' & Hsuccess).
  exists res, g'. split; [exact Hsuccess|].
  destruct (X9_success_needs_aligned_series _ _ _ _ _ _ _
              Scenario.sound_body Scenario.draws g' res Hsuccess)
    as (portfolio & L & Hquery & _ & Hseries).
  injection Hquery as <-. exists L. exact Hseries.
Defined.

Section HandlerOutcomes.
Context {A : Type} `{Num A} {G : Type} `{DrawSource G A}.

Lemma simulation_outcome portfolio_table result_table query_by_id put_item
    str uuid4 utcnow (body : list (string * pyval A)) (g : G) :
  let r := fst (Simulate.lambda_handler portfolio_table result_table query_by_id
                  put_item str uuid4 utcnow body g) in
  In (response.statusCode r, response.error_code r) simulation_outcomes
  /\ response.headers r = response.default_headers.
Proof.
  unfold Simulate.lambda_handler. case_handler; simpl; tauto.
Qed.

Lemma optimization_outcome portfolio_table result_table query_by_id put_item
    minimize str uuid4 utcnow (body : list (string * pyval A)) :
  let r := RiskParity.lambda_handler portfolio_table result_table query_by_id
             put_item minimize str uuid4 utcnow body in
  In (response.statusCode r, response.error_code r) optimization_outcomes
  /\ response.headers r = response.default_headers.
Proof.
  unfold RiskParity.lambda_handler. case_handler; simpl; tauto.
Qed.

(** X10. Whatever the request, the tables, the solver and the draw source,
    a handler answers with the default headers and with a status code and an
    error code that agree: 200 and a result, 400 and VALIDATION_ERROR, 404 and
    NOT_FOUND, 500 and INTERNAL_SERVER_ERROR, and for the optimization
    handler also 500 and OPTIMIZATION_ERROR. In particular the status is 200
    exactly when the body is a result. *)
Theorem X10_status_and_error_code_agree :
  (forall portfolio_table result_table query_by_id put_item str uuid4 utcnow
          (body : list (string * pyval A)) (g : G),
      let r := fst (Simulate.lambda_handler portfolio_table result_table query_by_id
                      put_item str uuid4 utcnow body g) in
      In (response.statusCode r, response.error_code r) simulation_outcomes
      /\ response.headers r = response.default_headers
      /\ (response.statusCode r = 200 <-> response.error_code r = None))
  /\ (forall portfolio_table result_table query_by_id put_item minimize
             str uuid4 utcnow (body : list (string * pyval A)),
         let r := RiskParity.lambda_handler portfolio_table result_table query_by_id
                    put_item minimize str uuid4 utcnow body in
         In (response.statusCode r, response.error_code r) optimization_outcomes
         /\ response.headers r = response.default_headers
         /\ (response.statusCode r = 200 <-> response.error_code r = None)).
Proof.
  split; intros; subst r.
  - set (handled := fst (Simulate.lambda_handler portfolio_table result_table
                           query_by_id put_item str uuid4 utcnow body g)).
    destruct (simulation_outcome portfolio_table result_table query_by_id put_item
                str uuid4 utcnow body g) as [Hin Hheaders].
    fold handled in Hin, Hheaders.
    cbv zeta in Hin, Hheaders. split; [exact Hin|]. split; [exact Hheaders|].
    revert Hin. generalize (response.statusCode handled), (response.error_code handled).
    intros status code Hin. simpl in Hin.
    split; intros ->; intuition congruence.
  - set (handled := RiskParity.lambda_handler portfolio_table result_table
                      query_by_id put_item minimize str uuid4 utcnow body).
    destruct (optimization_outcome portfolio_table result_table query_by_id put_item
                minimize str uuid4 utcnow body) as [Hin Hheaders].
    fold handled in Hin, Hheaders.
    cbv zeta in Hin, Hheaders. split; [exact Hin|]. split; [exact Hheaders|].
    revert Hin. generalize (response.statusCode handled), (response.error_code handled).
    intros status code Hin. simpl in Hin.
    split; intros ->; intuition congruence.
Qed.

Lemma simulation_details portfolio_table result_table query_by_id put_item
    str uuid4 utcnow (body : list (string * pyval A)) (g : G) (e : response.error_info) :
  response.body (fst (Simulate.lambda_handler portfolio_table result_table query_by_id
                        put_item str uuid4 utcnow body g)) = response.Error e ->
  (response.code e = "VALIDATION_ERROR"%string
   /\ exists errors, response.details e = Some errors /\ errors <> [])
  \/ (response.code e <> "VALIDATION_ERROR"%string /\ response.details e = None).
Proof.
  unfold Simulate.lambda_handler. case_handler; simpl;
    intros He; try discriminate He; injection He as <-; simpl;
    try (right; split; [discriminate | reflexivity]);
    left; (split; [reflexivity|]); eexists; (split; [reflexivity | discriminate]).
Qed.

Lemma optimization_details portfolio_table result_table query_by_id put_item
    minimize str uuid4 utcnow (body : list (string * pyval A))
    (e : response.error_info) :
  response.body (RiskParity.lambda_handler portfolio_table result_table query_by_id
                   put_item minimize str uuid4 utcnow body) = response.Error e ->
  (response.code e = "VALIDATION_ERROR"%string
   /\ exists errors, response.details e = Some errors /\ errors <> [])
  \/ (response.code e <> "VALIDATION_ERROR"%string /\ response.details e = None).
Proof.
  unfold RiskParity.lambda_handler. case_handler; simpl;
    intros He; try discriminate He; injection He as <-; simpl;
    try (right; split; [discriminate | reflexivity]);
    left; (split; [reflexivity|]); eexists; (split; [reflexivity | discriminate]).
Qed.

(** X11. An error answer of either handler carries [details] exactly when
    its code is VALIDATION_ERROR, and the details then list at least one
    error; NOT_FOUND, OPTIMIZATION_ERROR and INTERNAL_SERVER_ERROR answers
    have a code and a message only. *)
Theorem X11_details_accompany_validation_errors :
  (forall portfolio_table result_table query_by_id put_item str uuid4 utcnow
          (body : list (string * pyval A)) (g : G) (e : response.error_info),
      response.body (fst (Simulate.lambda_handler portfolio_table result_table
                            query_by_id put_item str uuid4 utcnow body g))
      = response.Error e ->
      (response.code e = "VALIDATION_ERROR"%string
       <-> exists errors, response.details e = Some errors /\ errors <> [])
      /\ (response.code e <> "VALIDATION_ERROR"%string <-> response.details e = None))
  /\ (forall portfolio_table result_table query_by_id put_item minimize
             str uuid4 utcnow (body : list (string * pyval A))
             (e : response.error_info),
         response.body (RiskParity.lambda_handler portfolio_table result_table
                          query_by_id put_item minimize str uuid4 utcnow body)
         = response.Error e ->
         (response.code e = "VALIDATION_ERROR"%string
          <-> exists errors, response.details e = Some errors /\ errors <> [])
         /\ (response.code e <> "VALIDATION_ERROR"%string
             <-> response.details e = None)).
Proof.
  split; intros until e; intros He.
  - destruct (simulation_details _ _ _ _ _ _ _ _ _ _ He)
      as [(Hcode & errors & Hd & Hne)|(Hcode & Hd)].
    + split; split; intros; try congruence; eauto.
    + split; split; intros Hc; try congruence; try tauto.
      destruct Hc as (errors & Hd' & _). congruence.
  - destruct (optimization_details _ _ _ _ _ _ _ _ _ _ He)
      as [(Hcode & errors & Hd & Hne)|(Hcode & Hd)].
    + split; split; intros; try congruence; eauto.
    + split; split; intros Hc; try congruence; try tauto.
      destruct Hc as (errors & Hd' & _). congruence.
Qed.

(** X12. A stored portfolio without assets is not refused by validation: a
    request that [validate_request] accepts, for a portfolio whose [assets]
    is empty, ends in the [except] clause of either handler, status 500 and
    INTERNAL_SERVER_ERROR, with the draw source untouched. *)
Theorem X12_portfolio_without_assets_is_an_internal_error
    portfolio_table simulation_table optimization_table query_simulate put_simulate
    query_optimize put_optimize minimize str uuid4 utcnow
    (body : list (string * pyval A)) (g : G) :
  Simulate.validate_request body = [] ->
  query_simulate portfolio_table (dict_get body "portfolioId")
  = Ok (Some {| Simulate.assets := [] |}) ->
  query_optimize portfolio_table (dict_get body "portfolioId")
  = Ok (Some {| RiskParity.assets := [] |}) ->
  (let r := Simulate.lambda_handler portfolio_table simulation_table query_simulate
              put_simulate str uuid4 utcnow body g in
   response.statusCode (fst r) = 500
   /\ response.error_code (fst r) = Some "INTERNAL_SERVER_ERROR"%string
   /\ snd r = g)
  /\ (let r := RiskParity.lambda_handler portfolio_table optimization_table query_optimize
                 put_optimize minimize str uuid4 utcnow body in
      response.statusCode r = 500
      /\ response.error_code r = Some "INTERNAL_SERVER_ERROR"%string).
Proof.
  intros Hval Hsim Hopt. split; cbv zeta.
  - unfold Simulate.lambda_handler. rewrite Hval, Hsim. simpl. auto.
  - assert (Hval' : RiskParity.validate_request body = []).
    { unfold RiskParity.validate_request.
      destruct (check_required body) eqn:Hreq; [reflexivity|].
      exfalso. apply (simulate_errors_of_required body); [rewrite Hreq; discriminate|].
      exact Hval. }
    unfold RiskParity.lambda_handler. rewrite Hval', Hopt. simpl. auto.
Qed.
End HandlerOutcomes.

Lemma X12_portfolio_without_assets_is_an_internal_error_witness :
  response.error_code
    (fst (Simulate.lambda_handler "portfolios" "simulation-results"
            (fun _ _ => Ok (Some {| Simulate.assets := [] |})) (fun _ _ => Ok tt)
            Scenario.str_of "result-1" "2024-01-01T00:00:00"
            Scenario.sound_body Scenario.draws))
  = Some "INTERNAL_SERVER_ERROR"%string
  /\ response.error_code
       (RiskParity.lambda_handler "portfolios" "optimization-results"
          (fun _ _ => Ok (Some {| RiskParity.assets := [] |})) (fun _ _ => Ok tt)
          Scenario.minimize_at_start Scenario.str_of "result-1" "2024-01-01T00:00:00"
          Scenario.sound_body)
     = Some "INTERNAL_SERVER_ERROR"%string.
Proof.
  destruct (X12_portfolio_without_assets_is_an_internal_error
              "portfolios" "simulation-results" "optimization-results"
              (fun _ _ => Ok (Some {| Simulate.assets := [] |})) (fun _ _ => Ok tt)
              (fun _ _ => Ok (Some {| RiskParity.assets := [] |})) (fun _ _ => Ok tt)
              Scenario.minimize_at_start Scenario.str_of "result-1" "2024-01-01T00:00:00"
              Scenario.sound_body Scenario.draws)
    as [(_ & Hsim & _) (_ & Hopt)]; try reflexivity.
  split; [exact Hsim|exact Hopt].
Defined.

(** ** The risk-parity objective *)

Section ObjectiveOverReals.
Local Open Scope R_scope.
Import RiskParity.

Lemma np_sum_times (c : R) (l : list R) :
  np_sum (map (Rmult c) l) = c * np_sum l.
Proof.
  induction l as [|x l IH]; simpl.
  - rewrite np_sum_nil. lra.
  - rewrite !np_sum_cons, IH. lra.
Qed.

Lemma np_multiply_times_l (c : R) (a b : list R) :
  np_multiply (map (Rmult c) a) b = map (Rmult c) (np_multiply a b).
Proof.
  unfold np_multiply. revert b.
  induction a as [|x a IH]; intros [|y b]; simpl; try reflexivity.
  rewrite IH. f_equal. lra.
Qed.

Lemma np_multiply_times_r (c : R) (a b : list R) :
  np_multiply a (map (Rmult c) b) = map (Rmult c) (np_multiply a b).
Proof.
  rewrite np_multiply_comm, np_multiply_times_l, np_multiply_comm. reflexivity.
Qed.

Lemma np_dot_times_r (c : R) (a b : list R) :
  np_dot a (map (Rmult c) b) = c * np_dot a b.
Proof. unfold np_dot. rewrite np_multiply_times_r, np_sum_times. reflexivity. Qed.

Lemma np_dot_times_l (c : R) (a b : list R) :
  np_dot (map (Rmult c) a) b = c * np_dot a b.
Proof. unfold np_dot. rewrite np_multiply_times_l, np_sum_times. reflexivity. Qed.

Lemma np_matvec_times (c : R) (m : list (list R)) (w : list R) :
  np_matvec m (map (Rmult c) w) = map (Rmult c) (np_matvec m w).
Proof.
  unfold np_matvec. rewrite map_map. apply map_ext. intros row.
  apply np_dot_times_r.
Qed.

Lemma portfolio_variance_times (c : R) (cov_matrix : list (list R)) (w : list R) :
  portfolio_variance cov_matrix (map (Rmult c) w)
  = c * c * portfolio_variance cov_matrix w.
Proof.
  unfold portfolio_variance.
  rewrite np_matvec_times, np_dot_times_l, np_dot_times_r. lra.
Qed.

Lemma portfolio_volatility_times (c : R) (cov_matrix : list (list R)) (w : list R) :
  0 <= c ->
  portfolio_volatility cov_matrix (map (Rmult c) w)
  = c * portfolio_volatility cov_matrix w.
Proof.
  intros Hc. unfold portfolio_volatility. rewrite portfolio_variance_times. simpl.
  rewrite sqrt_mult_alt by nra. rewrite sqrt_square by exact Hc. reflexivity.
Qed.

Lemma risk_contribution_times (c : R) (cov_matrix : list (list R)) (w : list R) :
  0 < c ->
  risk_contribution cov_matrix (map (Rmult c) w)
  = map (Rmult c) (risk_contribution cov_matrix w).
Proof.
  intros Hc. unfold risk_contribution, marginal_contribution.
  rewrite portfolio_volatility_times by lra.
  rewrite np_matvec_times, np_multiply_times_l, np_multiply_times_r.
  rewrite !map_map. apply map_ext. intros v. simpl.
  unfold Rdiv. rewrite Rinv_mult.
  generalize (/ R_sqrt.sqrt (portfolio_variance cov_matrix w)). intros i.
  replace (c * (c * v) * (/ c * i)) with (c * / c * (c * (v * i))) by ring.
  rewrite Rinv_r by lra. ring.
Qed.

(** The objective is the sum, over the reported risk contributions, of the
    squared distance to the reported volatility divided by the number of
    weights. *)
Lemma risk_parity_objective_report (w : list R) (cov_matrix : list (list R)) :
  risk_parity_objective w cov_matrix
  = np_sum (map (fun rc => (rc - portfolio_volatility cov_matrix w
                                 / IZR (Z.of_nat (length w)))
                           * (rc - portfolio_volatility cov_matrix w
                                   / IZR (Z.of_nat (length w))))
                (risk_contribution cov_matrix w)).
Proof. reflexivity. Qed.

Lemma np_sum_squares_nonneg (f : R -> R) (l : list R) :
  0 <= np_sum (map (fun v => f v * f v) l).
Proof.
  apply np_sum_nonneg, Forall_forall. intros s Hs.
  apply list_elem_of_In, in_map_iff in Hs as (v & <- & _). nra.
Qed.

Lemma np_sum_squares_zero (f : R -> R) (l : list R) :
  np_sum (map (fun v => f v * f v) l) = 0 <-> Forall (fun v => f v = 0) l.
Proof.
  induction l as [|x l IH]; simpl.
  - rewrite np_sum_nil. split; [constructor | reflexivity].
  - rewrite np_sum_cons. pose proof (np_sum_squares_nonneg f l) as Hl.
    split.
    + intros Hs. assert (f x * f x = 0) by nra.
      constructor; [nra | apply IH; nra].
    + intros Hall. inversion Hall as [|? ? Hx Hrest]; subst.
      apply IH in Hrest. rewrite Hx, Hrest. lra.
Qed.

Lemma risk_parity_objective_times (c : R) (w : list R) (cov_matrix : list (list R)) :
  0 < c ->
  risk_parity_objective (map (Rmult c) w) cov_matrix
  = c * c * risk_parity_objective w cov_matrix.
Proof.
  intros Hc. rewrite !risk_parity_objective_report.
  rewrite risk_contribution_times by exact Hc.
  rewrite portfolio_volatility_times by lra.
  rewrite length_map, map_map, <- np_sum_times, map_map.
  f_equal. apply map_ext. intros rc. unfold Rdiv. lra.
Qed.

Lemma normalize_times (x : list R) :
  normalize x = map (Rmult (/ np_sum x)) x.
Proof.
  unfold normalize. apply map_ext. intros v. simpl. unfold Rdiv. lra.
Qed.

(** X13. In exact arithmetic the risk-parity objective is never negative, and
    it is zero exactly at the weights whose risk contributions, as the
    handler reports them, all equal the reported volatility divided by the
    number of assets. *)
Theorem X13_objective_zero_iff_equal_contributions
    (w : list R) (cov_matrix : list (list R)) :
  0 <= risk_parity_objective w cov_matrix
  /\ (risk_parity_objective w cov_matrix = 0
      <-> forall rc, rc ∈ risk_contribution cov_matrix w ->
                     rc = portfolio_volatility cov_matrix w / IZR (Z.of_nat (length w))).
Proof.
  rewrite risk_parity_objective_report.
  set (target := portfolio_volatility cov_matrix w / IZR (Z.of_nat (length w))).
  split; [apply (np_sum_squares_nonneg (fun rc => rc - target))|].
  rewrite (np_sum_squares_zero (fun rc => rc - target)), Forall_forall.
  split; intros Hall rc Hrc; specialize (Hall rc Hrc); lra.
Qed.

(** X14. Dividing the solver's weights by their sum, as the handler does
    before it reports, scales every risk contribution and the volatility by
    the same factor and the objective by its square: in exact arithmetic,
    for weights of positive sum, the normalized weights are a zero of the
    objective exactly when the solver's weights are. *)
Theorem X14_normalization_keeps_risk_parity
    (x : list R) (cov_matrix : list (list R)) :
  0 < np_sum x ->
  risk_contribution cov_matrix (normalize x)
  = map (fun rc => rc / np_sum x) (risk_contribution cov_matrix x)
  /\ portfolio_volatility cov_matrix (normalize x)
     = portfolio_volatility cov_matrix x / np_sum x
  /\ risk_parity_objective (normalize x) cov_matrix
     = risk_parity_objective x cov_matrix / (np_sum x * np_sum x)
  /\ (risk_parity_objective (normalize x) cov_matrix = 0
      <-> risk_parity_objective x cov_matrix = 0).
Proof.
  intros Hs. rewrite normalize_times.
  assert (Hc : 0 < / np_sum x) by (apply Rinv_0_lt_compat; exact Hs).
  rewrite risk_contribution_times, portfolio_volatility_times,
    risk_parity_objective_times by lra.
  split; [apply map_ext; intros; unfold Rdiv; lra|].
  split; [unfold Rdiv; lra|].
  split; [unfold Rdiv; rewrite Rinv_mult; lra|].
  split; intros Hz; [|rewrite Hz; lra].
  apply Rmult_integral in Hz as [Hz|Hz]; [|exact Hz]. nra.
Qed.

Lemma np_dot_zeros (n : nat) (w : list R) : np_dot (replicate n 0) w = 0.
Proof.
  unfold np_dot, np_multiply. revert w.
  induction n as [|n IH]; intros [|y w]; simpl; try apply np_sum_nil.
  rewrite np_sum_cons, IH. lra.
Qed.

Lemma np_dot_unit (n i : nat) (v : R) (w : list R) :
  (i < n)%nat -> np_dot (<[i := v]> (replicate n 0)) w = v * nth i w 0.
Proof.
  revert i w. induction n as [|n IH]; intros i w Hi; [lia|].
  destruct i as [|i], w as [|y w]; simpl.
  - unfold np_dot, np_multiply. simpl. rewrite np_sum_nil. lra.
  - change (np_dot (v :: replicate n 0) (y :: w))
      with (np_sum (v * y :: np_multiply (replicate n 0) w)).
    rewrite np_sum_cons.
    change (np_sum (np_multiply (replicate n 0) w)) with (np_dot (replicate n 0) w).
    rewrite np_dot_zeros. lra.
  - unfold np_dot, np_multiply. simpl. rewrite np_sum_nil. lra.
  - change (np_dot (0 :: <[i := v]> (replicate n 0)) (y :: w))
      with (np_sum (0 * y :: np_multiply (<[i := v]> (replicate n 0)) w)).
    rewrite np_sum_cons.
    change (np_sum (np_multiply (<[i := v]> (replicate n 0)) w))
      with (np_dot (<[i := v]> (replicate n 0)) w).
    rewrite IH by lia. lra.
Qed.

(** A diagonal matrix multiplies a vector entry by entry. *)
Lemma np_matvec_diagonal (variances w : list R) :
  length w = length variances ->
  np_matvec (diagonal variances) w = np_multiply variances w.
Proof.
  intros Hlen. apply list_eq. intros i.
  unfold np_matvec, diagonal, np_multiply.
  rewrite lookup_map, list_lookup_imap, lookup_zip_with.
  destruct (variances !! i) as [v|] eqn:Hv; simpl; [|reflexivity].
  pose proof (lookup_lt_Some _ _ _ Hv) as Hi.
  destruct (lookup_lt_is_Some_2 w i ltac:(lia)) as (wi & Hwi).
  rewrite Hwi. simpl. f_equal.
  change zero with 0. rewrite np_dot_unit by exact Hi.
  rewrite (nth_lookup_Some _ _ _ _ Hwi). reflexivity.
Qed.

Lemma np_sum_replicate (n : nat) (k : R) : np_sum (replicate n k) = INR n * k.
Proof.
  induction n as [|n IH]; [simpl; rewrite np_sum_nil; lra|].
  change (replicate (S n) k) with (k :: replicate n k).
  rewrite np_sum_cons, IH, S_INR. lra.
Qed.

(** Under a diagonal covariance, weights at which [variance * w * w] is the
    same positive number for every asset are a zero of the objective. *)
Lemma risk_parity_objective_diagonal (variances w : list R) (k : R) :
  length w = length variances -> w <> [] -> 0 < k ->
  (forall i v wi, variances !! i = Some v -> w !! i = Some wi -> v * wi * wi = k) ->
  risk_parity_objective w (diagonal variances) = 0.
Proof.
  intros Hlen Hne Hk Hequal.
  assert (Hn : 0 < INR (length w)).
  { apply lt_0_INR. destruct w; [congruence | simpl; lia]. }
  assert (Hshares : np_multiply (np_matvec (diagonal variances) w) w
                    = replicate (length w) k).
  { rewrite np_matvec_diagonal by exact Hlen. apply list_eq. intros i.
    unfold np_multiply. rewrite !lookup_zip_with.
    destruct (lt_dec i (length w)) as [Hi|Hi].
    - destruct (lookup_lt_is_Some_2 w i Hi) as (wi & Hwi).
      destruct (lookup_lt_is_Some_2 variances i ltac:(lia)) as (v & Hv).
      rewrite Hv, Hwi. simpl. rewrite lookup_replicate_2 by exact Hi.
      f_equal. exact (Hequal i v wi Hv Hwi).
    - rewrite (lookup_ge_None_2 w) by lia.
      rewrite (lookup_ge_None_2 (replicate _ _)) by (rewrite length_replicate; lia).
      destruct (variances !! i); reflexivity. }
  assert (Hvar : portfolio_variance (diagonal variances) w = INR (length w) * k).
  { unfold portfolio_variance, np_dot. rewrite np_multiply_comm, Hshares.
    apply np_sum_replicate. }
  assert (Hvol : 0 < portfolio_volatility (diagonal variances) w
                 /\ portfolio_volatility (diagonal variances) w
                    * portfolio_volatility (diagonal variances) w
                    = INR (length w) * k).
  { unfold portfolio_volatility. rewrite Hvar. simpl.
    assert (0 < INR (length w) * k) by nra.
    split; [apply sqrt_lt_R0; assumption | apply sqrt_sqrt; lra]. }
  destruct Hvol as [Hpos Hsquare].
  rewrite risk_parity_objective_report.
  set (vol := portfolio_volatility (diagonal variances) w) in *.
  apply (np_sum_squares_zero (fun rc => rc - vol / IZR (Z.of_nat (length w)))).
  apply Forall_forall. intros rc Hrc.
  unfold risk_contribution, marginal_contribution in Hrc.
  rewrite Hshares in Hrc. fold vol in Hrc.
  apply list_elem_of_In, in_map_iff in Hrc as (v & <- & Hv).
  apply list_elem_of_In, elem_of_replicate in Hv as [-> _].
  rewrite <- INR_IZR_INZ. simpl.
  apply (Rmult_eq_reg_l (vol * INR (length w))); [|nra].
  replace (vol * INR (length w) * (k / vol - vol / INR (length w)))
    with (INR (length w) * k - vol * vol) by (field; lra).
  rewrite Hsquare. lra.
Qed.

Lemma np_sum_positive (l : list R) :
  l <> [] -> Forall (fun v => 0 < v) l -> 0 < np_sum l.
Proof.
  intros Hne Hl. destruct Hl as [|x l Hx Hl]; [congruence|].
  rewrite np_sum_cons.
  assert (0 <= np_sum l); [|lra].
  apply np_sum_nonneg. eapply Forall_impl; [exact Hl|]. simpl. intros; lra.
Qed.

(** X15. For uncorrelated assets, weights inversely proportional to the
    volatilities are a risk-parity allocation: with [sigmas] the positive
    volatilities and the diagonal covariance of their squares, the weights
    [1 / sigma], normalized as the handler normalizes, sum to one, lie in
    the unit interval, and are a zero of the objective, in exact
    arithmetic. *)
Theorem X15_inverse_volatility_weights_are_risk_parity (sigmas : list R) :
  sigmas <> [] -> Forall (fun s => 0 < s) sigmas ->
  np_sum (normalize (map Rinv sigmas)) = 1
  /\ Forall (fun v => 0 <= v <= 1) (normalize (map Rinv sigmas))
  /\ risk_parity_objective (normalize (map Rinv sigmas))
       (diagonal (map (fun s => s * s) sigmas)) = 0.
Proof.
  intros Hne Hpos.
  assert (Hinv : Forall (fun v => 0 < v) (map Rinv sigmas)).
  { apply Forall_forall. intros v Hv.
    apply list_elem_of_In, in_map_iff in Hv as (s & <- & Hs).
    apply Rinv_0_lt_compat. rewrite Forall_forall in Hpos.
    apply Hpos, list_elem_of_In, Hs. }
  assert (Hsum : 0 < np_sum (map Rinv sigmas)).
  { apply np_sum_positive; [|exact Hinv]. destruct sigmas; [congruence|discriminate]. }
  split; [apply normalize_sum; lra|].
  split.
  { apply normalize_bounds; [|exact Hsum].
    eapply Forall_impl; [exact Hinv|]. simpl. intros; lra. }
  rewrite normalize_times, risk_parity_objective_times
    by (apply Rinv_0_lt_compat; exact Hsum).
  rewrite (risk_parity_objective_diagonal _ _ 1); [lra| | |lra|].
  - rewrite !length_map. reflexivity.
  - destruct sigmas; [congruence|discriminate].
  - intros i v wi Hv Hwi. rewrite lookup_map in Hv, Hwi.
    destruct (sigmas !! i) as [s|] eqn:Hs; [|discriminate].
    injection Hv as <-. injection Hwi as <-.
    assert (0 < s).
    { rewrite Forall_forall in Hpos. eapply Hpos, list_elem_of_lookup_2, Hs. }
    field. lra.
Qed.

(** X16. For uncorrelated assets of one positive variance, the equal weights
    [1 / n] at which the handler starts the solver are already a zero of
    the objective, and they satisfy the sum-to-one constraint the solver is
    given, in exact arithmetic. *)
Theorem X16_equal_weights_solve_equal_variances (n : nat) (variance : R) :
  (0 < n)%nat -> 0 < variance ->
  let initial_weights := replicate n (1 / IZR (Z.of_nat n)) in
  risk_parity_objective initial_weights (diagonal (replicate n variance)) = 0
  /\ np_sum initial_weights - 1 = 0.
Proof.
  intros Hn Hvariance. cbv zeta.
  assert (HINR : 0 < INR n) by (apply lt_0_INR; exact Hn).
  rewrite <- INR_IZR_INZ. split.
  - apply (risk_parity_objective_diagonal _ _ (variance * (1 / INR n) * (1 / INR n))).
    + rewrite !length_replicate. reflexivity.
    + destruct n; [lia | discriminate].
    + apply Rmult_lt_0_compat; [apply Rmult_lt_0_compat|];
        try exact Hvariance; apply Rdiv_lt_0_compat; lra.
    + intros i v wi Hv Hwi.
      apply lookup_replicate in Hv as [-> _].
      apply lookup_replicate in Hwi as [-> _]. reflexivity.
  - rewrite np_sum_replicate. field. lra.
Qed.
End ObjectiveOverReals.

Lemma X14_normalization_keeps_risk_parity_witness :
  (0 < np_sum [1; 3])%R
  /\ RiskParity.risk_parity_objective (RiskParity.normalize [1; 3]%R) RealDraws.cov_matrix
     = (RiskParity.risk_parity_objective [1; 3] RealDraws.cov_matrix
        / (np_sum [1; 3] * np_sum [1; 3]))%R.
Proof.
  assert (Hsum : (0 < np_sum [1; 3])%R).
  { rewrite !np_sum_cons, np_sum_nil. lra. }
  split; [exact Hsum|].
  apply (X14_normalization_keeps_risk_parity [1; 3]%R RealDraws.cov_matrix Hsum).
Defined.

Lemma X15_inverse_volatility_weights_are_risk_parity_witness :
  [2; 4]%R <> []
  /\ Forall (fun s => 0 < s)%R [2; 4]%R
  /\ RiskParity.risk_parity_objective (RiskParity.normalize (map Rinv [2; 4]%R))
       (diagonal (map (fun s => s * s)%R [2; 4]%R)) = 0%R.
Proof.
  assert (Hne : [2; 4]%R <> []) by discriminate.
  assert (Hpos : Forall (fun s => 0 < s)%R [2; 4]%R)
    by (repeat constructor; lra).
  split; [exact Hne|]. split; [exact Hpos|].
  apply (X15_inverse_volatility_weights_are_risk_parity [2; 4]%R Hne Hpos).
Defined.

Lemma X16_equal_weights_solve_equal_variances_witness :
  (0 < 2)%nat /\ (0 < 4 / 10000)%R
  /\ RiskParity.risk_parity_objective [1 / 2; 1 / 2]%R RealDraws.cov_matrix = 0%R.
Proof.
  assert (Hn : (0 < 2)%nat) by lia.
  assert (Hvariance : (0 < 4 / 10000)%R) by lra.
  split; [exact Hn|]. split; [exact Hvariance|].
  exact (proj1 (X16_equal_weights_solve_equal_variances 2 (4 / 10000)%R Hn Hvariance)).
Defined.

(** ** The statistics block over the reals *)

Section RealStatistics.
Local Open Scope R_scope.

Lemma np_minimum_real (a b : R) : np_minimum a b = Rmin a b.
Proof.
  unfold np_minimum. rewrite !is_nan_real. simpl. unfold Rmin, Rleb.
  destruct (Rle_dec a b); reflexivity.
Qed.

Lemma np_maximum_real (a b : R) : np_maximum a b = Rmax a b.
Proof.
  unfold np_maximum. rewrite !is_nan_real. simpl. unfold Rmax, Rleb.
  destruct (Rle_dec a b); reflexivity.
Qed.

Lemma foldl_np_minimum (x : R) (v : list R) :
  let m := foldl np_minimum x v in
  m ∈ x :: v /\ forall y, y ∈ x :: v -> m <= y.
Proof.
  revert x. induction v as [|z v IH]; intros x; simpl.
  - split; [left|]. intros y Hy. apply list_elem_of_singleton in Hy. lra.
  - destruct (IH (np_minimum x z)) as [Hin Hle]. cbv zeta in Hin, Hle.
    pose proof (Rmin_l x z). pose proof (Rmin_r x z).
    rewrite np_minimum_real in *. split.
    + apply elem_of_cons in Hin as [Hin|Hin].
      * rewrite Hin. unfold Rmin. destruct (Rle_dec x z).
        -- left.
        -- right. left.
      * right. right. exact Hin.
    + intros y Hy.
      assert (Hmin : foldl np_minimum (Rmin x z) v <= Rmin x z) by (apply Hle; left).
      rewrite !elem_of_cons in Hy. destruct Hy as [->|[->|Hy]]; try lra.
      apply Hle. right. exact Hy.
Qed.

Lemma foldl_np_maximum (x : R) (v : list R) :
  let m := foldl np_maximum x v in
  m ∈ x :: v /\ forall y, y ∈ x :: v -> y <= m.
Proof.
  revert x. induction v as [|z v IH]; intros x; simpl.
  - split; [left|]. intros y Hy. apply list_elem_of_singleton in Hy. lra.
  - destruct (IH (np_maximum x z)) as [Hin Hle]. cbv zeta in Hin, Hle.
    pose proof (Rmax_l x z). pose proof (Rmax_r x z).
    rewrite np_maximum_real in *. split.
    + apply elem_of_cons in Hin as [Hin|Hin].
      * rewrite Hin. unfold Rmax. destruct (Rle_dec x z).
        -- right. left.
        -- left.
      * right. right. exact Hin.
    + intros y Hy.
      assert (Hmax : Rmax x z <= foldl np_maximum (Rmax x z) v) by (apply Hle; left).
      rewrite !elem_of_cons in Hy. destruct Hy as [->|[->|Hy]]; try lra.
      apply Hle. right. exact Hy.
Qed.

Lemma np_sum_between (lo hi : R) (v : list R) :
  Forall (fun y => lo <= y <= hi) v ->
  INR (length v) * lo <= np_sum v <= INR (length v) * hi.
Proof.
  induction 1 as [|y v Hy _ IH].
  - rewrite np_sum_nil. simpl. lra.
  - rewrite np_sum_cons. change (length (y :: v)) with (S (length v)).
    rewrite S_INR. lra.
Qed.

Lemma np_mean_between (lo hi : R) (v : list R) :
  v <> [] -> Forall (fun y => lo <= y <= hi) v -> lo <= np_mean v <= hi.
Proof.
  intros Hne Hv. pose proof (np_sum_between lo hi v Hv) as Hsum.
  assert (Hn : 0 < INR (length v)).
  { apply lt_0_INR. destruct v; [congruence | simpl; lia]. }
  unfold np_mean. simpl. rewrite <- INR_IZR_INZ.
  split.
  - apply (Rmult_le_reg_r (INR (length v))); [exact Hn|].
    unfold Rdiv. rewrite Rmult_assoc, Rinv_l by lra. lra.
  - apply (Rmult_le_reg_r (INR (length v))); [exact Hn|].
    unfold Rdiv. rewrite Rmult_assoc, Rinv_l by lra. lra.
Qed.

Lemma np_sort_Forall (P : R -> Prop) (v : list R) :
  Forall P v -> Forall P (np_sort v).
Proof.
  induction 1 as [|x v Hx _ IH]; simpl; [constructor|].
  apply insert_sorted_Forall; assumption.
Qed.

Lemma np_percentile_between (lo hi : R) (v : list R) (q : Z) :
  v <> [] -> (0 <= q <= 100)%Z -> Forall (fun y => lo <= y <= hi) v ->
  exists p, np_percentile v q = Ok p /\ lo <= p <= hi.
Proof.
  intros Hne Hq Hv.
  pose proof (np_sort_Forall _ v Hv) as Hs. rewrite Forall_forall in Hs.
  destruct (np_percentile_real v q Hne Hq)
    as [(_ & l & Hl & ->)|(Hin & k & a & b & Hk & Ha & Hb & ->)].
  - exists l. split; [reflexivity|]. eapply Hs, list_elem_of_lookup_2, Hl.
  - eexists. split; [reflexivity|].
    destruct (base_Int_part (virtual_index (length v) q)) as [Hle Hgt].
    rewrite Hk in Hle, Hgt.
    assert (lo <= a <= hi) by (eapply Hs, list_elem_of_lookup_2, Ha).
    assert (lo <= b <= hi) by (eapply Hs, list_elem_of_lookup_2, Hb).
    set (t := virtual_index (length v) q - IZR (Z.of_nat k)) in *.
    assert (0 <= t <= 1) by (unfold t; lra).
    replace (a + (b - a) * t) with ((1 - t) * a + t * b) by ring.
    split; nra.
Qed.

(** The middle of the sorted values: one value for an odd count, two for an
    even one. *)
Lemma np_median_real (v : list R) :
  v <> [] ->
  let s := np_sort v in
  let n := length v in
  ((n mod 2 = 1)%nat /\ exists a, s !! (n / 2)%nat = Some a /\ np_median v = a)
  \/ ((n mod 2 = 0)%nat
      /\ exists a b, s !! (n / 2 - 1)%nat = Some a /\ s !! (n / 2)%nat = Some b
                     /\ np_median v = (a + b) / 2).
Proof.
  intros Hne. cbv zeta.
  assert (Hn : (0 < length v)%nat) by (destruct v; [congruence | simpl; lia]).
  pose proof (Nat.div_mod_eq (length v) 2) as Hdiv.
  pose proof (Nat.mod_upper_bound (length v) 2 ltac:(lia)) as Hmod.
  assert (Hlast : np_median v
                  = np_mean (if (length v mod 2 =? 1)%nat
                             then take 1 (drop (length v / 2) (np_sort v))
                             else take 2 (drop (length v / 2 - 1) (np_sort v)))).
  { unfold np_median. destruct (last (np_sort v)); [rewrite is_nan_real|]; reflexivity. }
  rewrite Hlast.
  destruct (Nat.eqb_spec (length v mod 2) 1) as [Hodd|Heven].
  - left.
    destruct (lookup_lt_is_Some_2 (np_sort v) (length v / 2)) as (a & Ha);
      [rewrite np_sort_length; lia|].
    split; [exact Hodd|]. exists a. split; [exact Ha|].
    rewrite (drop_S _ _ _ Ha). simpl. rewrite take_0.
    unfold np_mean. rewrite np_sum_cons, np_sum_nil. simpl.
    change (Z.of_nat 1) with 1%Z. lra.
  - right. assert (Hzero : (length v mod 2 = 0)%nat) by lia.
    destruct (lookup_lt_is_Some_2 (np_sort v) (length v / 2 - 1)) as (a & Ha);
      [rewrite np_sort_length; lia|].
    destruct (lookup_lt_is_Some_2 (np_sort v) (length v / 2)) as (b & Hb);
      [rewrite np_sort_length; lia|].
    split; [exact Hzero|]. exists a, b. split; [exact Ha|]. split; [exact Hb|].
    rewrite (drop_S _ _ _ Ha).
    replace (S (length v / 2 - 1)) with (length v / 2)%nat by lia.
    rewrite (drop_S _ _ _ Hb). simpl. rewrite take_0.
    unfold np_mean. rewrite !np_sum_cons, np_sum_nil. simpl.
    change (Z.of_nat 2) with 2%Z. lra.
Qed.

Lemma summarize_real (final_values : list R) :
  final_values <> [] ->
  exists (lo hi p5 p25 p50 p75 p95 : R),
    np_min final_values = Ok lo /\ np_max final_values = Ok hi
    /\ np_percentile final_values 5 = Ok p5
    /\ np_percentile final_values 25 = Ok p25
    /\ np_percentile final_values 50 = Ok p50
    /\ np_percentile final_values 75 = Ok p75
    /\ np_percentile final_values 95 = Ok p95
    /\ Simulate.summarize final_values
       = Ok {| Simulate.meanFinalValue := np_mean final_values;
               Simulate.medianFinalValue := np_median final_values;
               Simulate.minFinalValue := lo;
               Simulate.maxFinalValue := hi;
               Simulate.standardDeviation := np_std final_values;
               Simulate.percentiles :=
                 [("5", p5); ("25", p25); ("50", p50); ("75", p75);
                  ("95", p95)]%string |}.
Proof.
  intros Hne.
  destruct (np_percentile_monotone final_values 5 25 Hne) as (p5 & p25 & H5 & H25 & _);
    try lia.
  destruct (np_percentile_monotone final_values 50 75 Hne) as (p50 & p75 & H50 & H75 & _);
    try lia.
  destruct (np_percentile_monotone final_values 95 95 Hne) as (p95 & _ & H95 & _ & _);
    try lia.
  unfold Simulate.summarize.
  destruct final_values as [|x final_values]; [congruence|].
  rewrite H5, H25, H50, H75, H95. simpl.
  eexists _, _, p5, p25, p50, p75, p95. repeat split; assumption || reflexivity.
Qed.

(** X17. In exact arithmetic, for any non-empty vector of final values, the
    statistics block returns; the minimum and the maximum it reports are
    final values that bound all the others; and the mean, the median and
    every percentile it reports lie between them. The standard deviation is
    not negative. *)
Theorem X17_statistics_lie_between_extremes (final_values : list R) :
  final_values <> [] ->
  exists stats : Simulate.statistics_summary R,
    Simulate.summarize final_values = Ok stats
    /\ Simulate.minFinalValue stats ∈ final_values
    /\ Simulate.maxFinalValue stats ∈ final_values
    /\ (forall v, v ∈ final_values ->
          Simulate.minFinalValue stats <= v <= Simulate.maxFinalValue stats)
    /\ Simulate.minFinalValue stats <= Simulate.meanFinalValue stats
       <= Simulate.maxFinalValue stats
    /\ Simulate.minFinalValue stats <= Simulate.medianFinalValue stats
       <= Simulate.maxFinalValue stats
    /\ (forall key p, (key, p) ∈ Simulate.percentiles stats ->
          Simulate.minFinalValue stats <= p <= Simulate.maxFinalValue stats)
    /\ 0 <= Simulate.standardDeviation stats.
Proof.
  intros Hne.
  destruct (summarize_real final_values Hne)
    as (lo & hi & p5 & p25 & p50 & p75 & p95
        & Hlo & Hhi & H5 & H25 & H50 & H75 & H95 & ->).
  eexists. split; [reflexivity|]. simpl.
  assert (Hbounds : lo ∈ final_values /\ hi ∈ final_values
                    /\ Forall (fun v => lo <= v <= hi) final_values).
  { destruct final_values as [|x rest]; [congruence|].
    simpl in Hlo, Hhi. injection Hlo as <-. injection Hhi as <-.
    destruct (foldl_np_minimum x rest) as [Hmin_in Hmin].
    destruct (foldl_np_maximum x rest) as [Hmax_in Hmax].
    split; [exact Hmin_in|]. split; [exact Hmax_in|].
    apply Forall_forall. intros v Hv. split; [apply Hmin | apply Hmax]; exact Hv. }
  destruct Hbounds as (Hlo_in & Hhi_in & Hall).
  split; [exact Hlo_in|]. split; [exact Hhi_in|].
  split; [rewrite Forall_forall in Hall; exact Hall|].
  split; [apply np_mean_between; assumption|].
  split.
  { pose proof (np_sort_Forall _ final_values Hall) as Hs.
    rewrite Forall_forall in Hs.
    destruct (np_median_real final_values Hne)
      as [(_ & a & Ha & ->)|(_ & a & b & Ha & Hb & ->)].
    - eapply Hs, list_elem_of_lookup_2, Ha.
    - assert (lo <= a <= hi) by (eapply Hs, list_elem_of_lookup_2, Ha).
      assert (lo <= b <= hi) by (eapply Hs, list_elem_of_lookup_2, Hb).
      lra. }
  split; [|apply sqrt_pos].
  intros key p Hp.
  assert (Hq : exists q, (0 <= q <= 100)%Z /\ np_percentile final_values q = Ok p).
  { rewrite !elem_of_cons in Hp.
    destruct Hp as [Hp|[Hp|[Hp|[Hp|[Hp|Hp]]]]];
      try (injection Hp as -> ->); [exists 5%Z|exists 25%Z|exists 50%Z|exists 75%Z|exists 95%Z|];
      try (split; [lia|assumption]).
    apply elem_of_nil in Hp. destruct Hp. }
  destruct Hq as (q & Hq & Hp').
  destruct (np_percentile_between lo hi final_values q Hne Hq Hall) as (p' & Hp'' & Hle).
  rewrite Hp' in Hp''. injection Hp'' as <-. exact Hle.
Qed.

(** X18. In exact arithmetic the median the statistics block reports is the
    50th percentile it reports, for any non-empty vector of final values. *)
Theorem X18_median_is_fiftieth_percentile (final_values : list R) :
  final_values <> [] ->
  exists stats : Simulate.statistics_summary R,
    Simulate.summarize final_values = Ok stats
    /\ np_percentile final_values 50 = Ok (Simulate.medianFinalValue stats)
    /\ ("50"%string, Simulate.medianFinalValue stats) ∈ Simulate.percentiles stats.
Proof.
  intros Hne.
  destruct (summarize_real final_values Hne)
    as (lo & hi & p5 & p25 & p50 & p75 & p95
        & Hlo & Hhi & H5 & H25 & H50 & H75 & H95 & ->).
  eexists. split; [reflexivity|]. simpl.
  assert (Hmedian : p50 = np_median final_values).
  { assert (Hn : (0 < length final_values)%nat)
      by (destruct final_values; [congruence | simpl; lia]).
    pose proof (Nat.div_mod_eq (length final_values) 2) as Hdiv.
    remember (length final_values) as n eqn:Hndef.
    assert (Hh : virtual_index n 50 = (INR n - 1) / 2).
    { unfold virtual_index. rewrite minus_IZR, <- INR_IZR_INZ. lra. }
    assert (Hhalf : INR n = 2 * INR (n / 2) + INR (n mod 2)).
    { rewrite Hdiv at 1. rewrite plus_INR, mult_INR. change (INR 2) with 2. lra. }
    destruct (np_percentile_real final_values 50 Hne ltac:(lia))
      as [(Habove & l & Hl & Hp)|(Hin & k & a & b & Hk & Ha & Hb & Hp)];
      rewrite <- ?Hndef in *; rewrite H50 in Hp; injection Hp as ->.
    - (* one value *)
      rewrite Hh, minus_IZR, <- INR_IZR_INZ in Habove.
      assert (Hone : n = 1%nat).
      { assert (Hle : INR n <= INR 1) by (simpl; lra). apply INR_le in Hle. lia. }
      destruct (np_median_real final_values Hne)
        as [(_ & a & Ha & ->)|(Heven & _)]; rewrite <- ?Hndef in *.
      + rewrite Hone in Hl, Ha. simpl in Hl, Ha. congruence.
      + rewrite Hone in Heven. discriminate.
    - rewrite Hh in Hk |- *.
      destruct (np_median_real final_values Hne)
        as [(Hodd & a' & Ha' & ->)|(Heven & a' & b' & Ha' & Hb' & ->)];
        rewrite <- ?Hndef in *.
      + (* odd count *)
        rewrite Hodd in Hhalf. change (INR 1) with 1 in Hhalf.
        assert (Hk' : k = (n / 2)%nat).
        { apply Nat2Z.inj. rewrite <- Hk. symmetry. apply Int_part_spec.
          rewrite <- INR_IZR_INZ. lra. }
        subst k. rewrite Ha in Ha'. injection Ha' as <-.
        rewrite <- INR_IZR_INZ. nra.
      + (* even count *)
        rewrite Heven in Hhalf. change (INR 0) with 0 in Hhalf.
        assert (Hpos : (0 < n / 2)%nat) by lia.
        assert (Hk' : k = (n / 2 - 1)%nat).
        { apply Nat2Z.inj. rewrite <- Hk. symmetry. apply Int_part_spec.
          rewrite <- INR_IZR_INZ, minus_INR by lia. change (INR 1) with 1. lra. }
        subst k. rewrite Ha in Ha'. injection Ha' as <-.
        replace (S (n / 2 - 1)) with (n / 2)%nat in Hb by lia.
        rewrite Hb in Hb'. injection Hb' as <-.
        rewrite <- INR_IZR_INZ, minus_INR by lia. change (INR 1) with 1. nra. }
  rewrite <- Hmedian. split; [exact H50|].
  rewrite !elem_of_cons. auto.
Qed.
End RealStatistics.

Lemma X17_statistics_lie_between_extremes_witness :
  [90; 95; 100; 105; 110]%R <> []
  /\ exists stats : Simulate.statistics_summary R,
       Simulate.summarize [90; 95; 100; 105; 110]%R = Ok stats
       /\ (Simulate.minFinalValue stats <= Simulate.meanFinalValue stats
           <= Simulate.maxFinalValue stats)%R.
Proof.
  assert (Hne : [90; 95; 100; 105; 110]%R <> []) by discriminate.
  split; [exact Hne|].
  destruct (X17_statistics_lie_between_extremes [90; 95; 100; 105; 110]%R Hne)
    as (stats & Hs & _ & _ & _ & Hmean & _).
  exists stats. auto.
Defined.

Lemma X18_median_is_fiftieth_percentile_witness :
  [90; 95; 100; 105; 110]%R <> []
  /\ exists stats : Simulate.statistics_summary R,
       Simulate.summarize [90; 95; 100; 105; 110]%R = Ok stats
       /\ np_percentile [90; 95; 100; 105; 110]%R 50
          = Ok (Simulate.medianFinalValue stats).
Proof.
  assert (Hne : [90; 95; 100; 105; 110]%R <> []) by discriminate.
  split; [exact Hne|].
  destruct (X18_median_is_fiftieth_percentile [90; 95; 100; 105; 110]%R Hne)
    as (stats & Hs & Hp & _).
  exists stats. auto.
Defined.

Section SimulationStatistics.
Local Open Scope R_scope.
Context {G : Type} `{DrawSource G R}.
Variable PORTFOLIO_TABLE SIMULATION_RESULT_TABLE : string.
Variable query_by_id : string -> pyval R -> result (option (Simulate.portfolio R)).
Variable put_item : string -> Simulate.simulation_result R -> result unit.
Variable str : pyval R -> string.
Variable uuid4 utcnow : string.

Let handler := Simulate.lambda_handler PORTFOLIO_TABLE SIMULATION_RESULT_TABLE
                 query_by_id put_item str uuid4 utcnow.

Lemma summarize_extremes {A : Type} `{Num A} (final_values : list A)
    (stats : Simulate.statistics_summary A) :
  Simulate.summarize final_values = Ok stats ->
  np_min final_values = Ok (Simulate.minFinalValue stats)
  /\ np_max final_values = Ok (Simulate.maxFinalValue stats).
Proof.
  unfold Simulate.summarize. intros Hs. invert_binds. subst. simpl. auto.
Qed.

(** X19. In exact arithmetic, the minimum and the maximum of a success
    response of the simulation handler are the final values of two of the
    trajectories it carries, and the final value of every trajectory it
    carries lies between them. *)
Theorem X19_reported_extremes_bound_every_path (body : list (string * pyval R))
    (g g' : G) (res : Simulate.simulation_result R) :
  handler body g = (response.success res, g') ->
  let lo := Simulate.minFinalValue (Simulate.statistics res) in
  let hi := Simulate.maxFinalValue (Simulate.statistics res) in
  (exists row, row ∈ Simulate.trajectories res /\ getitem_py row (-1) = Ok lo)
  /\ (exists row, row ∈ Simulate.trajectories res /\ getitem_py row (-1) = Ok hi)
  /\ forall row, row ∈ Simulate.trajectories res ->
       exists final, getitem_py row (-1) = Ok final /\ lo <= final <= hi.
Proof.
  intros Hres. cbv zeta.
  destruct (simulate_success_inv _ _ _ _ _ _ _ body g g' res Hres)
    as (_ & _ & _ & _ & _ & _ & final_values & _ & _ & _ & _ & _ & Hfinal & Hstats).
  apply mapM_result_Forall2 in Hfinal.
  destruct (summarize_extremes _ _ Hstats) as [Hlo Hhi].
  destruct final_values as [|x rest]; [discriminate|].
  simpl in Hlo, Hhi. injection Hlo as Hlo. injection Hhi as Hhi.
  destruct (foldl_np_minimum x rest) as [Hmin_in Hmin].
  destruct (foldl_np_maximum x rest) as [Hmax_in Hmax].
  rewrite Hlo in Hmin_in, Hmin. rewrite Hhi in Hmax_in, Hmax.
  split; [|split].
  - apply list_elem_of_lookup_1 in Hmin_in as (i & Hi).
    destruct (Forall2_lookup_r _ _ _ _ _ Hfinal Hi) as (row & Hrow & Hget).
    exists row. split; [eapply list_elem_of_lookup_2, Hrow | exact Hget].
  - apply list_elem_of_lookup_1 in Hmax_in as (i & Hi).
    destruct (Forall2_lookup_r _ _ _ _ _ Hfinal Hi) as (row & Hrow & Hget).
    exists row. split; [eapply list_elem_of_lookup_2, Hrow | exact Hget].
  - intros row Hrow. apply list_elem_of_lookup_1 in Hrow as (i & Hi).
    destruct (Forall2_lookup_l _ _ _ _ _ Hfinal Hi) as (final & Hfin & Hget).
    exists final. split; [exact Hget|].
    apply list_elem_of_lookup_2 in Hfin. split; [apply Hmin | apply Hmax]; exact Hfin.
Qed.
End SimulationStatistics.

Lemma X19_reported_extremes_bound_every_path_witness :
  exists (res : Simulate.simulation_result R) (g' : scripted R),
    RealDraws.simulate_handler RealDraws.body RealDraws.draws = (response.success res, g')
    /\ forall row, row ∈ Simulate.trajectories res ->
         exists final, getitem_py row (-1) = Ok final
           /\ (Simulate.minFinalValue (Simulate.statistics res) <= final
               <= Simulate.maxFinalValue (Simulate.statistics res))%R.
Proof.
  assert (Hsuccess : exists res g',
             RealDraws.simulate_handler RealDraws.body RealDraws.draws
             = (response.success res, g')).
  { destruct (RealDraws.simulate_handler RealDraws.body RealDraws.draws)
      as [answer g'] eqn:Hrun.
    cbv - [Simulate.summarize R_num Rplus Rminus Rmult Rdiv Rinv Ropp IZR R_sqrt.sqrt
           Rle_dec Int_part] in Hrun.
    match type of Hrun with
    | context [Simulate.summarize ?v] =>
        destruct (summarize_real v ltac:(discriminate))
          as (lo & hi & p5 & p25 & p50 & p75 & p95 & _ & _ & _ & _ & _ & _ & _ & Hs);
        rewrite Hs in Hrun
    end.
    injection Hrun as <- <-. eexists _, _. reflexivity. }
  destruct Hsuccess as (res & g' & Hsuccess).
  exists res, g'. split; [exact Hsuccess|].
  exact (proj2 (proj2 (X19_reported_extremes_bound_every_path _ _ _ _ _ _ _
                         RealDraws.body RealDraws.draws g' res Hsuccess))).
Defined.

(** ** The keys of the optimization report and the use of the draw source *)

Lemma fst_zip_take {X Y : Type} (a : list X) (b : list Y) :
  map fst (zip a b) = take (length b) a.
Proof.
  revert b. induction a as [|x a IH]; intros [|y b]; simpl; try reflexivity.
  rewrite IH. reflexivity.
Qed.

Section OptimizationReport.
Context {A : Type} `{Num A}.
Variable PORTFOLIO_TABLE OPTIMIZATION_RESULT_TABLE : string.
Variable query_by_id : string -> pyval A -> result (option (RiskParity.portfolio A)).
Variable put_item : string -> RiskParity.optimization_result A -> result unit.
Variable minimize :
  (list A -> A) -> list A -> list (A * A) -> (list A -> A) -> Z
  -> result (RiskParity.optimize_result A).
Variable str : pyval A -> string.
Variable uuid4 utcnow : string.

Let handler := RiskParity.lambda_handler PORTFOLIO_TABLE OPTIMIZATION_RESULT_TABLE
                 query_by_id put_item minimize str uuid4 utcnow.

(** X20. In a success response of the optimization handler the weights and
    the risk contributions are reported for the same assets, in the same
    order: the assets of the stored portfolio, in the portfolio's order, as
    far as the solver returned weights; all of them when the solver returned
    one weight per asset. *)
Theorem X20_report_lists_portfolio_assets (body : list (string * pyval A))
    (res : RiskParity.optimization_result A) :
  handler body = response.success res ->
  exists (portfolio : RiskParity.portfolio A) (cov_matrix : list (list A))
         (r : RiskParity.optimize_result A),
    let asset_list := map fst (RiskParity.assets portfolio) in
    query_by_id PORTFOLIO_TABLE (dict_get body "portfolioId") = Ok (Some portfolio)
    /\ minimize (fun w => RiskParity.risk_parity_objective w cov_matrix)
         (replicate (length asset_list) (div one (of_Z (Z.of_nat (length asset_list)))))
         (replicate (length asset_list) (zero, one))
         (fun x => sub (np_sum x) one) 1000 = Ok r
    /\ map fst (RiskParity.riskContribution (RiskParity.metrics res))
       = map fst (RiskParity.weights res)
    /\ map fst (RiskParity.weights res) = take (length (RiskParity.x r)) asset_list
    /\ (length (RiskParity.x r) = length asset_list ->
        map fst (RiskParity.weights res) = asset_list).
Proof.
  intros Hres.
  destruct (optimize_success_inv _ _ _ _ _ _ _ _ body res Hres)
    as (portfolio & cov_matrix & r & Hquery & Hcov & Hcall & _ & Hw & _ & Hrc).
  cbv zeta in *. exists portfolio, cov_matrix, r.
  split; [exact Hquery|]. split; [exact Hcall|].
  rewrite Hw, Hrc, !fst_zip_take.
  assert (Hlen : length (RiskParity.normalize (RiskParity.x r))
                 = length (RiskParity.x r)).
  { unfold RiskParity.normalize. apply length_map. }
  rewrite Hlen. split; [|split].
  - unfold RiskParity.risk_contribution, RiskParity.marginal_contribution,
      np_multiply, np_matvec.
    rewrite length_map, length_zip_with, length_map, Hlen, Hcov.
    set (asset_list := map fst (RiskParity.assets portfolio)).
    destruct (Nat.le_ge_cases (length asset_list) (length (RiskParity.x r))) as [Hle|Hge].
    + rewrite Nat.min_l by exact Hle. rewrite !take_ge by lia. reflexivity.
    + rewrite Nat.min_r by exact Hge. reflexivity.
  - reflexivity.
  - intros Hx. rewrite take_ge by lia. reflexivity.
Qed.
End OptimizationReport.

Lemma X20_report_lists_portfolio_assets_witness :
  exists res : RiskParity.optimization_result float,
    Scenario.optimize_handler Scenario.sound_body = response.success res
    /\ map fst (RiskParity.riskContribution (RiskParity.metrics res))
       = map fst (RiskParity.weights res).
Proof.
  assert (Hsuccess : exists res,
             Scenario.optimize_handler Scenario.sound_body = response.success res)
    by (eexists; vm_compute; reflexivity).
  destruct Hsuccess as (res & Hsuccess).
  exists res. split; [exact Hsuccess|].
  destruct (X20_report_lists_portfolio_assets _ _ _ _ _ _ _ _
              Scenario.sound_body res Hsuccess)
    as (_ & _ & _ & _ & _ & Hkeys & _).
  exact Hkeys.
Defined.

Section DrawSourceUse.
Context {A : Type} `{Num A} {G : Type} `{DrawSource G A}.

(** X21. The simulation handler draws only in the simulator: a request it
    answers with status 400 or 404 (a validation error, a missing series, an
    unknown portfolio) leaves the draw source as it found it. *)
Theorem X21_rejected_requests_draw_nothing
    portfolio_table result_table query_by_id put_item str uuid4 utcnow
    (body : list (string * pyval A)) (g : G) :
  let answer := Simulate.lambda_handler portfolio_table result_table query_by_id
                  put_item str uuid4 utcnow body g in
  response.statusCode (fst answer) = 400 \/ response.statusCode (fst answer) = 404 ->
  snd answer = g.
Proof.
  cbv zeta. unfold Simulate.lambda_handler.
  case_handler; simpl; intros [Hs|Hs]; try discriminate Hs; reflexivity.
Qed.
End DrawSourceUse.

Lemma X21_rejected_requests_draw_nothing_witness :
  response.statusCode
    (fst (Scenario.simulate_handler Scenario.non_numeric_body Scenario.draws)) = 400
  /\ snd (Scenario.simulate_handler Scenario.non_numeric_body Scenario.draws)
     = Scenario.draws.
Proof.
  assert (Hstatus : response.statusCode
                      (fst (Scenario.simulate_handler Scenario.non_numeric_body
                              Scenario.draws)) = 400)
    by (vm_compute; reflexivity).
  split; [exact Hstatus|].
  exact (X21_rejected_requests_draw_nothing _ _ _ _ _ _ _
           Scenario.non_numeric_body Scenario.draws (or_introl Hstatus)).
Defined.
